(** * Blender add-ons [focus_similar_fcurves] and [preview_world_to_render]

    A shallow embedding of the two operators of the repository and the
    properties their specification states about them.

    - [Py]           : the fragment of Python the operators rely on
                       (exceptions that keep the mutations done so far,
                       [str] of an integer, [re.sub] with the strip pattern,
                       [os.path.basename]).
    - [Bpy]          : report types, operator results and the session an
                       operator runs in.
    - [Focus]        : [GRAPH_OT_focus_and_hide_fcurves.execute]; the Graph
                       Editor operators it calls are an interface of the host.
    - [PreviewWorld] : [WORLD_OT_copy_shading_hdri.execute]; the file system,
                       node creation and image loading are an interface of
                       the host.
    - [Props]        : the vocabulary of the properties.
    - [Scenario]     : concrete curves, screens and hosts.

    Python strings are modelled as byte strings ([string]); on UTF-8 encoded
    text the strip pattern behaves the same, since none of the bytes of a
    multi-byte character equals a bracket, a parenthesis or a line feed.
    The viewport values are binary64 floats; the operator only copies
    them. *)

From Stdlib Require Import Bool Arith ZArith Lia List Permutation.
From Stdlib Require Import Ascii String Decimal DecimalString DecimalPos DecimalZ.
From Stdlib Require Import Floats.
Import ListNotations.

Open Scope string_scope.

(* ===================================================================== *)
(** * Python fragment *)
(* ===================================================================== *)

Module Py.

(** ** Exceptions and state *)

(** An exception: its class and [str(e)].  Every exception modelled here is
    an instance of [Exception], so [except Exception] catches it. *)
Record Exn : Type := mkExn { exn_class : string; exn_str : string }.

Inductive Outcome (A : Type) : Type :=
| Ok (a : A)
| Raise (e : Exn).
Arguments Ok {A} a.
Arguments Raise {A} e.

(** A computation over a mutable host state [S]: an exception leaves the
    mutations made before it in place. *)
Definition M (S A : Type) : Type := S -> Outcome A * S.

Definition ret {S A} (a : A) : M S A := fun s => (Ok a, s).

Definition bind {S A B} (m : M S A) (k : A -> M S B) : M S B :=
  fun s => match m s with
           | (Ok a, s') => k a s'
           | (Raise e, s') => (Raise e, s')
           end.

Definition raise {S A} (e : Exn) : M S A := fun s => (Raise e, s).

(** [try: body  except Exception as e: handler e] *)
Definition try_except {S A} (body : M S A) (handler : Exn -> M S A) : M S A :=
  fun s => match body s with
           | (Ok a, s') => (Ok a, s')
           | (Raise e, s') => handler e s'
           end.

Definition get {S} : M S S := fun s => (Ok s, s).
Definition modify {S} (f : S -> S) : M S unit := fun s => (Ok tt, f s).

Declare Scope py_scope.
Delimit Scope py_scope with py.
Notation "x <- m ;; k" := (bind m (fun x => k))
  (at level 61, m at next level, right associativity) : py_scope.
Notation "m ;; k" := (bind m (fun _ => k))
  (at level 61, right associativity) : py_scope.

(** A host call whose result is given by an oracle. *)
Definition lift_sum {S A} (r : Exn + A) : M S A :=
  match r with
  | inl e => raise e
  | inr a => ret a
  end.

(** ** Characters *)

Definition LF : ascii := "010"%char.
Definition DQUOTE : ascii := "034"%char.

Fixpoint has_char (a : ascii) (s : string) : bool :=
  match s with
  | EmptyString => false
  | String c r => Ascii.eqb c a || has_char a r
  end.

Fixpoint drop (n : nat) (s : string) : string :=
  match n, s with
  | O, _ => s
  | S _, EmptyString => EmptyString
  | S k, String _ r => drop k r
  end.

(** ** [str(i)] and [', '.join] *)

Definition str_int (i : Z) : string := NilZero.string_of_int (Z.to_int i).

Definition join (sep : string) (l : list string) : string := String.concat sep l.

(** ** [re.sub(r'\[.*?\]|\(.*?\)', '', s)] *)

(** [.*?] followed by the closing character, tried at the start of [s]:
    the number of characters consumed, the closing one included.  The lazy
    star stops at the first closing character, and [.] matches every
    character but a line feed. *)
Fixpoint lazy_until (close : ascii) (s : string) : option nat :=
  match s with
  | EmptyString => None
  | String c r =>
      if Ascii.eqb c close then Some 1
      else if Ascii.eqb c LF then None
      else option_map S (lazy_until close r)
  end.

(** One alternative of the pattern, [open .*? close], at the start of [s]. *)
Definition match_delim (open close : ascii) (s : string) : option nat :=
  match s with
  | EmptyString => None
  | String c r =>
      if Ascii.eqb c open then option_map S (lazy_until close r) else None
  end.

(** [strip_pattern.match] at the start of [s]: the length of the match.
    The alternatives are tried in order. *)
Definition strip_pattern (s : string) : option nat :=
  match match_delim "[" "]" s with
  | Some n => Some n
  | None => match_delim "(" ")" s
  end.

(** The substitution loop: [skip] characters of the current match are still
    to be dropped; otherwise the pattern is tried at the current position,
    and on failure the character is copied. *)
Fixpoint sub_from (skip : nat) (s : string) : string :=
  match s with
  | EmptyString => EmptyString
  | String c r =>
      match skip with
      | S k => sub_from k r
      | O =>
          match strip_pattern (String c r) with
          | Some (S k) => sub_from k r
          | _ => String c (sub_from 0 r)
          end
      end
  end.

Definition re_sub_strip (s : string) : string := sub_from 0 s.

(** ** [os.path.basename] (POSIX): what follows the last slash *)

Fixpoint basename (s : string) : string :=
  match s with
  | EmptyString => EmptyString
  | String c r => if has_char "/" s then basename r else s
  end.

End Py.

(* ===================================================================== *)
(** * What both operators use of the host *)
(* ===================================================================== *)

Module Bpy.
Import Py.

(** The report types passed to [self.report]. *)
Inductive Level : Type := INFO | WARNING | ERROR.

(** The sets an operator's [execute] returns. *)
Inductive Status : Type := FINISHED | CANCELLED.

(** The host while an operator runs: the data the operator works on, the
    reports shown to the user and what was printed to the console. *)
Record Session (D : Type) : Type := mkSession {
  data : D;
  reports : list (Level * string);
  stdout : list string
}.
Arguments mkSession {D}.
Arguments data {D}.
Arguments reports {D}.
Arguments stdout {D}.

Definition report {D} (lvl : Level) (msg : string) : M (Session D) unit :=
  modify (fun s => mkSession (data s) (reports s ++ [(lvl, msg)]) (stdout s)).

Definition print {D} (msg : string) : M (Session D) unit :=
  modify (fun s => mkSession (data s) (reports s) (stdout s ++ [msg])).

Definition set_data {D} (f : D -> D) : M (Session D) unit :=
  modify (fun s => mkSession (f (data s)) (reports s) (stdout s)).

End Bpy.

(* ===================================================================== *)
(** * focus_similar_fcurves.py *)
(* ===================================================================== *)

Module Focus.
Import Py Bpy.
Local Open Scope py_scope.

(** An F-Curve as the operator sees it. *)
Record FCurve : Type := mkFCurve {
  data_path : string;
  array_index : Z;
  select : bool;
  hide : bool
}.

(** The context hands out references to F-Curves; every reference resolves
    to a live curve, so the store is a total map from references. *)
Abbreviation FId := nat (only parsing).
Abbreviation Store := (nat -> FCurve) (only parsing).

Record Region : Type := mkRegion { region_type : string }.
Record Area : Type := mkArea { area_type : string; regions : list Region }.

Record Context : Type := mkContext {
  selected_editable_fcurves : list FId;
  visible_fcurves : list FId;
  screen_areas : list Area
}.

(** The operators of [bpy.ops.graph] the add-on calls. *)
Inductive GraphCall : Type :=
| Reveal (select : bool)
| Hide (unselected : bool)
| ViewAll.

(** The Graph Editor of the host.  An operator runs in the current context
    or under an override (area, region); it may raise, and changes the
    curves as the host sees fit. *)
Class GraphEditor : Type := {
  temp_override : Area -> Region -> option Exn;
  graph_op : option (Area * Region) -> GraphCall -> Store -> Outcome unit * Store
}.

(** [f"{re.sub(strip_pattern, '', fcurve.data_path)}[{fcurve.array_index}]"] *)
Definition name_format_of (path : string) (index : Z) : string :=
  re_sub_strip path ++ "[" ++ str_int index ++ "]".

Definition name_format (c : FCurve) : string :=
  name_format_of (data_path c) (array_index c).

(** [x in list_of_str] *)
Definition mem (x : string) (l : list string) : bool :=
  existsb (String.eqb x) l.

Definition set_select (c : FCurve) (b : bool) : FCurve :=
  mkFCurve (data_path c) (array_index c) b (hide c).

(** [selectCurve]: [fcurve.select = select] *)
Definition selectCurve (f : FId) (b : bool) : M (Session Store) unit :=
  set_data (fun st g => if Nat.eqb g f then set_select (st g) b else st g).

(** The loop of lines 56-64, with the two lists it appends to. *)
Fixpoint scan (targets : list string) (visible : list FId)
         (fcurves_to_show fcurves_to_hide : list FId)
  : M (Session Store) (list FId * list FId) :=
  match visible with
  | [] => ret (fcurves_to_show, fcurves_to_hide)
  | fcurve :: rest =>
      s <- get ;;
      let current_fcurve_name_format := name_format (data s fcurve) in
      if mem current_fcurve_name_format targets then
        selectCurve fcurve true ;;
        scan targets rest (fcurves_to_show ++ [fcurve]) fcurves_to_hide
      else
        selectCurve fcurve false ;;
        scan targets rest fcurves_to_show (fcurves_to_hide ++ [fcurve])
  end.

Section Operator.
Context {host : GraphEditor}.

Definition call (override : option (Area * Region)) (c : GraphCall)
  : M (Session Store) unit :=
  fun s => let (r, st) := graph_op override c (data s) in
           (r, mkSession st (reports s) (stdout s)).

(** [with context.temp_override(...)]: entering the override may raise. *)
Definition enter_override (a : Area) (r : Region) : M (Session Store) unit :=
  match temp_override a r with
  | Some e => raise e
  | None => ret tt
  end.

(** Lines 84-95. *)
Definition focus_ops (a : Area) (r : Region) : M (Session Store) unit :=
  enter_override a r ;;
  call (Some (a, r)) (Reveal true) ;;
  call (Some (a, r)) (Hide true) ;;
  call (Some (a, r)) ViewAll.

(** [next(r for r in area.regions if r.type == 'WINDOW')] *)
Definition next_window_region (a : Area) : M (Session Store) Region :=
  match find (fun r => String.eqb (region_type r) "WINDOW") (regions a) with
  | Some r => ret r
  | None => raise (mkExn "StopIteration" "")
  end.

(** Lines 70-102: what follows the scan once a curve matched. *)
Definition hide_and_view (ctx : Context) (fcurves_to_show : list FId)
  : M (Session Store) Status :=
  match find (fun a => String.eqb (area_type a) "GRAPH_EDITOR") (screen_areas ctx) with
  | None =>
      report WARNING "No Graph Editor area found" ;;
      ret CANCELLED
  | Some graph_editor_area =>
      graph_editor_region <- next_window_region graph_editor_area ;;
      done <- try_except
                (focus_ops graph_editor_area graph_editor_region ;; ret true)
                (fun e =>
                   report ERROR ("Failed to call graph operators: " ++ exn_str e) ;;
                   ret false) ;;
      if done then
        report INFO ("Focused on "
                     ++ str_int (Z.of_nat (List.length fcurves_to_show))
                     ++ " F-Curves and hid others.") ;;
        ret FINISHED
      else ret CANCELLED
  end.

(** [GRAPH_OT_focus_and_hide_fcurves.execute] *)
Definition execute (ctx : Context) : M (Session Store) Status :=
  match selected_editable_fcurves ctx with
  | [] =>
      report INFO "No FCurve selected in the Graph Editor." ;;
      try_except
        (call None (Reveal false) ;; call None ViewAll)
        (fun e => report ERROR ("Failed to call graph operators: " ++ exn_str e)) ;;
      ret CANCELLED
  | _ :: _ =>
      s <- get ;;
      let target_fcurve_name_formats :=
        map (fun f => name_format (data s f)) (selected_editable_fcurves ctx) in
      report INFO ("Target F-Curve name formats: "
                   ++ join ", " target_fcurve_name_formats) ;;
      print ("Target F-Curve name formats: "
             ++ join ", " target_fcurve_name_formats) ;;
      match visible_fcurves ctx with
      | [] =>
          report WARNING "No F-Curves found in any action." ;;
          ret CANCELLED
      | _ :: _ =>
          p <- scan target_fcurve_name_formats (visible_fcurves ctx) [] [] ;;
          match fst p with
          | [] =>
              report INFO "No matching F-Curves found across all actions." ;;
              ret CANCELLED
          | _ :: _ => hide_and_view ctx (fst p)
          end
      end
  end.

End Operator.

End Focus.

(* ===================================================================== *)
(** * preview_world_to_render.py *)
(* ===================================================================== *)

Module PreviewWorld.
Import Py Bpy.
Local Open Scope py_scope.

(** [context.space_data.shading], as far as the operator reads it. *)
Record Shading : Type := mkShading {
  studio_light : string;
  studiolight_background_blur : float;
  studiolight_rotate_z : float
}.

Record StudioLight : Type := mkStudioLight { light_name : string; light_path : string }.

(** ** Node trees *)

(** [inputs[0]] or [inputs['Scale']]. *)
Inductive SocketKey : Type :=
| Idx (n : nat)
| Name (s : string).

Inductive Value : Type :=
| VFloat (x : float)
| VVector (x y z : float)
| VOther.

Record Socket : Type := mkSocket { socket_name : string; default_value : Value }.

Record Node : Type := mkNode {
  bl_idname : string;
  location : Z * Z;
  label : string;
  data_type : string;
  operation : string;
  image : option string;        (* the name of the image data block *)
  inputs : list Socket;
  outputs : list Socket
}.

(** A link joins an output socket to an input socket; nodes are referred
    to by their position in the tree, sockets by their position in the
    node. *)
Record Link : Type := mkLink {
  from_node : nat; from_socket : nat;
  to_node : nat; to_socket : nat
}.

Record NodeTree : Type := mkNodeTree { nodes : list Node; links : list Link }.

Record World : Type := mkWorld {
  world_name : string;
  use_nodes : bool;
  node_tree : option NodeTree
}.

Record Image : Type := mkImage { image_name : string; filepath : string }.

(** The host data the operator reads and writes.  The worlds and images
    are the data blocks of [bpy.data.worlds] and [bpy.data.images], listed
    in the order in which they were created: the position of a world is
    the reference by which the operator holds it, and an image is looked
    up by its name.  The order in which the host enumerates these
    collections (by name) is not modelled; the operator never enumerates
    them. *)
Record Blend : Type := mkBlend {
  studio_lights : list StudioLight;   (* bpy.context.preferences.studio_lights *)
  worlds : list World;                (* the blocks of bpy.data.worlds *)
  images : list Image;                (* the blocks of bpy.data.images *)
  scene_world : option nat            (* context.scene.world *)
}.

(** What the host decides: the file system, the data blocks and nodes it
    creates, and whether creating a node or loading an image fails. *)
Class Host : Type := {
  path_exists : string -> bool;                      (* os.path.exists *)
  worlds_new : string -> list World -> World;        (* bpy.data.worlds.new *)
  default_node_tree : NodeTree;                      (* made by use_nodes = True *)
  node_new : string -> Exn + Node;                   (* nodes.new(type=...) *)
  images_load : string -> list Image -> Exn + Image  (* bpy.data.images.load *)
}.

(** [get_studio_light_path] *)
Fixpoint get_studio_light_path (lights : list StudioLight) (name : string)
  : option string :=
  match lights with
  | [] => None
  | light :: rest =>
      if String.eqb (light_name light) name then Some (light_path light)
      else get_studio_light_path rest name
  end.

(** ** Updating a list in place *)

Fixpoint update_nth {A} (n : nat) (f : A -> A) (l : list A) : list A :=
  match l, n with
  | [], _ => []
  | x :: r, O => f x :: r
  | x :: r, S k => x :: update_nth k f r
  end.

Fixpoint find_index {A} (p : A -> bool) (l : list A) : option nat :=
  match l with
  | [] => None
  | x :: r => if p x then Some 0 else option_map S (find_index p r)
  end.

(** ** Operations on the world the operator holds a reference to *)

Definition set_tree (t : NodeTree) : M World unit :=
  modify (fun w => mkWorld (world_name w) (use_nodes w) (Some t)).

(** [world.node_tree] *)
Definition the_tree : M World NodeTree :=
  w <- get ;;
  match node_tree w with
  | Some t => ret t
  | None => raise (mkExn "AttributeError"
                         "'NoneType' object has no attribute 'nodes'")
  end.

Definition node_at (n : nat) : M World Node :=
  t <- the_tree ;;
  match nth_error (nodes t) n with
  | Some x => ret x
  | None => raise (mkExn "ReferenceError" "StructRNA of type Node has been removed")
  end.

Definition update_node (n : nat) (f : Node -> Node) : M World unit :=
  t <- the_tree ;;
  set_tree (mkNodeTree (update_nth n f (nodes t)) (links t)).

(** [nodes.clear()] *)
Definition nodes_clear : M World unit :=
  _ <- the_tree ;;
  set_tree (mkNodeTree [] []).

(** [socket_collection[key]] *)
Definition resolve (k : SocketKey) (l : list Socket) : Exn + nat :=
  match k with
  | Idx n =>
      if Nat.ltb n (List.length l) then inr n
      else inl (mkExn "IndexError" "bpy_prop_collection[index]: index out of range")
  | Name s =>
      match find_index (fun x => String.eqb (socket_name x) s) l with
      | Some i => inr i
      | None => inl (mkExn "KeyError" ("bpy_prop_collection[key]: key not found: " ++ s))
      end
  end.

Definition output_socket (n : nat) (k : SocketKey) : M World (nat * nat) :=
  x <- node_at n ;;
  i <- lift_sum (resolve k (outputs x)) ;;
  ret (n, i).

Definition input_socket (n : nat) (k : SocketKey) : M World (nat * nat) :=
  x <- node_at n ;;
  i <- lift_sum (resolve k (inputs x)) ;;
  ret (n, i).

(** [links.new(output, input)] *)
Definition links_new (o i : nat * nat) : M World unit :=
  t <- the_tree ;;
  set_tree (mkNodeTree (nodes t)
                       (links t ++ [mkLink (fst o) (snd o) (fst i) (snd i)])).

(** [links.new(a.outputs[ka], b.inputs[kb])], arguments left to right. *)
Definition link (a : nat) (ka : SocketKey) (b : nat) (kb : SocketKey) : M World unit :=
  o <- output_socket a ka ;;
  i <- input_socket b kb ;;
  links_new o i.

Definition set_location (n : nat) (xy : Z * Z) : M World unit :=
  update_node n (fun x => mkNode (bl_idname x) xy (label x) (data_type x)
                                 (operation x) (image x) (inputs x) (outputs x)).

Definition set_label (n : nat) (l : string) : M World unit :=
  update_node n (fun x => mkNode (bl_idname x) (location x) l (data_type x)
                                 (operation x) (image x) (inputs x) (outputs x)).

Definition set_data_type (n : nat) (d : string) : M World unit :=
  update_node n (fun x => mkNode (bl_idname x) (location x) (label x) d
                                 (operation x) (image x) (inputs x) (outputs x)).

Definition set_operation (n : nat) (o : string) : M World unit :=
  update_node n (fun x => mkNode (bl_idname x) (location x) (label x) (data_type x)
                                 o (image x) (inputs x) (outputs x)).

Definition set_image (n : nat) (img : string) : M World unit :=
  update_node n (fun x => mkNode (bl_idname x) (location x) (label x) (data_type x)
                                 (operation x) (Some img) (inputs x) (outputs x)).

Definition with_inputs (x : Node) (l : list Socket) : Node :=
  mkNode (bl_idname x) (location x) (label x) (data_type x)
         (operation x) (image x) l (outputs x).

(** [node.inputs[k].default_value = v] *)
Definition set_default (n : nat) (k : SocketKey) (v : Value) : M World unit :=
  s <- input_socket n k ;;
  update_node n (fun x =>
    with_inputs x (update_nth (snd s) (fun so => mkSocket (socket_name so) v) (inputs x))).

(** [node.inputs[k].default_value[2] = z] *)
Definition set_default_z (n : nat) (k : SocketKey) (z : float) : M World unit :=
  s <- input_socket n k ;;
  x <- node_at n ;;
  match option_map default_value (nth_error (inputs x) (snd s)) with
  | Some (VVector a b _) =>
      update_node n (fun x =>
        with_inputs x (update_nth (snd s)
                         (fun so => mkSocket (socket_name so) (VVector a b z))
                         (inputs x)))
  | _ => raise (mkExn "TypeError" "object does not support item assignment")
  end.

(** ** The operator *)

Section Operator.
Context {host : Host}.

(** [nodes.new(type=ty)]: the new node is added at the end of the tree. *)
Definition nodes_new (ty : string) : M World nat :=
  t <- the_tree ;;
  x <- lift_sum (node_new ty) ;;
  set_tree (mkNodeTree (nodes t ++ [x]) (links t)) ;;
  ret (List.length (nodes t)).

(** [world.use_nodes = True]: the host gives the world a node tree. *)
Definition set_use_nodes : M World unit :=
  modify (fun w => mkWorld (world_name w) true
                           (match node_tree w with
                            | Some t => Some t
                            | None => Some default_node_tree
                            end)).

(** Runs [m] on the world behind the reference [wid]; the scene and
    [bpy.data.worlds] refer to the same world. *)
Definition on_world {A} (wid : nat) (m : M World A) : M (Session Blend) A :=
  fun s =>
    match nth_error (worlds (data s)) wid with
    | None => (Raise (mkExn "ReferenceError" "StructRNA of type World has been removed"), s)
    | Some w =>
        let (r, w') := m w in
        (r, mkSession (mkBlend (studio_lights (data s))
                               (update_nth wid (fun _ => w') (worlds (data s)))
                               (images (data s))
                               (scene_world (data s)))
                      (reports s) (stdout s))
    end.

(** [bpy.data.worlds.new(name)]: the result is the reference of the new
    block, the next free position of the store. *)
Definition data_worlds_new (name : string) : M (Session Blend) nat :=
  s <- get ;;
  set_data (fun d => mkBlend (studio_lights d)
                             (worlds d ++ [worlds_new name (worlds d)])
                             (images d) (scene_world d)) ;;
  ret (List.length (worlds (data s))).

(** [context.scene.world = world] *)
Definition set_scene_world (wid : nat) : M (Session Blend) unit :=
  set_data (fun d => mkBlend (studio_lights d) (worlds d) (images d) (Some wid)).

Definition has_image (name : string) (l : list Image) : bool :=
  existsb (fun i => String.eqb (image_name i) name) l.

(** [bpy.data.images.load(path, check_existing=True)]; an image is referred
    to by its name in [bpy.data.images].  A block is added to the store
    unless the image the host returns is one that is already there. *)
Definition data_images_load (path : string) : M (Session Blend) string :=
  s <- get ;;
  img <- lift_sum (images_load path (images (data s))) ;;
  set_data (fun d => mkBlend (studio_lights d) (worlds d)
                             (if has_image (image_name img) (images d)
                              then images d else images d ++ [img])
                             (scene_world d)) ;;
  ret (image_name img).

(** Lines 55-64: the world gets an empty tree with the environment node. *)
Definition setup_world : M World nat :=
  set_use_nodes ;;
  nodes_clear ;;
  env_node <- nodes_new "ShaderNodeTexEnvironment" ;;
  set_location env_node (-300, 0)%Z ;;
  ret env_node.

(** Lines 50-64: the new world, made the scene's world, and its
    environment node.  Returns the world and the node. *)
Definition create_world (studio_light_name : string) : M (Session Blend) (nat * nat) :=
  world <- data_worlds_new ("Preview " ++ studio_light_name) ;;
  set_scene_world world ;;
  env_node <- on_world world setup_world ;;
  ret (world, env_node).

(** Lines 68-79: the body of the [try]. *)
Definition load_image (world env_node : nat) (studio_light_path : string)
  : M (Session Blend) unit :=
  let image_name := basename studio_light_path in
  s <- get ;;
  img <- match find (fun i => String.eqb (PreviewWorld.image_name i) image_name)
                    (images (data s)) with
         | Some existing =>
             if negb (String.eqb (filepath existing) studio_light_path)
             then data_images_load studio_light_path
             else ret (PreviewWorld.image_name existing)
         | None => data_images_load studio_light_path
         end ;;
  on_world world (set_image env_node img).

(** Lines 85-154: the rest of the graph.  (Step 5 of the source only reads
    [env_node.image] and changes nothing.) *)
Definition build_graph (shading : Shading) (env_node : nat) : M World unit :=
  bg_node <- nodes_new "ShaderNodeBackground" ;;
  set_location bg_node (0, 0)%Z ;;
  link env_node (Name "Color") bg_node (Name "Color") ;;
  output_node <- nodes_new "ShaderNodeOutputWorld" ;;
  set_location output_node (200, 0)%Z ;;
  link bg_node (Name "Background") output_node (Name "Surface") ;;
  tex_coord <- nodes_new "ShaderNodeTexCoord" ;;
  set_location tex_coord (-1200, 0)%Z ;;
  mapping <- nodes_new "ShaderNodeMapping" ;;
  set_location mapping (-900, 0)%Z ;;
  link tex_coord (Name "Generated") mapping (Name "Vector") ;;
  blur_node <- nodes_new "ShaderNodeMix" ;;
  set_data_type blur_node "VECTOR" ;;
  set_label blur_node "Blur" ;;
  set_location blur_node (-600, 0)%Z ;;
  set_default blur_node (Idx 0) (VFloat (studiolight_background_blur shading)) ;;
  noise_node <- nodes_new "ShaderNodeTexNoise" ;;
  set_default noise_node (Name "Scale") (VFloat 30000%float) ;;
  set_location noise_node (-900, 300)%Z ;;
  sub_node <- nodes_new "ShaderNodeVectorMath" ;;
  set_operation sub_node "SUBTRACT" ;;
  set_default sub_node (Idx 1) (VVector 0.5%float 0.5%float 0.5%float) ;;
  set_location sub_node (-700, 300)%Z ;;
  link noise_node (Name "Color") sub_node (Idx 0) ;;
  link sub_node (Name "Vector") blur_node (Idx 5) ;;
  link mapping (Name "Vector") blur_node (Idx 4) ;;
  link blur_node (Idx 1) env_node (Name "Vector") ;;
  set_default_z mapping (Name "Rotation") (studiolight_rotate_z shading).

(** [not studio_light_path or not os.path.exists(studio_light_path)] *)
Definition path_missing (p : option string) : bool :=
  match p with
  | None => true
  | Some path => String.eqb path "" || negb (path_exists path)
  end.

(** [WORLD_OT_copy_shading_hdri.execute] *)
Definition execute (shading : Shading) : M (Session Blend) Status :=
  s <- get ;;
  let studio_light_name := studio_light shading in
  let studio_light_path :=
    get_studio_light_path (studio_lights (data s)) studio_light_name in
  match studio_light_path with
  | Some path =>
      if path_missing studio_light_path then
        report ERROR ("Could not find path for studio light: " ++ studio_light_name) ;;
        ret CANCELLED
      else
        w <- create_world studio_light_name ;;
        loaded <- try_except
                    (load_image (fst w) (snd w) path ;; ret true)
                    (fun e =>
                       report ERROR ("Failed to load image: " ++ exn_str e) ;;
                       ret false) ;;
        if loaded then
          on_world (fst w) (build_graph shading (snd w)) ;;
          report INFO ("Copied HDRI '" ++ studio_light_name ++ "' to World") ;;
          ret FINISHED
        else ret CANCELLED
  | None =>
      report ERROR ("Could not find path for studio light: " ++ studio_light_name) ;;
      ret CANCELLED
  end.

End Operator.

End PreviewWorld.

(* ===================================================================== *)
(** * Vocabulary of the properties *)
(* ===================================================================== *)

Module Props.
Import Py Bpy.

(** The pattern matches at no position of [s]. *)
Fixpoint no_match (s : string) : bool :=
  match s with
  | EmptyString => true
  | String c r =>
      match strip_pattern (String c r) with
      | Some _ => false
      | None => no_match r
      end
  end.

(** Some ["["] of [s] has no line feed after it. *)
Fixpoint dangling_open (s : string) : bool :=
  match s with
  | EmptyString => false
  | String c r =>
      (Ascii.eqb c "[" && negb (has_char LF r)) || dangling_open r
  end.

(** Every ["["] of [s] is closed on its line: a ["]"] follows it before
    the next line feed and before the end of [s]. *)
Fixpoint brackets_closed (s : string) : bool :=
  match s with
  | EmptyString => true
  | String c r =>
      (negb (Ascii.eqb c "[")
       || match lazy_until "]" r with Some _ => true | None => false end)
      && brackets_closed r
  end.

(** The first [n] characters of [s] exist and none is a line feed. *)
Fixpoint one_line (n : nat) (s : string) : bool :=
  match n, s with
  | O, _ => true
  | S _, EmptyString => false
  | S k, String c r => negb (Ascii.eqb c LF) && one_line k r
  end.

(** Every character of [s] is a decimal digit or a minus sign. *)
Fixpoint numeral (s : string) : bool :=
  match s with
  | EmptyString => true
  | String c r => has_char c "0123456789-" && numeral r
  end.

(** The name format of the curve behind [f] is one of the targets. *)
Definition is_target (targets : list string) (st : Focus.Store) (f : Focus.FId) : bool :=
  Focus.mem (Focus.name_format (st f)) targets.

(** The store the scan leaves: the select flag of every visible curve says
    whether its name format is a target; nothing else changes. *)
Definition scanned (targets : list string) (visible : list Focus.FId)
           (st : Focus.Store) : Focus.Store :=
  fun g =>
    if existsb (Nat.eqb g) visible
    then Focus.set_select (st g) (is_target targets st g)
    else st g.

(** The targets the operator derives from its selection. *)
Definition targets_of (st : Focus.Store) (selected : list Focus.FId) : list string :=
  map (fun f => Focus.name_format (st f)) selected.

(** The session in which the scan starts: the targets were reported and
    printed. *)
Definition announced (sel : list Focus.FId) (s : Session Focus.Store)
  : Session Focus.Store :=
  let line := "Target F-Curve name formats: " ++ join ", " (targets_of (data s) sel) in
  mkSession (data s) (reports s ++ [(INFO, line)]) (stdout s ++ [line]).

(** ** Node trees *)

Definition at_location (x : PreviewWorld.Node) (xy : Z * Z) : PreviewWorld.Node :=
  PreviewWorld.mkNode (PreviewWorld.bl_idname x) xy (PreviewWorld.label x)
                      (PreviewWorld.data_type x) (PreviewWorld.operation x)
                      (PreviewWorld.image x) (PreviewWorld.inputs x)
                      (PreviewWorld.outputs x).

Definition with_image (x : PreviewWorld.Node) (img : string) : PreviewWorld.Node :=
  PreviewWorld.mkNode (PreviewWorld.bl_idname x) (PreviewWorld.location x)
                      (PreviewWorld.label x) (PreviewWorld.data_type x)
                      (PreviewWorld.operation x) (Some img)
                      (PreviewWorld.inputs x) (PreviewWorld.outputs x).

(** [node.inputs[k].default_value] *)
Definition input_default (x : PreviewWorld.Node) (k : PreviewWorld.SocketKey)
  : option PreviewWorld.Value :=
  match PreviewWorld.resolve k (PreviewWorld.inputs x) with
  | inr i => option_map PreviewWorld.default_value (nth_error (PreviewWorld.inputs x) i)
  | inl _ => None
  end.

(** The tree links [a.outputs[ka]] to [b.inputs[kb]]. *)
Definition wired (t : PreviewWorld.NodeTree)
           (a : nat) (ka : PreviewWorld.SocketKey)
           (b : nat) (kb : PreviewWorld.SocketKey) : Prop :=
  exists na nb i j,
    nth_error (PreviewWorld.nodes t) a = Some na
    /\ nth_error (PreviewWorld.nodes t) b = Some nb
    /\ PreviewWorld.resolve ka (PreviewWorld.outputs na) = inr i
    /\ PreviewWorld.resolve kb (PreviewWorld.inputs nb) = inr j
    /\ In (PreviewWorld.mkLink a i b j) (PreviewWorld.links t).

(** [x] is what [nodes.new(type=ty)] made, up to the settings the operator
    assigned afterwards. *)
Definition made_by {host : PreviewWorld.Host} (ty : string) (x : PreviewWorld.Node) : Prop :=
  exists x0,
    PreviewWorld.node_new ty = inr x0
    /\ PreviewWorld.bl_idname x = PreviewWorld.bl_idname x0
    /\ map PreviewWorld.socket_name (PreviewWorld.inputs x)
       = map PreviewWorld.socket_name (PreviewWorld.inputs x0)
    /\ PreviewWorld.outputs x = PreviewWorld.outputs x0.

(** The graph the operator builds around the environment node [env]: eight
    nodes, seven links, and the two viewport values. *)
Definition preview_graph {host : PreviewWorld.Host} (shading : PreviewWorld.Shading)
           (env : PreviewWorld.Node) (t : PreviewWorld.NodeTree) : Prop :=
  exists bg output tex_coord mapping blur noise sub,
    PreviewWorld.nodes t = [env; bg; output; tex_coord; mapping; blur; noise; sub]
    /\ made_by "ShaderNodeBackground" bg
    /\ made_by "ShaderNodeOutputWorld" output
    /\ made_by "ShaderNodeTexCoord" tex_coord
    /\ made_by "ShaderNodeMapping" mapping
    /\ made_by "ShaderNodeMix" blur
    /\ made_by "ShaderNodeTexNoise" noise
    /\ made_by "ShaderNodeVectorMath" sub
    /\ List.length (PreviewWorld.links t) = 7
    /\ wired t 0 (PreviewWorld.Name "Color") 1 (PreviewWorld.Name "Color")
    /\ wired t 1 (PreviewWorld.Name "Background") 2 (PreviewWorld.Name "Surface")
    /\ wired t 3 (PreviewWorld.Name "Generated") 4 (PreviewWorld.Name "Vector")
    /\ wired t 6 (PreviewWorld.Name "Color") 7 (PreviewWorld.Idx 0)
    /\ wired t 7 (PreviewWorld.Name "Vector") 5 (PreviewWorld.Idx 5)
    /\ wired t 4 (PreviewWorld.Name "Vector") 5 (PreviewWorld.Idx 4)
    /\ wired t 5 (PreviewWorld.Idx 1) 0 (PreviewWorld.Name "Vector")
    /\ input_default blur (PreviewWorld.Idx 0)
       = Some (PreviewWorld.VFloat (PreviewWorld.studiolight_background_blur shading))
    /\ (exists a b,
          input_default mapping (PreviewWorld.Name "Rotation")
          = Some (PreviewWorld.VVector a b (PreviewWorld.studiolight_rotate_z shading)))
    /\ input_default noise (PreviewWorld.Name "Scale")
       = Some (PreviewWorld.VFloat 30000%float)
    /\ input_default sub (PreviewWorld.Idx 1)
       = Some (PreviewWorld.VVector 0.5%float 0.5%float 0.5%float).

(** [x] with the default value of its input at position [i] set to [v];
    the other inputs, and everything else of [x], as they are. *)
Definition assign (x : PreviewWorld.Node) (i : nat) (v : PreviewWorld.Value)
  : PreviewWorld.Node :=
  PreviewWorld.with_inputs x
    (PreviewWorld.update_nth i
       (fun so => PreviewWorld.mkSocket (PreviewWorld.socket_name so) v)
       (PreviewWorld.inputs x)).

Definition with_label (x : PreviewWorld.Node) (l : string) : PreviewWorld.Node :=
  PreviewWorld.mkNode (PreviewWorld.bl_idname x) (PreviewWorld.location x) l
                      (PreviewWorld.data_type x) (PreviewWorld.operation x)
                      (PreviewWorld.image x) (PreviewWorld.inputs x)
                      (PreviewWorld.outputs x).

Definition with_data_type (x : PreviewWorld.Node) (d : string) : PreviewWorld.Node :=
  PreviewWorld.mkNode (PreviewWorld.bl_idname x) (PreviewWorld.location x)
                      (PreviewWorld.label x) d (PreviewWorld.operation x)
                      (PreviewWorld.image x) (PreviewWorld.inputs x)
                      (PreviewWorld.outputs x).

Definition with_operation (x : PreviewWorld.Node) (o : string) : PreviewWorld.Node :=
  PreviewWorld.mkNode (PreviewWorld.bl_idname x) (PreviewWorld.location x)
                      (PreviewWorld.label x) (PreviewWorld.data_type x) o
                      (PreviewWorld.image x) (PreviewWorld.inputs x)
                      (PreviewWorld.outputs x).

(** The tree [t] in full, in terms of the nodes the host makes.  The seven
    nodes added to [env] are the host's, moved to their places, with these
    changes and no other: the mix node is labelled and typed and its input
    0 holds the viewport blur; the rotation of the mapping node keeps the
    host's first two components and holds the viewport rotation as its
    third; the scale of the noise node is 30000; the vector math node
    subtracts, and its input 1 is (0.5, 0.5, 0.5).  The seven links are
    listed in the order in which they are made. *)
Definition exact_graph {host : PreviewWorld.Host} (shading : PreviewWorld.Shading)
           (env : PreviewWorld.Node) (t : PreviewWorld.NodeTree) : Prop :=
  exists bg output tex_coord mapping blur noise sub
         env_color env_vector bg_color bg_background output_surface
         tex_generated mapping_in mapping_out mapping_rotation
         blur_factor blur_a blur_b blur_result
         noise_scale noise_color sub_a sub_b sub_vector
         rotation rx ry rz,
    PreviewWorld.node_new "ShaderNodeBackground" = inr bg
    /\ PreviewWorld.node_new "ShaderNodeOutputWorld" = inr output
    /\ PreviewWorld.node_new "ShaderNodeTexCoord" = inr tex_coord
    /\ PreviewWorld.node_new "ShaderNodeMapping" = inr mapping
    /\ PreviewWorld.node_new "ShaderNodeMix" = inr blur
    /\ PreviewWorld.node_new "ShaderNodeTexNoise" = inr noise
    /\ PreviewWorld.node_new "ShaderNodeVectorMath" = inr sub
    /\ PreviewWorld.resolve (PreviewWorld.Name "Color") (PreviewWorld.outputs env)
       = inr env_color
    /\ PreviewWorld.resolve (PreviewWorld.Name "Vector") (PreviewWorld.inputs env)
       = inr env_vector
    /\ PreviewWorld.resolve (PreviewWorld.Name "Color") (PreviewWorld.inputs bg)
       = inr bg_color
    /\ PreviewWorld.resolve (PreviewWorld.Name "Background") (PreviewWorld.outputs bg)
       = inr bg_background
    /\ PreviewWorld.resolve (PreviewWorld.Name "Surface") (PreviewWorld.inputs output)
       = inr output_surface
    /\ PreviewWorld.resolve (PreviewWorld.Name "Generated") (PreviewWorld.outputs tex_coord)
       = inr tex_generated
    /\ PreviewWorld.resolve (PreviewWorld.Name "Vector") (PreviewWorld.inputs mapping)
       = inr mapping_in
    /\ PreviewWorld.resolve (PreviewWorld.Name "Vector") (PreviewWorld.outputs mapping)
       = inr mapping_out
    /\ PreviewWorld.resolve (PreviewWorld.Name "Rotation") (PreviewWorld.inputs mapping)
       = inr mapping_rotation
    /\ nth_error (PreviewWorld.inputs mapping) mapping_rotation = Some rotation
    /\ PreviewWorld.default_value rotation = PreviewWorld.VVector rx ry rz
    /\ PreviewWorld.resolve (PreviewWorld.Idx 0) (PreviewWorld.inputs blur)
       = inr blur_factor
    /\ PreviewWorld.resolve (PreviewWorld.Idx 4) (PreviewWorld.inputs blur) = inr blur_a
    /\ PreviewWorld.resolve (PreviewWorld.Idx 5) (PreviewWorld.inputs blur) = inr blur_b
    /\ PreviewWorld.resolve (PreviewWorld.Idx 1) (PreviewWorld.outputs blur)
       = inr blur_result
    /\ PreviewWorld.resolve (PreviewWorld.Name "Scale") (PreviewWorld.inputs noise)
       = inr noise_scale
    /\ PreviewWorld.resolve (PreviewWorld.Name "Color") (PreviewWorld.outputs noise)
       = inr noise_color
    /\ PreviewWorld.resolve (PreviewWorld.Idx 0) (PreviewWorld.inputs sub) = inr sub_a
    /\ PreviewWorld.resolve (PreviewWorld.Idx 1) (PreviewWorld.inputs sub) = inr sub_b
    /\ PreviewWorld.resolve (PreviewWorld.Name "Vector") (PreviewWorld.outputs sub)
       = inr sub_vector
    /\ PreviewWorld.nodes t
       = [ env;
           at_location bg (0, 0)%Z;
           at_location output (200, 0)%Z;
           at_location tex_coord (-1200, 0)%Z;
           assign (at_location mapping (-900, 0)%Z) mapping_rotation
                  (PreviewWorld.VVector rx ry (PreviewWorld.studiolight_rotate_z shading));
           assign (at_location (with_label (with_data_type blur "VECTOR") "Blur")
                               (-600, 0)%Z)
                  blur_factor
                  (PreviewWorld.VFloat (PreviewWorld.studiolight_background_blur shading));
           assign (at_location noise (-900, 300)%Z) noise_scale
                  (PreviewWorld.VFloat 30000%float);
           assign (at_location (with_operation sub "SUBTRACT") (-700, 300)%Z) sub_b
                  (PreviewWorld.VVector 0.5%float 0.5%float 0.5%float) ]
    /\ PreviewWorld.links t
       = [ PreviewWorld.mkLink 0 env_color 1 bg_color;
           PreviewWorld.mkLink 1 bg_background 2 output_surface;
           PreviewWorld.mkLink 3 tex_generated 4 mapping_in;
           PreviewWorld.mkLink 6 noise_color 7 sub_a;
           PreviewWorld.mkLink 7 sub_vector 5 blur_b;
           PreviewWorld.mkLink 4 mapping_out 5 blur_a;
           PreviewWorld.mkLink 5 blur_result 0 env_vector ].

(** The operator has to call [bpy.data.images.load]: no image of that name
    is loaded, or the one that is comes from another file. *)
Definition needs_load (path : string) (imgs : list PreviewWorld.Image) : bool :=
  match find (fun i => String.eqb (PreviewWorld.image_name i) (basename path)) imgs with
  | Some existing => negb (String.eqb (PreviewWorld.filepath existing) path)
  | None => true
  end.

(** The session once [create_world] has run: the new world, with tree [t],
    is the newest block of [bpy.data.worlds] and the scene's world. *)
Definition with_new_world {host : PreviewWorld.Host} (name : string)
           (t : PreviewWorld.NodeTree) (s : Session PreviewWorld.Blend)
  : Session PreviewWorld.Blend :=
  let ws := PreviewWorld.worlds (data s) in
  mkSession
    (PreviewWorld.mkBlend
       (PreviewWorld.studio_lights (data s))
       (ws ++ [PreviewWorld.mkWorld
                 (PreviewWorld.world_name (PreviewWorld.worlds_new ("Preview " ++ name) ws))
                 true (Some t)])
       (PreviewWorld.images (data s))
       (Some (List.length ws)))
    (reports s) (stdout s).

(** The number of nodes and of links in the tree of the scene's world. *)
Definition scene_graph_size (d : PreviewWorld.Blend) : option (nat * nat) :=
  match PreviewWorld.scene_world d with
  | Some wid =>
      match nth_error (PreviewWorld.worlds d) wid with
      | Some w =>
          option_map (fun t => (List.length (PreviewWorld.nodes t),
                                List.length (PreviewWorld.links t)))
                     (PreviewWorld.node_tree w)
      | None => None
      end
  | None => None
  end.

End Props.

(* ===================================================================== *)
(** * Concrete hosts and invocations *)
(* ===================================================================== *)

Module Scenario.
Import Py Bpy.

Definition quoted (s : string) : string := String DQUOTE (s ++ String DQUOTE "").

(** ** Graph Editor *)

Definition arm_location : string := "pose.bones[" ++ quoted "Arm" ++ "].location".
Definition leg_location : string := "pose.bones[" ++ quoted "Leg" ++ "].location".
Definition bone_A_location : string := "bone[" ++ quoted "A" ++ "].location".
Definition bone_B_location : string := "bone[" ++ quoted "B" ++ "].location".

(** Three location curves: bone A, index 0 (selected); bone B, index 0;
    bone A, index 1. *)
Definition curves : Focus.Store :=
  fun f =>
    match f with
    | 0 => Focus.mkFCurve bone_A_location 0 true false
    | 1 => Focus.mkFCurve bone_B_location 0 false false
    | 2 => Focus.mkFCurve bone_A_location 1 false false
    | _ => Focus.mkFCurve "" 0 false true
    end.

Definition graph_session : Session Focus.Store := mkSession curves [] [].

Definition graph_area : Focus.Area :=
  Focus.mkArea "GRAPH_EDITOR" [Focus.mkRegion "HEADER"; Focus.mkRegion "WINDOW"].
Definition view3d_area : Focus.Area :=
  Focus.mkArea "VIEW_3D" [Focus.mkRegion "WINDOW"].

Definition graph_ctx : Focus.Context :=
  Focus.mkContext [0] [0; 1; 2] [view3d_area; graph_area].
Definition no_area_ctx : Focus.Context :=
  Focus.mkContext [0] [0; 1; 2] [view3d_area].
Definition no_visible_ctx : Focus.Context :=
  Focus.mkContext [0] [] [view3d_area; graph_area].
Definition no_selection_ctx : Focus.Context :=
  Focus.mkContext [] [0; 1; 2] [view3d_area; graph_area].

Definition poll_failed : Exn :=
  mkExn "RuntimeError" "Operator bpy.ops.graph.poll() failed, context is incorrect".

(** A Graph Editor whose operators work under an override and in the
    current context alike. *)
Definition graph_op_ok (c : Focus.GraphCall) (st : Focus.Store)
  : Outcome unit * Focus.Store :=
  match c with
  | Focus.Reveal sel =>
      (Ok tt, fun f => if Focus.hide (st f)
                       then Focus.mkFCurve (Focus.data_path (st f))
                                           (Focus.array_index (st f)) sel false
                       else st f)
  | Focus.Hide unselected =>
      (Ok tt, fun f => if Bool.eqb (Focus.select (st f)) unselected
                       then st f
                       else Focus.mkFCurve (Focus.data_path (st f))
                                           (Focus.array_index (st f)) false true)
  | Focus.ViewAll => (Ok tt, st)
  end.

#[local] Instance lenient_graph : Focus.GraphEditor := {
  temp_override _ _ := None;
  graph_op _ c st := graph_op_ok c st
}.

(** A Graph Editor whose operators refuse to run without an override. *)
#[local] Instance strict_graph : Focus.GraphEditor := {
  temp_override _ _ := None;
  graph_op o c st :=
    match o with
    | Some _ => graph_op_ok c st
    | None => (Raise poll_failed, st)
    end
}.

(** A Graph Editor whose [hide] fails even under the override. *)
#[local] Instance failing_graph : Focus.GraphEditor := {
  temp_override _ _ := None;
  graph_op o c st :=
    match c with
    | Focus.Hide _ => (Raise poll_failed, st)
    | _ => graph_op_ok c st
    end
}.

(** ** Viewport shading and node trees *)

Import PreviewWorld.

Definition forest_path : string :=
  "/usr/share/blender/datafiles/studiolights/world/forest.exr".

Definition forest_shading : Shading := mkShading "forest.exr" 0.25%float 1.5%float.
Definition unknown_shading : Shading := mkShading "sunset.exr" 0.25%float 1.5%float.

Definition zero3 : Value := VVector 0%float 0%float 0%float.

Definition fresh_node (ty : string) (ins outs : list Socket) : Node :=
  mkNode ty (0, 0)%Z "" "" "" None ins outs.

Definition out (names : list string) : list Socket :=
  map (fun n => mkSocket n VOther) names.

(** The shader nodes the operator asks for, with their sockets in the
    order the host lists them. *)
Definition shader_node (ty : string) : Exn + Node :=
  if String.eqb ty "ShaderNodeTexEnvironment" then
    inr (fresh_node ty [mkSocket "Vector" zero3] (out ["Color"]))
  else if String.eqb ty "ShaderNodeBackground" then
    inr (fresh_node ty [mkSocket "Color" VOther; mkSocket "Strength" (VFloat 1%float)]
                    (out ["Background"]))
  else if String.eqb ty "ShaderNodeOutputWorld" then
    inr (fresh_node ty (out ["Surface"; "Volume"]) [])
  else if String.eqb ty "ShaderNodeTexCoord" then
    inr (fresh_node ty []
           (out ["Generated"; "Normal"; "UV"; "Object"; "Camera"; "Window"; "Reflection"]))
  else if String.eqb ty "ShaderNodeMapping" then
    inr (fresh_node ty
           [mkSocket "Vector" zero3; mkSocket "Location" zero3;
            mkSocket "Rotation" zero3;
            mkSocket "Scale" (VVector 1%float 1%float 1%float)]
           (out ["Vector"]))
  else if String.eqb ty "ShaderNodeMix" then
    inr (fresh_node ty
           [mkSocket "Factor" (VFloat 0.5%float);
            mkSocket "Factor" (VVector 0.5%float 0.5%float 0.5%float);
            mkSocket "A" (VFloat 0%float); mkSocket "B" (VFloat 0%float);
            mkSocket "A" zero3; mkSocket "B" zero3;
            mkSocket "A" VOther; mkSocket "B" VOther;
            mkSocket "A" VOther; mkSocket "B" VOther]
           (out ["Result"; "Result"; "Result"; "Result"]))
  else if String.eqb ty "ShaderNodeTexNoise" then
    inr (fresh_node ty
           [mkSocket "Vector" zero3; mkSocket "W" (VFloat 0%float);
            mkSocket "Scale" (VFloat 5%float); mkSocket "Detail" (VFloat 2%float);
            mkSocket "Roughness" (VFloat 0.5%float);
            mkSocket "Lacunarity" (VFloat 2%float);
            mkSocket "Distortion" (VFloat 0%float)]
           (out ["Fac"; "Color"]))
  else if String.eqb ty "ShaderNodeVectorMath" then
    inr (fresh_node ty
           [mkSocket "Vector" zero3; mkSocket "Vector" zero3;
            mkSocket "Vector" zero3; mkSocket "Scale" (VFloat 1%float)]
           (out ["Vector"; "Value"]))
  else inl (mkExn "RuntimeError" ("Error: Node type " ++ ty ++ " undefined")).

(** The tree a world gets when [use_nodes] is switched on. *)
Definition default_world_tree : NodeTree :=
  mkNodeTree
    [fresh_node "ShaderNodeBackground"
       [mkSocket "Color" VOther; mkSocket "Strength" (VFloat 1%float)]
       (out ["Background"]);
     fresh_node "ShaderNodeOutputWorld" (out ["Surface"; "Volume"]) []]
    [mkLink 0 0 1 0].

(** A host on which every call of the operator succeeds. *)
#[local] Instance blender : Host := {
  path_exists p := String.eqb p forest_path;
  worlds_new name _ := mkWorld name false None;
  default_node_tree := default_world_tree;
  node_new := shader_node;
  images_load path _ := inr (mkImage (basename path) path)
}.

(** The file exists but the host cannot read it as an image. *)
#[local] Instance unreadable : Host := {
  path_exists p := String.eqb p forest_path;
  worlds_new name _ := mkWorld name false None;
  default_node_tree := default_world_tree;
  node_new := shader_node;
  images_load path _ :=
    inl (mkExn "RuntimeError" ("Error: Cannot read '" ++ path ++ "': unknown error"))
}.

(** A host that does not know the Mix node. *)
#[local] Instance no_mix_node : Host := {
  path_exists p := String.eqb p forest_path;
  worlds_new name _ := mkWorld name false None;
  default_node_tree := default_world_tree;
  node_new ty :=
    if String.eqb ty "ShaderNodeMix"
    then inl (mkExn "RuntimeError" "Error: Node type ShaderNodeMix undefined")
    else shader_node ty;
  images_load path _ := inr (mkImage (basename path) path)
}.

Definition blend : Blend :=
  mkBlend [mkStudioLight "city.exr" "/usr/share/blender/datafiles/studiolights/world/city.exr";
           mkStudioLight "forest.exr" forest_path]
          [mkWorld "World" false None]
          []
          (Some 0).

Definition view_session : Session Blend := mkSession blend [] [].

End Scenario.

(* ===================================================================== *)
(** * Vocabulary and invocations of the further properties *)
(* ===================================================================== *)

Module Cover.
Import Py Bpy.

(** ** Strings *)

Fixpoint count_char (a : ascii) (s : string) : nat :=
  match s with
  | EmptyString => 0
  | String c r => (if Ascii.eqb c a then 1 else 0) + count_char a r
  end.

(** Neither ["["] nor ["("] occurs in [s]. *)
Definition plain (s : string) : bool :=
  negb (has_char "[" s) && negb (has_char "(" s).

(** [s] can stand between a bracket and [close] and be stripped with
    them: it holds no [close] and no line feed. *)
Definition inner (close : ascii) (s : string) : bool :=
  negb (has_char close s) && negb (has_char LF s).

(** ** Graph Editor *)

(** A screen whose Graph Editor area has no window region. *)
Definition headless_area : Focus.Area :=
  Focus.mkArea "GRAPH_EDITOR" [Focus.mkRegion "HEADER"; Focus.mkRegion "UI"].

Definition headless_ctx : Focus.Context :=
  Focus.mkContext [0] [0; 1; 2] [Scenario.view3d_area; headless_area].

(** ** Shader nodes of the host *)

Definition is_ok {A} (r : Exn + A) : bool :=
  match r with
  | inr _ => true
  | inl _ => false
  end.

(** The host makes nodes of type [ty], and they have the input sockets
    [ins] and the output sockets [outs]. *)
Definition node_ok {host : PreviewWorld.Host} (ty : string)
           (ins outs : list PreviewWorld.SocketKey) : bool :=
  match PreviewWorld.node_new ty with
  | inr x =>
      forallb (fun k => is_ok (PreviewWorld.resolve k (PreviewWorld.inputs x))) ins
      && forallb (fun k => is_ok (PreviewWorld.resolve k (PreviewWorld.outputs x))) outs
  | inl _ => false
  end.

(** A Mapping node has a rotation input, whose default is a vector. *)
Definition rotation_is_vector {host : PreviewWorld.Host} : bool :=
  match PreviewWorld.node_new "ShaderNodeMapping" with
  | inr x =>
      match PreviewWorld.resolve (PreviewWorld.Name "Rotation") (PreviewWorld.inputs x) with
      | inr i =>
          match option_map PreviewWorld.default_value
                           (nth_error (PreviewWorld.inputs x) i) with
          | Some (PreviewWorld.VVector _ _ _) => true
          | _ => false
          end
      | inl _ => false
      end
  | inl _ => false
  end.

(** The host has the eight node types, with every socket the operator
    uses. *)
Definition graph_nodes_ok {host : PreviewWorld.Host} : bool :=
  node_ok "ShaderNodeTexEnvironment" [PreviewWorld.Name "Vector"] [PreviewWorld.Name "Color"]
  && node_ok "ShaderNodeBackground" [PreviewWorld.Name "Color"]
             [PreviewWorld.Name "Background"]
  && node_ok "ShaderNodeOutputWorld" [PreviewWorld.Name "Surface"] []
  && node_ok "ShaderNodeTexCoord" [] [PreviewWorld.Name "Generated"]
  && node_ok "ShaderNodeMapping" [PreviewWorld.Name "Vector"] [PreviewWorld.Name "Vector"]
  && node_ok "ShaderNodeMix" [PreviewWorld.Idx 0; PreviewWorld.Idx 4; PreviewWorld.Idx 5]
             [PreviewWorld.Idx 1]
  && node_ok "ShaderNodeTexNoise" [PreviewWorld.Name "Scale"] [PreviewWorld.Name "Color"]
  && node_ok "ShaderNodeVectorMath" [PreviewWorld.Idx 0; PreviewWorld.Idx 1]
             [PreviewWorld.Name "Vector"]
  && rotation_is_vector.

(** The image is at hand: it is loaded already, or the host can load it. *)
Definition image_available {host : PreviewWorld.Host} (path : string)
           (imgs : list PreviewWorld.Image) : bool :=
  negb (Props.needs_load path imgs) || is_ok (PreviewWorld.images_load path imgs).

(** ** What the preview-world operator keeps *)

(** From [s] to [s2] the worlds [ws] are kept and one more world has been
    created; the scene's world, the preferences, the reports and the console
    are as in [s]. *)
Definition kept (ws : list PreviewWorld.World) (s s2 : Session PreviewWorld.Blend) : Prop :=
  (exists w', PreviewWorld.worlds (data s2) = (ws ++ [w'])%list)
  /\ PreviewWorld.scene_world (data s2) = PreviewWorld.scene_world (data s)
  /\ PreviewWorld.studio_lights (data s2) = PreviewWorld.studio_lights (data s)
  /\ reports s2 = reports s
  /\ stdout s2 = stdout s.

End Cover.

(* ===================================================================== *)
(** * The strip pattern and the name format *)
(* ===================================================================== *)

Section StripFacts.
Import Py Props.

Lemma drop_length (n : nat) (s : string) :
  String.length (drop n s) = String.length s - n.
Proof.
  revert s; induction n as [|n IH]; intros [|c r]; simpl; auto with arith.
Qed.

Lemma drop_all (s : string) : drop (String.length s) s = EmptyString.
Proof. induction s; simpl; auto. Qed.

Lemma sub_from_drop (k : nat) (s : string) :
  sub_from k s = sub_from 0 (drop k s).
Proof.
  revert k; induction s as [|c r IH]; intros [|k]; try reflexivity.
  simpl sub_from at 1. simpl drop. apply IH.
Qed.

Lemma lazy_until_bounds (cl : ascii) (s : string) (n : nat) :
  lazy_until cl s = Some n -> 1 <= n <= String.length s.
Proof.
  revert n; induction s as [|c r IH]; simpl; intros n H; [discriminate|].
  destruct (Ascii.eqb c cl).
  - injection H as <-. lia.
  - destruct (Ascii.eqb c LF); [discriminate|].
    destruct (lazy_until cl r) as [m|]; [|discriminate].
    injection H as <-. specialize (IH m eq_refl). lia.
Qed.

Lemma match_delim_bounds (op cl : ascii) (s : string) (n : nat) :
  match_delim op cl s = Some n -> 2 <= n <= String.length s.
Proof.
  destruct s as [|c r]; simpl; [discriminate|].
  destruct (Ascii.eqb c op); [|discriminate].
  destruct (lazy_until cl r) as [m|] eqn:E; [|discriminate].
  intros H; injection H as <-. apply lazy_until_bounds in E. lia.
Qed.

Lemma strip_pattern_bounds (s : string) (n : nat) :
  strip_pattern s = Some n -> 2 <= n <= String.length s.
Proof.
  unfold strip_pattern.
  destruct (match_delim "[" "]" s) as [m|] eqn:E.
  - intros H; injection H as <-. eapply match_delim_bounds; eauto.
  - apply match_delim_bounds.
Qed.

(** The equation of the substitution loop, position by position. *)
Lemma re_sub_strip_step (c : ascii) (r : string) :
  re_sub_strip (String c r) =
  match strip_pattern (String c r) with
  | Some n => re_sub_strip (drop n (String c r))
  | None => String c (re_sub_strip r)
  end.
Proof.
  unfold re_sub_strip. simpl sub_from.
  destruct (strip_pattern (String c r)) as [n|] eqn:E; [|reflexivity].
  apply strip_pattern_bounds in E. destruct n as [|k]; [lia|].
  simpl drop. apply sub_from_drop.
Qed.

(** A match lies within one line. *)
Lemma lazy_until_one_line (cl : ascii) (s : string) (n : nat) :
  cl <> LF -> lazy_until cl s = Some n -> one_line n s = true.
Proof.
  intros Hcl. revert n; induction s as [|c r IH]; simpl; intros n H; [discriminate|].
  destruct (Ascii.eqb c cl) eqn:Ec.
  - injection H as <-. simpl. apply Ascii.eqb_eq in Ec. subst c.
    destruct (Ascii.eqb cl LF) eqn:E; [apply Ascii.eqb_eq in E; contradiction|].
    destruct r; reflexivity.
  - destruct (Ascii.eqb c LF) eqn:El; [discriminate|].
    destruct (lazy_until cl r) as [m|]; [|discriminate].
    injection H as <-. simpl. rewrite El. simpl. apply IH. reflexivity.
Qed.

Lemma strip_pattern_one_line (s : string) (n : nat) :
  strip_pattern s = Some n -> one_line n s = true.
Proof.
  unfold strip_pattern, match_delim. destruct s as [|c r]; [discriminate|].
  destruct (Ascii.eqb c "[") eqn:E1.
  - apply Ascii.eqb_eq in E1. subst c.
    destruct (lazy_until "]" r) as [m|] eqn:E; simpl; [|discriminate].
    intros H; injection H as <-. simpl.
    apply lazy_until_one_line in E; [exact E | discriminate].
  - destruct (Ascii.eqb c "(") eqn:E2; [|discriminate].
    apply Ascii.eqb_eq in E2. subst c.
    destruct (lazy_until ")" r) as [m|] eqn:E; simpl; [|discriminate].
    intros H; injection H as <-. simpl.
    apply lazy_until_one_line in E; [exact E | discriminate].
Qed.

Lemma lazy_none_drop (cl : ascii) (n : nat) (s : string) :
  one_line n s = true -> lazy_until cl s = None ->
  lazy_until cl (drop n s) = None.
Proof.
  revert s; induction n as [|n IH]; intros [|c r]; simpl; auto.
  intros H1 H2. apply andb_true_iff in H1 as [Hc Hr].
  apply negb_true_iff in Hc. rewrite Hc in H2.
  destruct (Ascii.eqb c cl); [discriminate|].
  destruct (lazy_until cl r) eqn:E; [discriminate|]. auto.
Qed.

(** Stripping never brings a closing character within reach. *)
Lemma lazy_none_strip (cl : ascii) (s : string) :
  lazy_until cl s = None -> lazy_until cl (re_sub_strip s) = None.
Proof.
  remember (String.length s) as k eqn:Hk.
  revert s Hk. induction k as [k IH] using lt_wf_ind. intros s Hk H.
  destruct s as [|c r]; [reflexivity|].
  rewrite re_sub_strip_step.
  destruct (strip_pattern (String c r)) as [n|] eqn:E.
  - pose proof (strip_pattern_bounds _ _ E) as B.
    eapply IH; [|reflexivity|].
    + rewrite drop_length. subst k. lia.
    + apply lazy_none_drop; auto. apply strip_pattern_one_line; auto.
  - simpl in H |- *.
    destruct (Ascii.eqb c cl); [discriminate|].
    destruct (Ascii.eqb c LF); [reflexivity|].
    destruct (lazy_until cl r) eqn:E'; [discriminate|].
    assert (lazy_until cl (re_sub_strip r) = None) as ->; [|reflexivity].
    eapply IH; [|reflexivity|exact E']. subst k. simpl. lia.
Qed.

Lemma strip_pattern_none_strip (c : ascii) (r : string) :
  strip_pattern (String c r) = None ->
  strip_pattern (String c (re_sub_strip r)) = None.
Proof.
  unfold strip_pattern, match_delim.
  destruct (Ascii.eqb c "[").
  - destruct (lazy_until "]" r) eqn:E; simpl; [discriminate|].
    rewrite (lazy_none_strip _ _ E). simpl.
    destruct (Ascii.eqb c "(").
    + destruct (lazy_until ")" r) eqn:E2; simpl; [discriminate|].
      rewrite (lazy_none_strip _ _ E2). reflexivity.
    + reflexivity.
  - destruct (Ascii.eqb c "("); [|reflexivity].
    destruct (lazy_until ")" r) eqn:E2; simpl; [discriminate|].
    rewrite (lazy_none_strip _ _ E2). reflexivity.
Qed.

(** What the substitution returns holds no match of the pattern. *)
Lemma re_sub_strip_no_match (s : string) : no_match (re_sub_strip s) = true.
Proof.
  remember (String.length s) as k eqn:Hk.
  revert s Hk. induction k as [k IH] using lt_wf_ind. intros s Hk.
  destruct s as [|c r]; [reflexivity|].
  rewrite re_sub_strip_step.
  destruct (strip_pattern (String c r)) as [n|] eqn:E.
  - pose proof (strip_pattern_bounds _ _ E) as B.
    eapply IH; [|reflexivity]. rewrite drop_length. subst k. lia.
  - simpl no_match. rewrite (strip_pattern_none_strip _ _ E).
    eapply IH; [|reflexivity]. subst k. simpl. lia.
Qed.

Lemma no_match_fixed (s : string) : no_match s = true -> re_sub_strip s = s.
Proof.
  induction s as [|c r IH]; [reflexivity|].
  simpl no_match. rewrite re_sub_strip_step.
  destruct (strip_pattern (String c r)); [discriminate|].
  intros H. rewrite IH; auto.
Qed.

(** Stripping alone is idempotent, for every string. *)
Lemma re_sub_strip_idempotent (s : string) :
  re_sub_strip (re_sub_strip s) = re_sub_strip s.
Proof. apply no_match_fixed, re_sub_strip_no_match. Qed.

End StripFacts.

Section NameFormatFacts.
Import Py Props Focus.

Lemma length_app (a b : string) :
  String.length (a ++ b) = String.length a + String.length b.
Proof. induction a; simpl; auto. Qed.

Lemma app_inj_l (a x y : string) : a ++ x = a ++ y -> x = y.
Proof. induction a; simpl; intros H; [exact H|]. injection H; auto. Qed.

Lemma app_inj_r (a b x : string) : a ++ x = b ++ x -> a = b.
Proof.
  revert b; induction a as [|c a IH]; intros [|d b] H; simpl in H.
  - reflexivity.
  - apply (f_equal String.length) in H. simpl in H. rewrite length_app in H. lia.
  - apply (f_equal String.length) in H. simpl in H. rewrite length_app in H. lia.
  - injection H as -> H. f_equal. auto.
Qed.

Lemma uint_numeral (d : uint) : numeral (NilEmpty.string_of_uint d) = true.
Proof. induction d; simpl; auto. Qed.

Lemma str_int_numeral (i : Z) : numeral (str_int i) = true.
Proof.
  unfold str_int, NilZero.string_of_int, NilZero.string_of_uint.
  destruct (Z.to_int i) as [d|d]; destruct d; simpl; auto using uint_numeral.
Qed.

Lemma numeral_char (c : ascii) :
  has_char c "0123456789-" = true ->
  Ascii.eqb c "]" = false /\ Ascii.eqb c ")" = false /\ Ascii.eqb c LF = false.
Proof.
  destruct c as [[] [] [] [] [] [] [] []]; intros H;
    solve [discriminate H | repeat split; reflexivity].
Qed.

Lemma numeral_closed (d : string) :
  numeral d = true ->
  lazy_until "]" (d ++ "]") = Some (S (String.length d)).
Proof.
  induction d as [|c d IH]; [reflexivity|].
  simpl numeral. intros H. apply andb_true_iff in H as [H1 H2].
  apply numeral_char in H1 as (E1 & _ & E3).
  simpl. rewrite E1, E3, (IH H2). reflexivity.
Qed.

Lemma numeral_no_paren (d : string) :
  numeral d = true -> lazy_until ")" (d ++ "]") = None.
Proof.
  induction d as [|c d IH]; [reflexivity|].
  simpl numeral. intros H. apply andb_true_iff in H as [H1 H2].
  apply numeral_char in H1 as (_ & E2 & E3).
  simpl. rewrite E2, E3, (IH H2). reflexivity.
Qed.

Lemma lazy_none_app (cl : ascii) (r x : string) :
  lazy_until cl r = None ->
  has_char LF r = true \/ lazy_until cl x = None ->
  lazy_until cl (r ++ x) = None.
Proof.
  induction r as [|c r IH]; simpl.
  - intros _ [H|H]; [discriminate | exact H].
  - destruct (Ascii.eqb c cl); [discriminate|].
    destruct (Ascii.eqb c LF); [reflexivity|]. simpl.
    destruct (lazy_until cl r); [discriminate|].
    intros _ H. rewrite IH; auto.
Qed.

Lemma lazy_app_one_line (cl : ascii) (r x : string) :
  lazy_until cl r = None -> has_char LF r = false ->
  lazy_until cl (r ++ x) = option_map (Nat.add (String.length r)) (lazy_until cl x).
Proof.
  induction r as [|c r IH]; simpl.
  - intros _ _. destruct (lazy_until cl x); reflexivity.
  - destruct (Ascii.eqb c cl); [discriminate|].
    destruct (Ascii.eqb c LF); [discriminate|]. simpl.
    destruct (lazy_until cl r); [discriminate|].
    intros _ H. rewrite IH; auto. destruct (lazy_until cl x); reflexivity.
Qed.

(** The index suffix [[d]] is stripped from a stripped path, and nothing
    else is, when every ["["] left in the path has a line feed after it. *)
Lemma strip_suffix_closed (q d : string) :
  no_match q = true -> dangling_open q = false -> numeral d = true ->
  re_sub_strip (q ++ String "[" (d ++ "]")) = q.
Proof.
  intros Hq Hd Hn. induction q as [|c r IH].
  - simpl append. rewrite re_sub_strip_step.
    unfold strip_pattern, match_delim. simpl Ascii.eqb. cbv iota.
    rewrite numeral_closed by assumption. simpl option_map. cbv iota.
    replace (S (S (String.length d)))
      with (String.length (String "[" (d ++ "]")))
      by (simpl; rewrite length_app; simpl; lia).
    rewrite drop_all. reflexivity.
  - simpl no_match in Hq. simpl in Hd.
    destruct (strip_pattern (String c r)) eqn:E; [discriminate|].
    apply orb_false_iff in Hd as [Hd1 Hd2].
    simpl append. rewrite re_sub_strip_step.
    assert (strip_pattern (String c (r ++ String "[" (d ++ "]"))) = None) as ->.
    { revert E. unfold strip_pattern, match_delim.
      destruct (Ascii.eqb c "[") eqn:Eo.
      - simpl in Hd1. apply negb_false_iff in Hd1.
        destruct (lazy_until "]" r) eqn:E1; simpl; [discriminate|].
        rewrite (lazy_none_app _ _ _ E1) by auto. simpl.
        destruct (Ascii.eqb c "(") eqn:Ep; [|reflexivity].
        apply Ascii.eqb_eq in Eo, Ep. congruence.
      - destruct (Ascii.eqb c "(") eqn:Ep; [|reflexivity].
        destruct (lazy_until ")" r) eqn:E2; simpl; [discriminate|].
        rewrite (lazy_none_app _ _ _ E2); [reflexivity|].
        right. simpl. apply numeral_no_paren in Hn. rewrite Hn. reflexivity. }
    rewrite IH; auto.
Qed.

(** Otherwise the first such ["["] is matched up to the end of the suffix. *)
Lemma strip_suffix_open (q d : string) :
  no_match q = true -> dangling_open q = true -> numeral d = true ->
  re_sub_strip (q ++ String "[" (d ++ "]")) <> q.
Proof.
  intros Hq Hd Hn. induction q as [|c r IH]; [discriminate|].
  simpl no_match in Hq. simpl in Hd.
  destruct (strip_pattern (String c r)) eqn:E; [discriminate|].
  simpl append. rewrite re_sub_strip_step.
  destruct (Ascii.eqb c "[" && negb (has_char LF r)) eqn:Hhead.
  - apply andb_true_iff in Hhead as [Eo Hl]. apply negb_true_iff in Hl.
    revert E. unfold strip_pattern, match_delim. rewrite Eo.
    destruct (lazy_until "]" r) eqn:E1; simpl; [discriminate|]. intros _.
    rewrite (lazy_app_one_line _ _ _ E1 Hl). simpl.
    rewrite numeral_closed by assumption. simpl option_map. cbv iota.
    replace (S (String.length r + S (S (String.length d))))
      with (String.length (String c (r ++ String "[" (d ++ "]"))))
      by (simpl; rewrite length_app; simpl; rewrite length_app; simpl; lia).
    rewrite drop_all. discriminate.
  - simpl in Hd.
    assert (strip_pattern (String c (r ++ String "[" (d ++ "]"))) = None) as ->.
    { revert E. unfold strip_pattern, match_delim.
      destruct (Ascii.eqb c "[") eqn:Eo.
      - simpl in Hhead. apply negb_false_iff in Hhead.
        destruct (lazy_until "]" r) eqn:E1; simpl; [discriminate|].
        rewrite (lazy_none_app _ _ _ E1) by auto. simpl.
        destruct (Ascii.eqb c "(") eqn:Ep; [|reflexivity].
        apply Ascii.eqb_eq in Eo, Ep. congruence.
      - destruct (Ascii.eqb c "(") eqn:Ep; [|reflexivity].
        destruct (lazy_until ")" r) eqn:E2; simpl; [discriminate|].
        rewrite (lazy_none_app _ _ _ E2); [reflexivity|].
        right. simpl. apply numeral_no_paren in Hn. rewrite Hn. reflexivity. }
    intros H. injection H as H. apply IH; auto.
Qed.

End NameFormatFacts.

Section NameFormatIndex.
Import Py Props Focus.

Lemma str_int_inj (i j : Z) : str_int i = str_int j -> i = j.
Proof.
  unfold str_int. intros H.
  assert (N : forall z, Z.to_int z <> Pos Nil /\ Z.to_int z <> Neg Nil).
  { intros [|p|p]; simpl; split; try discriminate;
      intros E; injection E as E; exact (DecimalPos.Unsigned.to_uint_nonnil p E). }
  apply (f_equal NilZero.int_of_string) in H.
  rewrite !NilZero.isi in H by apply N.
  injection H as H. rewrite <- (DecimalZ.of_to i), <- (DecimalZ.of_to j), H.
  reflexivity.
Qed.

(** Curves on one path differ in their name format exactly when they
    differ in their array index. *)
Lemma name_format_of_index_inj (p : string) (i j : Z) :
  name_format_of p i = name_format_of p j -> i = j.
Proof.
  unfold name_format_of. intros H.
  apply app_inj_l in H. simpl in H. injection H as H.
  apply app_inj_r in H. apply str_int_inj; exact H.
Qed.

End NameFormatIndex.

(* ===================================================================== *)
(** * The focus operator *)
(* ===================================================================== *)

Section FocusFacts.
Import Py Bpy Props Focus.

Lemma mem_In (x : string) (l : list string) : mem x l = true <-> In x l.
Proof.
  unfold mem. rewrite existsb_exists. split.
  - intros (y & Hy & E). apply String.eqb_eq in E. subst; auto.
  - intros H. exists x. split; auto. apply String.eqb_refl.
Qed.

Lemma existsb_eqb_In (g : nat) (l : list nat) :
  existsb (Nat.eqb g) l = true <-> In g l.
Proof.
  rewrite existsb_exists. split.
  - intros (y & Hy & E). apply Nat.eqb_eq in E. subst; auto.
  - intros H. exists g. split; auto. apply Nat.eqb_refl.
Qed.

Lemma name_format_set_select (c : FCurve) (b : bool) :
  name_format (set_select c b) = name_format c.
Proof. reflexivity. Qed.

(** One turn of the loop. *)
Lemma scan_cons (targets : list string) (f : FId) (rest show0 hide0 : list FId)
      (s : Session Store) :
  scan targets (f :: rest) show0 hide0 s =
  let s1 := fun b => mkSession
              (fun g => if Nat.eqb g f then set_select (data s g) b else data s g)
              (reports s) (stdout s) in
  if is_target targets (data s) f
  then scan targets rest (show0 ++ [f])%list hide0 (s1 true)
  else scan targets rest show0 (hide0 ++ [f])%list (s1 false).
Proof.
  unfold is_target. simpl scan. unfold bind at 1, get at 1. cbv beta iota zeta.
  destruct (mem (name_format (data s f)) targets); reflexivity.
Qed.

(** The loop, whatever the lists it starts from. *)
Lemma scan_spec (targets : list string) (visible : list FId) :
  forall (show0 hide0 : list FId) (s : Session Store),
  exists s',
    scan targets visible show0 hide0 s
    = (Ok ((show0 ++ filter (is_target targets (data s)) visible)%list,
           (hide0 ++ filter (fun f => negb (is_target targets (data s) f)) visible)%list),
       s')
    /\ reports s' = reports s
    /\ stdout s' = stdout s
    /\ forall g, data s' g = scanned targets visible (data s) g.
Proof.
  induction visible as [|f rest IH]; intros show0 hide0 s.
  - exists s. simpl. rewrite !app_nil_r. repeat split; reflexivity.
  - set (s1 := fun b => mkSession
                 (fun g => if Nat.eqb g f then set_select (data s g) b else data s g)
                 (reports s) (stdout s)).
    assert (K : forall b g, name_format (data (s1 b) g) = name_format (data s g)).
    { intros b g. simpl. destruct (Nat.eqb g f); reflexivity. }
    assert (P : forall b l,
               filter (is_target targets (data (s1 b))) l
               = filter (is_target targets (data s)) l).
    { intros b l. apply filter_ext. intros g. unfold is_target. rewrite K. reflexivity. }
    assert (Q : forall b l,
               filter (fun g => negb (is_target targets (data (s1 b)) g)) l
               = filter (fun g => negb (is_target targets (data s) g)) l).
    { intros b l. apply filter_ext. intros g. unfold is_target. rewrite K. reflexivity. }
    assert (R : forall g,
               scanned targets rest (data (s1 (is_target targets (data s) f))) g
               = scanned targets (f :: rest) (data s) g).
    { intros g. unfold scanned, is_target. rewrite K. simpl existsb. simpl data.
      destruct (Nat.eqb g f) eqn:E.
      - apply Nat.eqb_eq in E. subst g. simpl.
        destruct (existsb (Nat.eqb f) rest); reflexivity.
      - simpl. reflexivity. }
    rewrite scan_cons. cbv zeta. fold s1.
    destruct (is_target targets (data s) f) eqn:T.
    + destruct (IH (show0 ++ [f])%list hide0 (s1 true)) as (s' & E & Hr & Ho & Hd).
      exists s'. rewrite E, P, Q.
      simpl filter. rewrite T. simpl negb. cbv iota.
      rewrite <- app_assoc. simpl Datatypes.app.
      repeat split; auto. intros g. rewrite Hd. apply R.
    + destruct (IH show0 (hide0 ++ [f])%list (s1 false)) as (s' & E & Hr & Ho & Hd).
      exists s'. rewrite E, P, Q.
      simpl filter. rewrite T. simpl negb. cbv iota.
      rewrite <- app_assoc. simpl Datatypes.app.
      repeat split; auto. intros g. rewrite Hd. apply R.
Qed.

End FocusFacts.

Section FocusOperator.
Import Py Bpy Props Focus.
Context {host : GraphEditor}.

Lemma filter_split_perm {A} (p : A -> bool) (l : list A) :
  Permutation (filter p l ++ filter (fun x => negb (p x)) l)%list l.
Proof.
  induction l as [|x l IH]; simpl; [constructor|].
  destruct (p x); simpl.
  - constructor. exact IH.
  - apply Permutation_sym, Permutation_cons_app, Permutation_sym, IH.
Qed.

Lemma execute_no_selection (ctx : Context) (s : Session Store) :
  selected_editable_fcurves ctx = [] ->
  execute ctx s =
  (report INFO "No FCurve selected in the Graph Editor." ;;
   try_except
     (call None (Reveal false) ;; call None ViewAll)
     (fun e => report ERROR ("Failed to call graph operators: " ++ exn_str e)) ;;
   ret CANCELLED)%py s.
Proof. unfold execute. intros ->. reflexivity. Qed.

Lemma execute_no_visible (ctx : Context) (s : Session Store) :
  selected_editable_fcurves ctx <> [] ->
  visible_fcurves ctx = [] ->
  execute ctx s =
  (Ok CANCELLED,
   mkSession (data s)
             (reports (announced (selected_editable_fcurves ctx) s)
              ++ [(WARNING, "No F-Curves found in any action.")])
             (stdout (announced (selected_editable_fcurves ctx) s))).
Proof.
  unfold execute. intros Hs ->.
  destruct (selected_editable_fcurves ctx); [contradiction|]. reflexivity.
Qed.

(** With a selection and visible curves, the operator scans and then
    either stops or goes on to the Graph Editor. *)
Lemma execute_after_scan (ctx : Context) (s : Session Store) :
  selected_editable_fcurves ctx <> [] ->
  visible_fcurves ctx <> [] ->
  let sel := selected_editable_fcurves ctx in
  let targets := targets_of (data s) sel in
  let show := filter (is_target targets (data s)) (visible_fcurves ctx) in
  exists s1,
    snd (scan targets (visible_fcurves ctx) [] [] (announced sel s)) = s1
    /\ reports s1 = reports (announced sel s)
    /\ stdout s1 = stdout (announced sel s)
    /\ (forall g, data s1 g = scanned targets (visible_fcurves ctx) (data s) g)
    /\ execute ctx s =
       match show with
       | [] => (Ok CANCELLED,
                mkSession (data s1)
                          (reports s1 ++ [(INFO, "No matching F-Curves found across all actions.")])
                          (stdout s1))
       | _ :: _ => hide_and_view ctx show s1
       end.
Proof.
  intros Hs Hv. cbv zeta.
  destruct (selected_editable_fcurves ctx) as [|a l] eqn:Es; [contradiction|].
  destruct (visible_fcurves ctx) as [|v vs] eqn:Ev; [contradiction|].
  set (targets := targets_of (data s) (a :: l)).
  destruct (scan_spec targets (v :: vs) [] [] (announced (a :: l) s))
    as (s1 & E & Hr & Ho & Hd).
  exists s1. rewrite E. repeat split; auto.
  assert (X : execute ctx s =
              match scan targets (v :: vs) [] [] (announced (a :: l) s) with
              | (Ok p, s1) =>
                  match fst p with
                  | [] => (report INFO "No matching F-Curves found across all actions." ;;
                           ret CANCELLED)%py
                  | _ :: _ => hide_and_view ctx (fst p)
                  end s1
              | (Raise e, s1) => (Raise e, s1)
              end).
  { unfold execute. rewrite Es, Ev. reflexivity. }
  rewrite X, E. simpl fst. simpl Datatypes.app.
  change (data (announced (a :: l) s)) with (data s).
  destruct (filter (is_target targets (data s)) (v :: vs)); reflexivity.
Qed.

Lemma hide_and_view_no_area (ctx : Context) (show : list FId) (s : Session Store) :
  find (fun a => String.eqb (area_type a) "GRAPH_EDITOR") (screen_areas ctx) = None ->
  hide_and_view ctx show s =
  (Ok CANCELLED,
   mkSession (data s) (reports s ++ [(WARNING, "No Graph Editor area found")]) (stdout s)).
Proof. unfold hide_and_view. intros ->. reflexivity. Qed.

(** With a Graph Editor area and its window region, everything that
    follows is decided by the operators called under the override. *)
Lemma hide_and_view_ops (ctx : Context) (show : list FId) (s : Session Store)
      (a : Area) (r : Region) :
  find (fun a => String.eqb (area_type a) "GRAPH_EDITOR") (screen_areas ctx) = Some a ->
  find (fun r => String.eqb (region_type r) "WINDOW") (regions a) = Some r ->
  hide_and_view ctx show s =
  match focus_ops a r s with
  | (Ok _, s') =>
      (Ok FINISHED,
       mkSession (data s')
                 (reports s' ++ [(INFO, "Focused on "
                                        ++ str_int (Z.of_nat (List.length show))
                                        ++ " F-Curves and hid others.")])
                 (stdout s'))
  | (Raise e, s') =>
      (Ok CANCELLED,
       mkSession (data s')
                 (reports s' ++ [(ERROR, "Failed to call graph operators: " ++ exn_str e)])
                 (stdout s'))
  end.
Proof.
  unfold hide_and_view, next_window_region. intros -> ->.
  unfold bind, ret, try_except.
  destruct (focus_ops a r s) as [[u|e] s']; reflexivity.
Qed.

(** Without a selection the operator always returns [CANCELLED], whatever
    the operators it calls do. *)
Lemma execute_no_selection_cancelled (ctx : Context) (s : Session Store) :
  selected_editable_fcurves ctx = [] ->
  fst (execute ctx s) = Ok CANCELLED
  /\ exists extra,
       reports (snd (execute ctx s))
       = (reports s ++ (INFO, "No FCurve selected in the Graph Editor.") :: extra)%list.
Proof.
  intros Hs. rewrite (execute_no_selection _ _ Hs).
  unfold bind, report, modify, try_except, call, ret. cbn [data reports stdout].
  destruct (graph_op None (Reveal false) (data s)) as [[u|e] st1];
    cbn [data reports stdout].
  - destruct (graph_op None ViewAll st1) as [[u'|e] st2]; cbn [fst snd reports].
    + split; [reflexivity|]. exists []. reflexivity.
    + split; [reflexivity|]. eexists. rewrite <- app_assoc. reflexivity.
  - cbn [fst snd reports].
    split; [reflexivity|]. eexists. rewrite <- app_assoc. reflexivity.
Qed.

(** An exception of the operators called without a selection is caught. *)
Lemma execute_no_selection_caught (ctx : Context) (s s1 : Session Store) (e : Exn) :
  selected_editable_fcurves ctx = [] ->
  (call None (Reveal false) ;; call None ViewAll)%py
    (mkSession (data s)
               (reports s ++ [(INFO, "No FCurve selected in the Graph Editor.")])
               (stdout s))
  = (Raise e, s1) ->
  execute ctx s =
  (Ok CANCELLED,
   mkSession (data s1)
             (reports s1 ++ [(ERROR, "Failed to call graph operators: " ++ exn_str e)])
             (stdout s1)).
Proof.
  intros Hs R. rewrite (execute_no_selection _ _ Hs).
  unfold bind at 1, report at 1, modify at 1. cbv beta iota.
  unfold bind at 1, try_except at 1. rewrite R. reflexivity.
Qed.

(** [execute_after_scan], keeping only what the reports need. *)
Lemma execute_scan_reports (ctx : Context) (s : Session Store) :
  selected_editable_fcurves ctx <> [] ->
  visible_fcurves ctx <> [] ->
  exists s1,
    reports s1 = reports (announced (selected_editable_fcurves ctx) s)
    /\ execute ctx s =
       match filter (is_target (targets_of (data s) (selected_editable_fcurves ctx)) (data s))
                    (visible_fcurves ctx) with
       | [] => (Ok CANCELLED,
                mkSession (data s1)
                          (reports s1 ++ [(INFO, "No matching F-Curves found across all actions.")])
                          (stdout s1))
       | x :: l => hide_and_view ctx (x :: l) s1
       end.
Proof.
  intros Hs Hv.
  destruct (execute_after_scan ctx s Hs Hv) as (s1 & _ & Hr & _ & _ & E).
  exists s1. split; [exact Hr|]. rewrite E.
  destruct (filter _ _); reflexivity.
Qed.

End FocusOperator.

(* ===================================================================== *)
(** * The preview-world operator *)
(* ===================================================================== *)

Section PreviewFacts.
Import Py Bpy Props PreviewWorld.
Context {host : Host}.

Lemma nth_error_last {A} (l : list A) (x : A) :
  nth_error (l ++ [x]) (List.length l) = Some x.
Proof. induction l; simpl; auto. Qed.

Lemma update_nth_last {A} (f : A -> A) (l : list A) (x : A) :
  update_nth (List.length l) f (l ++ [x]) = (l ++ [f x])%list.
Proof. induction l; simpl; f_equal; auto. Qed.

Lemma update_nth_length {A} (n : nat) (f : A -> A) (l : list A) :
  List.length (update_nth n f l) = List.length l.
Proof. revert n; induction l; intros [|n]; simpl; auto. Qed.

Lemma find_index_update (p : Socket -> bool) (n : nat) (f : Socket -> Socket)
      (l : list Socket) :
  (forall x, p (f x) = p x) ->
  find_index p (update_nth n f l) = find_index p l.
Proof.
  intros Hp. revert n; induction l as [|x l IH]; intros [|n]; simpl; auto.
  - rewrite Hp. reflexivity.
  - rewrite IH. reflexivity.
Qed.

(** Assigning a default value moves no socket. *)
Lemma resolve_update (k : SocketKey) (n : nat) (v : Value) (l : list Socket) :
  resolve k (update_nth n (fun so => mkSocket (socket_name so) v) l) = resolve k l.
Proof.
  destruct k; simpl.
  - rewrite update_nth_length. reflexivity.
  - rewrite find_index_update; auto.
Qed.

(** Running a computation on the newest world. *)
Lemma on_world_last {A} (m : M World A) (s : Session Blend) (ws : list World) (w : World) :
  worlds (data s) = (ws ++ [w])%list ->
  on_world (List.length ws) m s =
  (fst (m w),
   mkSession (mkBlend (studio_lights (data s)) (ws ++ [snd (m w)])
                      (images (data s)) (scene_world (data s)))
             (reports s) (stdout s)).
Proof.
  intros E. unfold on_world. rewrite E, nth_error_last.
  destruct (m w) as [r w']. simpl fst. simpl snd.
  rewrite update_nth_last. reflexivity.
Qed.

Lemma setup_world_run (w : World) :
  setup_world w =
  match node_new "ShaderNodeTexEnvironment" with
  | inr x =>
      (Ok 0, mkWorld (world_name w) true
                     (Some (mkNodeTree [at_location x (-300, 0)%Z] [])))
  | inl e => (Raise e, mkWorld (world_name w) true (Some (mkNodeTree [] [])))
  end.
Proof.
  unfold setup_world, set_use_nodes, nodes_clear, nodes_new, set_location, update_node,
    the_tree, set_tree, bind, get, modify, ret, raise, lift_sum.
  destruct w as [nm un [t|]]; simpl;
    destruct (node_new "ShaderNodeTexEnvironment"); reflexivity.
Qed.

(** [create_world] makes the new world the scene's world, then asks for
    the environment node. *)
Lemma create_world_run (name : string) (s : Session Blend) :
  create_world name s =
  match node_new "ShaderNodeTexEnvironment" with
  | inr x =>
      (Ok (List.length (worlds (data s)), 0),
       with_new_world name (mkNodeTree [at_location x (-300, 0)%Z] []) s)
  | inl e => (Raise e, with_new_world name (mkNodeTree [] []) s)
  end.
Proof.
  unfold create_world, data_worlds_new, set_scene_world.
  unfold bind, get, set_data, modify, ret.
  cbn [data reports stdout studio_lights worlds images scene_world].
  erewrite on_world_last by (cbn [data worlds]; reflexivity).
  rewrite setup_world_run. unfold with_new_world.
  destruct (node_new "ShaderNodeTexEnvironment"); reflexivity.
Qed.

End PreviewFacts.

Section PreviewGraph.
Import Py Bpy Props PreviewWorld.
Context {host : Host}.

Lemma find_index_bound {A} (p : A -> bool) (l : list A) (i : nat) :
  find_index p l = Some i -> i < List.length l.
Proof.
  revert i; induction l as [|x l IH]; simpl; intros i H; [discriminate|].
  destruct (p x).
  - injection H as <-. lia.
  - destruct (find_index p l) as [j|]; [|discriminate].
    injection H as <-. specialize (IH j eq_refl). lia.
Qed.

Lemma resolve_bound (k : SocketKey) (l : list Socket) (i : nat) :
  resolve k l = inr i -> i < List.length l.
Proof.
  destruct k; simpl.
  - destruct (Nat.ltb n (List.length l)) eqn:E; [|discriminate].
    intros H; injection H as <-. apply Nat.ltb_lt; exact E.
  - destruct (find_index _ l) eqn:E; [|discriminate].
    intros H; injection H as <-. eapply find_index_bound; eauto.
Qed.

Lemma nth_error_update_nth {A} (f : A -> A) (l : list A) (i : nat) :
  nth_error (update_nth i f l) i = option_map f (nth_error l i).
Proof. revert i; induction l; intros [|i]; simpl; auto. Qed.

(** Reading back a default value that was assigned. *)
Lemma input_default_assigned (x : Node) (k : SocketKey) (i : nat) (v : Value)
      (l : list Socket) :
  inputs x = update_nth i (fun so => mkSocket (socket_name so) v) l ->
  resolve k l = inr i ->
  input_default x k = Some v.
Proof.
  intros E R. unfold input_default. rewrite E, resolve_update, R.
  rewrite nth_error_update_nth.
  apply resolve_bound in R.
  destruct (nth_error l i) eqn:N; [reflexivity|].
  apply nth_error_None in N. lia.
Qed.

Lemma bind_ok {S A B} (m : M S A) (k : A -> M S B) (s s' : S) (b : B) :
  bind m k s = (Ok b, s') ->
  exists a s1, m s = (Ok a, s1) /\ k a s1 = (Ok b, s').
Proof.
  unfold bind. destruct (m s) as [[a|e] s1]; [|discriminate].
  intros H. exists a, s1. auto.
Qed.

Lemma nodes_new_ok (ty nm : string) (un : bool) (t : NodeTree) (i : nat) (w1 : World) :
  nodes_new ty (mkWorld nm un (Some t)) = (Ok i, w1) ->
  exists x, node_new ty = inr x
            /\ i = List.length (nodes t)
            /\ w1 = mkWorld nm un (Some (mkNodeTree (nodes t ++ [x]) (links t))).
Proof.
  unfold nodes_new, the_tree, set_tree, bind, get, modify, ret, lift_sum, raise. simpl.
  destruct (node_new ty) as [e|x]; [discriminate|].
  intros H; inversion H; subst. exists x. auto.
Qed.

Lemma update_node_ok (n : nat) (f : Node -> Node) (nm : string) (un : bool)
      (t : NodeTree) (u : unit) (w1 : World) :
  update_node n f (mkWorld nm un (Some t)) = (Ok u, w1) ->
  w1 = mkWorld nm un (Some (mkNodeTree (update_nth n f (nodes t)) (links t))).
Proof.
  unfold update_node, the_tree, set_tree, bind, get, modify, ret. simpl.
  intros H; inversion H; reflexivity.
Qed.

Lemma link_ok (a : nat) (ka : SocketKey) (b : nat) (kb : SocketKey)
      (nm : string) (un : bool) (t : NodeTree) (u : unit) (w1 : World) :
  link a ka b kb (mkWorld nm un (Some t)) = (Ok u, w1) ->
  exists na nb i j,
    nth_error (nodes t) a = Some na
    /\ nth_error (nodes t) b = Some nb
    /\ resolve ka (outputs na) = inr i
    /\ resolve kb (inputs nb) = inr j
    /\ w1 = mkWorld nm un (Some (mkNodeTree (nodes t) (links t ++ [mkLink a i b j]))).
Proof.
  unfold link, links_new, output_socket, input_socket, node_at, the_tree, set_tree,
    bind, get, modify, ret, lift_sum, raise. simpl.
  destruct (nth_error (nodes t) a) as [na|] eqn:E1; simpl; try discriminate.
  destruct (resolve ka (outputs na)) as [e|i] eqn:E2; simpl; try discriminate.
  destruct (nth_error (nodes t) b) as [nb|] eqn:E3; simpl; try discriminate.
  destruct (resolve kb (inputs nb)) as [e|j] eqn:E4; simpl; try discriminate.
  simpl. intros H; inversion H; subst. exists na, nb, i, j. repeat split; auto.
Qed.

Lemma set_default_ok (n : nat) (k : SocketKey) (v : Value)
      (nm : string) (un : bool) (t : NodeTree) (u : unit) (w1 : World) :
  set_default n k v (mkWorld nm un (Some t)) = (Ok u, w1) ->
  exists x i,
    nth_error (nodes t) n = Some x
    /\ resolve k (inputs x) = inr i
    /\ w1 = mkWorld nm un
               (Some (mkNodeTree
                        (update_nth n
                           (fun x => with_inputs x
                              (update_nth i (fun so => mkSocket (socket_name so) v)
                                          (inputs x)))
                           (nodes t))
                        (links t))).
Proof.
  unfold set_default, input_socket, update_node, node_at, the_tree, set_tree,
    bind, get, modify, ret, lift_sum, raise. simpl.
  destruct (nth_error (nodes t) n) as [x|] eqn:E5; simpl; try discriminate.
  destruct (resolve k (inputs x)) as [e|i] eqn:E6; simpl; try discriminate.
  simpl. intros H; inversion H; subst. exists x, i. repeat split; auto.
Qed.

Lemma set_default_z_ok (n : nat) (k : SocketKey) (z : float)
      (nm : string) (un : bool) (t : NodeTree) (u : unit) (w1 : World) :
  set_default_z n k z (mkWorld nm un (Some t)) = (Ok u, w1) ->
  exists x i so a b c,
    nth_error (nodes t) n = Some x
    /\ resolve k (inputs x) = inr i
    /\ nth_error (inputs x) i = Some so
    /\ default_value so = VVector a b c
    /\ w1 = mkWorld nm un
               (Some (mkNodeTree
                        (update_nth n
                           (fun x => with_inputs x
                              (update_nth i
                                 (fun so => mkSocket (socket_name so) (VVector a b z))
                                 (inputs x)))
                           (nodes t))
                        (links t))).
Proof.
  unfold set_default_z, input_socket, update_node, node_at, the_tree, set_tree,
    bind, get, modify, ret, lift_sum, raise. simpl.
  destruct (nth_error (nodes t) n) as [x|] eqn:E7; simpl; try discriminate.
  destruct (resolve k (inputs x)) as [e|i] eqn:E8; simpl; try discriminate.
  simpl.
  match goal with E : nth_error (nodes t) n = _ |- _ => rewrite ?E end. simpl.
  destruct (nth_error (inputs x) i) as [so|] eqn:E9; simpl; try discriminate.
  destruct (default_value so) as [f|a b c|] eqn:E10; try discriminate.
  intros H; inversion H; subst. exists x, i, so, a, b, c. repeat split; auto.
Qed.

(** One statement of [build_graph] that returned. *)
Ltac settle S :=
  first
    [ apply nodes_new_ok in S; destruct S as (? & ? & ? & ?)
    | apply link_ok in S; destruct S as (? & ? & ? & ? & ? & ? & ? & ? & ?)
    | apply set_default_ok in S; destruct S as (? & ? & ? & ? & ?)
    | apply set_default_z_ok in S;
      destruct S as (? & ? & ? & ? & ? & ? & ? & ? & ? & ? & ?)
    | apply update_node_ok in S ];
  subst;
  cbn [nodes links Datatypes.app List.length update_nth nth_error] in *;
  repeat match goal with
         | E : Some _ = Some _ |- _ => injection E as E; subst
         end;
  cbn [inputs outputs with_inputs bl_idname location label data_type operation image] in *.

Ltac step H :=
  let a := fresh "a" in
  let w1 := fresh "w" in
  let S := fresh "S" in
  apply bind_ok in H; destruct H as (a & w1 & S & H); settle S.

Lemma socket_names_update (i : nat) (v : Value) (l : list Socket) :
  map socket_name (update_nth i (fun so => mkSocket (socket_name so) v) l)
  = map socket_name l.
Proof. revert i; induction l; intros [|i]; simpl; f_equal; auto. Qed.

Ltac made :=
  eexists; split; [eassumption|];
  split; [reflexivity|];
  split; [cbn [inputs with_inputs]; rewrite ?socket_names_update; reflexivity | reflexivity].

Ltac wire :=
  unfold wired; do 4 eexists;
  split; [reflexivity|];
  split; [reflexivity|];
  split; [cbn [outputs with_inputs]; eassumption|];
  split; [cbn [inputs with_inputs]; rewrite ?resolve_update; eassumption|];
  cbn [links]; auto 10 using in_eq, in_cons.

(** What [build_graph] leaves when it returns: the graph of the operator,
    whatever nodes the host makes. *)
Lemma build_graph_spec (shading : Shading) (nm : string) (un : bool) (env : Node)
      (w' : World) :
  build_graph shading 0 (mkWorld nm un (Some (mkNodeTree [env] []))) = (Ok tt, w') ->
  exists t, w' = mkWorld nm un (Some t) /\ preview_graph shading env t.
Proof.
  unfold build_graph, set_location, set_label, set_data_type, set_operation.
  intros H. do 27 step H. settle H.
  rewrite ?resolve_update in *.
  eexists. split; [reflexivity|].
  unfold preview_graph. do 7 eexists.
  split; [reflexivity|].
  do 7 (split; [made|]).
  split; [reflexivity|].
  do 7 (split; [wire|]).
  split; [eapply input_default_assigned; [reflexivity | eassumption]|].
  split; [do 2 eexists; eapply input_default_assigned; [reflexivity | eassumption]|].
  split; eapply input_default_assigned; try reflexivity; eassumption.
Qed.

(** The same run, in full: every node and every link of the tree. *)
Lemma build_graph_exact (shading : Shading) (nm : string) (un : bool) (env : Node)
      (w' : World) :
  build_graph shading 0 (mkWorld nm un (Some (mkNodeTree [env] []))) = (Ok tt, w') ->
  exists t, w' = mkWorld nm un (Some t) /\ exact_graph shading env t.
Proof.
  unfold build_graph, set_location, set_label, set_data_type, set_operation.
  intros H. do 27 step H. settle H.
  rewrite ?resolve_update in *.
  eexists. split; [reflexivity|].
  unfold exact_graph. do 29 eexists.
  do 7 (split; [eassumption|]).
  do 9 (split; [eassumption|]).
  split; [eassumption|]. split; [eassumption|].
  do 9 (split; [eassumption|]).
  split; reflexivity.
Qed.

End PreviewGraph.

Section PreviewOperator.
Import Py Bpy Props PreviewWorld.
Context {host : Host}.

Lemma execute_path_missing (shading : Shading) (s : Session Blend) :
  path_missing (get_studio_light_path (studio_lights (data s)) (studio_light shading))
  = true ->
  execute shading s =
  (Ok CANCELLED,
   mkSession (data s)
             (reports s ++ [(ERROR, "Could not find path for studio light: "
                                    ++ studio_light shading)])
             (stdout s)).
Proof.
  unfold execute, bind, get. intros H.
  destruct (get_studio_light_path (studio_lights (data s)) (studio_light shading));
    [rewrite H|]; reflexivity.
Qed.

(** With a path that exists, the operator creates the world, loads the
    image under [try], and builds the graph. *)
Lemma execute_resolved (shading : Shading) (s : Session Blend) (path : string) :
  get_studio_light_path (studio_lights (data s)) (studio_light shading) = Some path ->
  path_missing (Some path) = false ->
  execute shading s =
  match create_world (studio_light shading) s with
  | (Raise e, s1) => (Raise e, s1)
  | (Ok w, s1) =>
      match load_image (fst w) (snd w) path s1 with
      | (Raise e, s2) =>
          (Ok CANCELLED,
           mkSession (data s2)
                     (reports s2 ++ [(ERROR, "Failed to load image: " ++ exn_str e)])
                     (stdout s2))
      | (Ok _, s2) =>
          match on_world (fst w) (build_graph shading (snd w)) s2 with
          | (Raise e, s3) => (Raise e, s3)
          | (Ok _, s3) =>
              (Ok FINISHED,
               mkSession (data s3)
                         (reports s3 ++ [(INFO, "Copied HDRI '" ++ studio_light shading
                                                ++ "' to World")])
                         (stdout s3))
          end
      end
  end.
Proof.
  intros Hp Hm. unfold execute. unfold bind at 1, get at 1. cbv beta iota.
  rewrite Hp, Hm. unfold bind at 1.
  destruct (create_world (studio_light shading) s) as [[w|e] s1]; [|reflexivity].
  unfold bind at 1, try_except, bind at 1, ret at 1.
  destruct (load_image (fst w) (snd w) path s1) as [[u|e] s2]; [|reflexivity].
  unfold bind at 1.
  destruct (on_world (fst w) (build_graph shading (snd w)) s2) as [[u'|e] s3];
    reflexivity.
Qed.

Lemma load_image_fails (wid env : nat) (path : string) (s : Session Blend) (e : Exn) :
  needs_load path (images (data s)) = true ->
  images_load path (images (data s)) = inl e ->
  load_image wid env path s = (Raise e, s).
Proof.
  unfold needs_load, load_image, data_images_load, bind, get, lift_sum, raise.
  intros N L.
  destruct (find _ (images (data s))) as [existing|].
  - rewrite N, L. reflexivity.
  - rewrite L. reflexivity.
Qed.

Lemma data_images_load_ok (path img : string) (s s1 : Session Blend) :
  data_images_load path s = (Ok img, s1) ->
  worlds (data s1) = worlds (data s)
  /\ scene_world (data s1) = scene_world (data s)
  /\ reports s1 = reports s
  /\ stdout s1 = stdout s.
Proof.
  unfold data_images_load, bind, get, lift_sum, raise, ret, set_data, modify.
  destruct (images_load path (images (data s))); [discriminate|].
  intros H; inversion H; subst. simpl. auto.
Qed.

(** When the [try] body returns, the environment node has its image and
    nothing else about the worlds changed. *)
Lemma load_image_ok (path nm : string) (un : bool) (x : Node) (ws : list World)
      (u : unit) (s s2 : Session Blend) :
  worlds (data s) = (ws ++ [mkWorld nm un (Some (mkNodeTree [x] []))])%list ->
  load_image (List.length ws) 0 path s = (Ok u, s2) ->
  exists img,
    worlds (data s2)
    = (ws ++ [mkWorld nm un (Some (mkNodeTree [with_image x img] []))])%list
    /\ scene_world (data s2) = scene_world (data s)
    /\ reports s2 = reports s
    /\ stdout s2 = stdout s.
Proof.
  intros E H. unfold load_image in H.
  apply bind_ok in H as (s0 & s0' & G & H). inversion G; subst s0 s0'; clear G.
  apply bind_ok in H as (img & s1 & L & H).
  assert (K : worlds (data s1) = worlds (data s)
              /\ scene_world (data s1) = scene_world (data s)
              /\ reports s1 = reports s /\ stdout s1 = stdout s).
  { destruct (find _ (images (data s))) as [existing|].
    - destruct (negb (String.eqb (filepath existing) path)).
      + eapply data_images_load_ok; eauto.
      + inversion L; subst. auto.
    - eapply data_images_load_ok; eauto. }
  destruct K as (Kw & Ks & Kr & Ko).
  rewrite E in Kw. rewrite (on_world_last _ _ _ _ Kw) in H.
  exists img. inversion H; subst. simpl. auto.
Qed.

(** The world is in place, and stays, when loading the image raises. *)
Lemma execute_image_load_raises (shading : Shading) (s : Session Blend)
      (path : string) (env : Node) (e : Exn) :
  get_studio_light_path (studio_lights (data s)) (studio_light shading) = Some path ->
  path_missing (Some path) = false ->
  node_new "ShaderNodeTexEnvironment" = inr env ->
  needs_load path (images (data s)) = true ->
  images_load path (images (data s)) = inl e ->
  execute shading s =
  (Ok CANCELLED,
   mkSession (data (with_new_world (studio_light shading)
                                   (mkNodeTree [at_location env (-300, 0)%Z] []) s))
             (reports s ++ [(ERROR, "Failed to load image: " ++ exn_str e)])
             (stdout s)).
Proof.
  intros Hp Hm He Hn Hl.
  rewrite (execute_resolved _ _ _ Hp Hm), create_world_run, He. cbn [fst snd].
  rewrite (load_image_fails _ _ _ _ e) by assumption.
  reflexivity.
Qed.

End PreviewOperator.

(* ===================================================================== *)
(** * The claims of the specification *)
(* ===================================================================== *)

Section ClosedBrackets.
Import Py Props.

Lemma brackets_closed_drop (n : nat) (s : string) :
  brackets_closed s = true -> brackets_closed (drop n s) = true.
Proof.
  revert s; induction n as [|n IH]; intros [|c r]; simpl; auto.
  intros H. apply andb_true_iff in H as [_ H]. auto.
Qed.

(** Stripping a path whose brackets are all closed leaves no ["["]: an
    opening bracket at the current position starts a match. *)
Lemma closed_strip_no_open (s : string) :
  brackets_closed s = true -> has_char "[" (re_sub_strip s) = false.
Proof.
  remember (String.length s) as n eqn:Hn. revert s Hn.
  induction n as [n IH] using lt_wf_ind. intros [|c r] Hn Hc.
  - reflexivity.
  - rewrite re_sub_strip_step.
    destruct (strip_pattern (String c r)) as [k|] eqn:E.
    + pose proof (strip_pattern_bounds _ _ E) as B.
      eapply IH; [ | reflexivity | apply brackets_closed_drop; exact Hc].
      rewrite drop_length. subst n. lia.
    + simpl in Hc. apply andb_true_iff in Hc as [Hh Hr].
      simpl has_char.
      rewrite (IH (String.length r)); [ | subst n; simpl; lia | reflexivity | exact Hr].
      rewrite orb_false_r.
      destruct (Ascii.eqb c "[") eqn:Ec; [|reflexivity].
      exfalso. unfold strip_pattern, match_delim in E. rewrite Ec in E.
      simpl in Hh. destruct (lazy_until "]" r); simpl in *; discriminate.
Qed.

Lemma no_open_not_dangling (q : string) :
  has_char "[" q = false -> dangling_open q = false.
Proof.
  induction q as [|c r IH]; simpl; [reflexivity|].
  intros H. apply orb_false_iff in H as [Hc Hr].
  rewrite Hc, (IH Hr). reflexivity.
Qed.

End ClosedBrackets.

Section Claims.
Import Py Bpy Props Scenario.

(** C1.  For every set of visible F-Curves and every selection (it is
    non-empty whenever the operator reaches the loop), the scan partitions
    the visible curves by name format: the curves whose name format
    (stripped data path, then the array index in brackets) is among the
    name formats of the selected curves go to the show list, all others to
    the hide list; no curve is in both, and the two lists together are the
    visible curves. *)
Theorem C1_partition_by_name_format
        (selected visible : list nat) (s : Session (nat -> Focus.FCurve)) :
  let targets := targets_of (data s) selected in
  let show := filter (is_target targets (data s)) visible in
  let hide := filter (fun f => negb (is_target targets (data s) f)) visible in
  fst (Focus.scan targets visible [] [] s) = Ok (show, hide)
  /\ (forall f, In f show <->
                In f visible /\ In (Focus.name_format (data s f)) targets)
  /\ (forall f, In f hide <->
                In f visible /\ ~ In (Focus.name_format (data s f)) targets)
  /\ (forall f, ~ (In f show /\ In f hide))
  /\ Permutation (show ++ hide)%list visible.
Proof.
  intros targets show hide.
  assert (T : forall f, is_target targets (data s) f = true
                        <-> In (Focus.name_format (data s f)) targets).
  { intros f. apply mem_In. }
  assert (S1 : forall f, In f show <->
                         In f visible /\ In (Focus.name_format (data s f)) targets).
  { intros f. unfold show. rewrite filter_In, T. reflexivity. }
  assert (S2 : forall f, In f hide <->
                         In f visible /\ ~ In (Focus.name_format (data s f)) targets).
  { intros f. unfold hide. rewrite filter_In, negb_true_iff, <- T.
    rewrite not_true_iff_false. reflexivity. }
  split.
  - destruct (scan_spec targets visible [] [] s) as (s' & E & _). rewrite E. reflexivity.
  - split; [exact S1|]. split; [exact S2|]. split.
    + intros f [H1 H2]. apply S1 in H1. apply S2 in H2. tauto.
    + apply filter_split_perm.
Qed.

(** C2.  The curves on [pose.bones["Arm"].location] and on
    [pose.bones["Leg"].location], both with array index 0, have the same
    name format; two curves on one data path with array indices 0 and 1
    have different name formats. *)
Theorem C2_name_format_examples :
  (forall sa ha sb hb,
      Focus.name_format (Focus.mkFCurve arm_location 0 sa ha)
      = Focus.name_format (Focus.mkFCurve leg_location 0 sb hb))
  /\ (forall p sa ha sb hb,
         Focus.name_format (Focus.mkFCurve p 0 sa ha)
         <> Focus.name_format (Focus.mkFCurve p 1 sb hb)).
Proof.
  split.
  - intros. vm_compute. reflexivity.
  - intros p sa ha sb hb H. unfold Focus.name_format in H.
    cbn [Focus.data_path Focus.array_index] in H.
    apply name_format_of_index_inj in H. discriminate H.
Qed.

(** C3, as the specification states it, fails: the path [a[b]c[d] holds a
    bracketed substring, its name format at index 0 is [ac[d[0]], and the
    name format of that is [ac[0]]. *)
Lemma C3_counterexample :
  Focus.name_format_of "a[b]c[d" 0 = "ac[d[0]"
  /\ Focus.name_format_of (Focus.name_format_of "a[b]c[d" 0) 0 = "ac[0]"
  /\ Focus.name_format_of (Focus.name_format_of "a[b]c[d" 0) 0
     <> Focus.name_format_of "a[b]c[d" 0.
Proof.
  split; [vm_compute; reflexivity|]. split; [vm_compute; reflexivity|].
  intros H. vm_compute in H. discriminate H.
Qed.

(** C3, amended.  For every path and index, the name format of a name
    format (same index) is that name format again exactly when every ["["]
    left in the stripped path has a line feed after it.  For every path
    whose brackets are all closed on their line (each ["["] has a ["]"]
    after it before the next line feed) the stripped path holds no ["["]
    at all, so the name format of its name format is that name format
    again.  Stripping alone, without the index suffix, gives the same
    string when applied twice, for every path. *)
Theorem C3_name_format_idempotent (p : string) (i : Z) :
  (Focus.name_format_of (Focus.name_format_of p i) i = Focus.name_format_of p i
   <-> dangling_open (re_sub_strip p) = false)
  /\ (brackets_closed p = true ->
      has_char "[" (re_sub_strip p) = false
      /\ Focus.name_format_of (Focus.name_format_of p i) i = Focus.name_format_of p i)
  /\ re_sub_strip (re_sub_strip p) = re_sub_strip p.
Proof.
  assert (I : Focus.name_format_of (Focus.name_format_of p i) i
              = Focus.name_format_of p i
              <-> dangling_open (re_sub_strip p) = false).
  { unfold Focus.name_format_of.
    change ("[" ++ str_int i ++ "]") with (String "[" (str_int i ++ "]")).
    pose proof (re_sub_strip_no_match p) as N.
    pose proof (str_int_numeral i) as D.
    split.
    - intros H. apply app_inj_r in H.
      destruct (dangling_open (re_sub_strip p)) eqn:E; [|reflexivity].
      exfalso. eapply strip_suffix_open; eauto.
    - intros E. rewrite strip_suffix_closed; auto. }
  split; [exact I|]. split.
  - intros C. pose proof (closed_strip_no_open p C) as O.
    split; [exact O|]. apply I. apply no_open_not_dangling. exact O.
  - apply re_sub_strip_idempotent.
Qed.

Lemma C3_witness :
  brackets_closed arm_location = true
  /\ has_char "[" (re_sub_strip arm_location) = false
  /\ Focus.name_format_of (Focus.name_format_of arm_location 0) 0
     = Focus.name_format_of arm_location 0.
Proof.
  split; [vm_compute; reflexivity|].
  apply (proj1 (proj2 (C3_name_format_idempotent arm_location 0))).
  vm_compute. reflexivity.
Defined.

(** C4.  The selection is the curve [bone["A"].location], index 0, whose
    name format is [bone.location[0]]; the visible curves are that one
    (0), [bone["B"].location] index 0 (1) and [bone["A"].location] index 1
    (2).  The show list is exactly the two index-0 curves, the hide list
    exactly the index-1 curve, and the operator reports two curves. *)
Theorem C4_scenario :
  map (fun f => (Focus.data_path (curves f), Focus.array_index (curves f))) [0; 1; 2]
  = [(bone_A_location, 0%Z); (bone_B_location, 0%Z); (bone_A_location, 1%Z)]
  /\ targets_of curves (Focus.selected_editable_fcurves graph_ctx) = ["bone.location[0]"]
  /\ fst (Focus.scan (targets_of curves (Focus.selected_editable_fcurves graph_ctx))
                     (Focus.visible_fcurves graph_ctx) [] [] graph_session)
     = Ok ([0; 1], [2])
  /\ fst (@Focus.execute lenient_graph graph_ctx graph_session) = Ok FINISHED
  /\ reports (snd (@Focus.execute lenient_graph graph_ctx graph_session))
     = [(INFO, "Target F-Curve name formats: bone.location[0]");
        (INFO, "Focused on 2 F-Curves and hid others.")].
Proof.
  split; [vm_compute; reflexivity|]. split; [vm_compute; reflexivity|].
  split; [vm_compute; reflexivity|]. split; vm_compute; reflexivity.
Qed.

(** C5, as the specification states it, fails.  The focus operator, with
    no Graph Editor area on the screen, returns [CANCELLED] after it has
    selected a curve that was not selected; the preview-world operator,
    when the image cannot be read, returns [CANCELLED] after it has
    replaced the scene's world. *)
Lemma C5_counterexample :
  fst (@Focus.execute lenient_graph no_area_ctx graph_session) = Ok CANCELLED
  /\ Focus.select (data graph_session 1) = false
  /\ Focus.select (data (snd (@Focus.execute lenient_graph no_area_ctx graph_session)) 1)
     = true
  /\ fst (@PreviewWorld.execute unreadable forest_shading view_session) = Ok CANCELLED
  /\ PreviewWorld.scene_world (data view_session) = Some 0
  /\ PreviewWorld.scene_world
       (data (snd (@PreviewWorld.execute unreadable forest_shading view_session)))
     = Some 1.
Proof.
  split; [vm_compute; reflexivity|]. split; [vm_compute; reflexivity|].
  split; [vm_compute; reflexivity|]. split; [vm_compute; reflexivity|].
  split; vm_compute; reflexivity.
Qed.

(** C5, amended.  Every invocation stopped by one of the operators' own
    checks reports a message and returns [CANCELLED]: no selection; no
    visible curve; no matching curve; no Graph Editor area; no studio-light
    path; an image that fails to load.  The host data is left as it was
    where the stop comes before every change: the focus operator with a
    selection and no visible curve, and the preview-world operator without
    a studio-light path. *)
Theorem C5_aborts_report_and_stop
        (G : Focus.GraphEditor) (H : PreviewWorld.Host)
        (ctx : Focus.Context) (s : Session (nat -> Focus.FCurve))
        (shading : PreviewWorld.Shading) (t : Session PreviewWorld.Blend) :
  let sel := Focus.selected_editable_fcurves ctx in
  let visible := Focus.visible_fcurves ctx in
  let show := filter (is_target (targets_of (data s) sel) (data s)) visible in
  (sel <> [] -> visible = [] ->
   @Focus.execute G ctx s =
   (Ok CANCELLED,
    mkSession (data s)
              (reports (announced sel s) ++ [(WARNING, "No F-Curves found in any action.")])
              (stdout (announced sel s))))
  /\ (PreviewWorld.path_missing
        (PreviewWorld.get_studio_light_path (PreviewWorld.studio_lights (data t))
                                            (PreviewWorld.studio_light shading)) = true ->
      @PreviewWorld.execute H shading t =
      (Ok CANCELLED,
       mkSession (data t)
                 (reports t ++ [(ERROR, "Could not find path for studio light: "
                                        ++ PreviewWorld.studio_light shading)])
                 (stdout t)))
  /\ (sel = [] ->
      fst (@Focus.execute G ctx s) = Ok CANCELLED
      /\ exists extra,
           reports (snd (@Focus.execute G ctx s))
           = (reports s ++ (INFO, "No FCurve selected in the Graph Editor.") :: extra)%list)
  /\ (sel <> [] -> visible <> [] -> show = [] ->
      fst (@Focus.execute G ctx s) = Ok CANCELLED
      /\ reports (snd (@Focus.execute G ctx s))
         = (reports (announced sel s)
            ++ [(INFO, "No matching F-Curves found across all actions.")])%list)
  /\ (sel <> [] -> visible <> [] -> show <> [] ->
      find (fun a => String.eqb (Focus.area_type a) "GRAPH_EDITOR") (Focus.screen_areas ctx)
      = None ->
      fst (@Focus.execute G ctx s) = Ok CANCELLED
      /\ reports (snd (@Focus.execute G ctx s))
         = (reports (announced sel s) ++ [(WARNING, "No Graph Editor area found")])%list)
  /\ (forall path env e,
        PreviewWorld.get_studio_light_path (PreviewWorld.studio_lights (data t))
                                           (PreviewWorld.studio_light shading) = Some path ->
        PreviewWorld.path_missing (Some path) = false ->
        PreviewWorld.node_new "ShaderNodeTexEnvironment" = inr env ->
        needs_load path (PreviewWorld.images (data t)) = true ->
        PreviewWorld.images_load path (PreviewWorld.images (data t)) = inl e ->
        fst (@PreviewWorld.execute H shading t) = Ok CANCELLED
        /\ reports (snd (@PreviewWorld.execute H shading t))
           = (reports t ++ [(ERROR, ("Failed to load image: " ++ exn_str e)%string)])%list).
Proof.
  intros sel visible show.
  split; [|split; [|split; [|split; [|split]]]].
  - intros Hs Hv. apply (@execute_no_visible G); assumption.
  - apply (@execute_path_missing H).
  - intros Hs. apply (@execute_no_selection_cancelled G); exact Hs.
  - intros Hs Hv Hm.
    destruct (@execute_scan_reports G ctx s Hs Hv) as (s1 & Hr & E).
    fold sel visible show in E. rewrite E, Hm. cbn [fst snd reports].
    rewrite Hr. split; reflexivity.
  - intros Hs Hv Hm Ha.
    destruct (@execute_scan_reports G ctx s Hs Hv) as (s1 & Hr & E).
    fold sel visible show in E. rewrite E.
    destruct show as [|x l]; [contradiction|].
    rewrite (hide_and_view_no_area _ _ _ Ha). cbn [fst snd reports].
    rewrite Hr. split; reflexivity.
  - intros path env e Hp Hm He Hn Hl.
    rewrite (execute_image_load_raises _ _ _ _ _ Hp Hm He Hn Hl).
    split; reflexivity.
Qed.

Lemma C5_witness :
  @Focus.execute lenient_graph no_visible_ctx graph_session
  = (Ok CANCELLED,
     mkSession curves
               [(INFO, "Target F-Curve name formats: bone.location[0]");
                (WARNING, "No F-Curves found in any action.")]
               ["Target F-Curve name formats: bone.location[0]"])
  /\ @PreviewWorld.execute blender unknown_shading view_session
     = (Ok CANCELLED,
        mkSession blend [(ERROR, "Could not find path for studio light: sunset.exr")] []).
Proof.
  destruct (C5_aborts_report_and_stop lenient_graph blender no_visible_ctx graph_session
                                      unknown_shading view_session) as (A & B & _).
  split.
  - rewrite A; [|discriminate|reflexivity]. vm_compute. reflexivity.
  - rewrite B by (vm_compute; reflexivity). vm_compute. reflexivity.
Defined.

(** C6, as the specification states it, fails: on a host that does not
    know the Mix node, [nodes.new] raises outside every [try] and the
    exception leaves [execute]. *)
Lemma C6_counterexample :
  fst (@PreviewWorld.execute no_mix_node forest_shading view_session)
  = Raise (mkExn "RuntimeError" "Error: Node type ShaderNodeMix undefined").
Proof. vm_compute. reflexivity. Qed.

(** C6, amended.  The exceptions the operators catch are those of their
    [try] blocks.  Focus operator: an exception of [reveal] or [view_all]
    called without a selection, and an exception of entering the override
    or of [reveal], [hide], [view_all] called under it, is reported as the
    error "Failed to call graph operators: ..." and the operator returns
    [CANCELLED]; without a selection it never raises.  Preview-world
    operator: an exception raised while the image is looked up, loaded and
    assigned is reported as the error "Failed to load image: ..." and the
    operator returns [CANCELLED]. *)
Theorem C6_try_blocks_catch
        (G : Focus.GraphEditor) (H : PreviewWorld.Host)
        (ctx : Focus.Context) (s : Session (nat -> Focus.FCurve))
        (shading : PreviewWorld.Shading) (t : Session PreviewWorld.Blend) :
  (Focus.selected_editable_fcurves ctx = [] ->
   fst (@Focus.execute G ctx s) = Ok CANCELLED
   /\ forall e s1,
       (Focus.call None (Focus.Reveal false) ;; Focus.call None Focus.ViewAll)%py
         (mkSession (data s)
                    (reports s ++ [(INFO, "No FCurve selected in the Graph Editor.")])
                    (stdout s))
       = (Raise e, s1) ->
       @Focus.execute G ctx s =
       (Ok CANCELLED,
        mkSession (data s1)
                  (reports s1 ++ [(ERROR, "Failed to call graph operators: " ++ exn_str e)])
                  (stdout s1)))
  /\ (Focus.selected_editable_fcurves ctx <> [] ->
      Focus.visible_fcurves ctx <> [] ->
      let targets := targets_of (data s) (Focus.selected_editable_fcurves ctx) in
      filter (is_target targets (data s)) (Focus.visible_fcurves ctx) <> [] ->
      forall a r e s2,
        find (fun a => String.eqb (Focus.area_type a) "GRAPH_EDITOR")
             (Focus.screen_areas ctx) = Some a ->
        find (fun r => String.eqb (Focus.region_type r) "WINDOW") (Focus.regions a)
        = Some r ->
        @Focus.focus_ops G a r
          (snd (Focus.scan targets (Focus.visible_fcurves ctx) [] []
                           (announced (Focus.selected_editable_fcurves ctx) s)))
        = (Raise e, s2) ->
        @Focus.execute G ctx s =
        (Ok CANCELLED,
         mkSession (data s2)
                   (reports s2 ++ [(ERROR, "Failed to call graph operators: " ++ exn_str e)])
                   (stdout s2)))
  /\ (forall path w t1 e t2,
        PreviewWorld.get_studio_light_path (PreviewWorld.studio_lights (data t))
                                           (PreviewWorld.studio_light shading) = Some path ->
        PreviewWorld.path_missing (Some path) = false ->
        PreviewWorld.create_world (PreviewWorld.studio_light shading) t = (Ok w, t1) ->
        PreviewWorld.load_image (fst w) (snd w) path t1 = (Raise e, t2) ->
        @PreviewWorld.execute H shading t =
        (Ok CANCELLED,
         mkSession (data t2)
                   (reports t2 ++ [(ERROR, "Failed to load image: " ++ exn_str e)])
                   (stdout t2))).
Proof.
  split; [|split].
  - intros Hs. split.
    + apply (@execute_no_selection_cancelled G); exact Hs.
    + intros e s1 R. apply (@execute_no_selection_caught G); assumption.
  - intros Hs Hv targets Hm a r e s2 Ha Hr R.
    destruct (@execute_after_scan G ctx s Hs Hv) as (s1 & S1 & _ & _ & _ & E).
    fold targets in S1, E. rewrite S1 in R. rewrite E.
    destruct (filter _ _) as [|x l] eqn:F; [contradiction|].
    rewrite (hide_and_view_ops _ _ _ _ _ Ha Hr), R. reflexivity.
  - intros path w t1 e t2 Hp Hm C L.
    rewrite (execute_resolved _ _ _ Hp Hm), C, L. reflexivity.
Qed.

Lemma C6_witness :
  reports (snd (@Focus.execute strict_graph no_selection_ctx graph_session))
  = [(INFO, "No FCurve selected in the Graph Editor.");
     (ERROR, "Failed to call graph operators: "
             ++ "Operator bpy.ops.graph.poll() failed, context is incorrect")]
  /\ fst (@Focus.execute failing_graph graph_ctx graph_session) = Ok CANCELLED
  /\ fst (@PreviewWorld.execute unreadable forest_shading view_session) = Ok CANCELLED.
Proof.
  destruct (C6_try_blocks_catch strict_graph unreadable no_selection_ctx graph_session
                                forest_shading view_session) as (A & _ & C).
  destruct (C6_try_blocks_catch failing_graph unreadable graph_ctx graph_session
                                forest_shading view_session) as (_ & B & _).
  destruct (A eq_refl) as [_ A'].
  split; [|split].
  - erewrite A' by (vm_compute; reflexivity). vm_compute. reflexivity.
  - assert (Hs : Focus.selected_editable_fcurves graph_ctx <> []) by discriminate.
    assert (Hv : Focus.visible_fcurves graph_ctx <> []) by discriminate.
    erewrite (B Hs Hv).
    + reflexivity.
    + vm_compute. discriminate.
    + vm_compute. reflexivity.
    + vm_compute. reflexivity.
    + unfold Focus.focus_ops, Focus.enter_override, Focus.call, bind, ret.
      cbn [Focus.temp_override Focus.graph_op failing_graph]. reflexivity.
  - erewrite C; [reflexivity | vm_compute; reflexivity | vm_compute; reflexivity
                 | rewrite create_world_run; cbn; reflexivity
                 | apply load_image_fails; vm_compute; reflexivity ].
Defined.

(** C7, as the specification states it, fails: on a host on which every
    call succeeds the operator finishes, and the tree of the new scene
    world has eight nodes (and seven links), not six. *)
Lemma C7_counterexample :
  fst (@PreviewWorld.execute blender forest_shading view_session) = Ok FINISHED
  /\ scene_graph_size (data (snd (@PreviewWorld.execute blender forest_shading view_session)))
     = Some (8, 7)
  /\ option_map fst
       (scene_graph_size
          (data (snd (@PreviewWorld.execute blender forest_shading view_session))))
     <> Some 6.
Proof.
  split; [vm_compute; reflexivity|]. split; [vm_compute; reflexivity|].
  intros H. vm_compute in H. discriminate H.
Qed.

(** C7, amended.  Every invocation that finishes had a studio-light path
    that exists, and leaves a new world, the scene's world, whose tree has
    exactly 8 nodes (environment texture, background, world output,
    texture coordinate, mapping, mix, noise, vector math) and exactly 7
    links, wired as the operator fixes them.  The tree is given in full:
    each of the seven added nodes is the node the host makes for its type,
    moved to its place, and apart from the label and data type of the mix
    node and the operation of the vector math node only four input
    defaults differ from the host's.  Two of them are constants (the noise
    scale 30000 and the subtracted vector (0.5, 0.5, 0.5)); the other two
    are the only values taken from the viewport: input 0 of the mix node
    is [studiolight_background_blur], and the rotation of the mapping node
    keeps the host's first two components and has [studiolight_rotate_z]
    as its third.  Every other input default, of every node, is the
    host's. *)
Theorem C7_finished_builds_graph
        (H : PreviewWorld.Host) (shading : PreviewWorld.Shading)
        (s s' : Session PreviewWorld.Blend) :
  @PreviewWorld.execute H shading s = (Ok FINISHED, s') ->
  exists path env img nm t,
    PreviewWorld.get_studio_light_path (PreviewWorld.studio_lights (data s))
                                       (PreviewWorld.studio_light shading) = Some path
    /\ PreviewWorld.path_exists path = true
    /\ PreviewWorld.node_new "ShaderNodeTexEnvironment" = inr env
    /\ PreviewWorld.worlds (data s')
       = (PreviewWorld.worlds (data s) ++ [PreviewWorld.mkWorld nm true (Some t)])%list
    /\ PreviewWorld.scene_world (data s')
       = Some (List.length (PreviewWorld.worlds (data s)))
    /\ List.length (PreviewWorld.nodes t) = 8
    /\ List.length (PreviewWorld.links t) = 7
    /\ preview_graph shading (with_image (at_location env (-300, 0)%Z) img) t
    /\ exact_graph shading (with_image (at_location env (-300, 0)%Z) img) t.
Proof.
  intros E.
  destruct (PreviewWorld.get_studio_light_path
              (PreviewWorld.studio_lights (data s))
              (PreviewWorld.studio_light shading)) as [path|] eqn:Hp.
  2:{ rewrite execute_path_missing in E by (rewrite Hp; reflexivity). discriminate E. }
  destruct (PreviewWorld.path_missing (Some path)) eqn:Hm.
  { rewrite execute_path_missing in E by (rewrite Hp; exact Hm). discriminate E. }
  rewrite (execute_resolved _ _ _ Hp Hm), create_world_run in E.
  destruct (PreviewWorld.node_new "ShaderNodeTexEnvironment") as [e|env] eqn:He;
    [discriminate E|].
  cbn [fst snd] in E.
  destruct (PreviewWorld.load_image _ 0 path _) as [[u|e] s2] eqn:L; [|discriminate E].
  eapply load_image_ok in L; [|reflexivity].
  destruct L as (img & Lw & Ls & Lr & Lo).
  rewrite (on_world_last _ _ _ _ Lw) in E.
  destruct (PreviewWorld.build_graph shading 0 _) as [[u'|e] w'] eqn:B;
    [|discriminate E].
  destruct u'. pose proof (build_graph_exact _ _ _ _ _ B) as X.
  apply build_graph_spec in B. destruct B as (t & -> & G).
  destruct X as (t0 & Et & X). injection Et as <-.
  cbn [fst snd] in E. inversion E; subst s'; clear E. cbn [data PreviewWorld.worlds
    PreviewWorld.scene_world].
  exists path, env, img.
  eexists. exists t.
  split; [reflexivity|]. split.
  { simpl in Hm. apply orb_false_iff in Hm as [_ Hm].
    apply negb_false_iff in Hm. exact Hm. }
  split; [reflexivity|]. split; [reflexivity|]. split; [exact Ls|].
  pose proof G as G'.
  destruct G' as (n1 & n2 & n3 & n4 & n5 & n6 & n7 & Hn & G').
  split; [rewrite Hn; reflexivity|].
  split; [decompose [and] G'; assumption|].
  split; [exact G|].
  exact X.
Qed.

Lemma C7_witness :
  exists t,
    nth_error (PreviewWorld.worlds
                 (data (snd (@PreviewWorld.execute blender forest_shading view_session)))) 1
    = Some (PreviewWorld.mkWorld "Preview forest.exr" true (Some t))
    /\ List.length (PreviewWorld.nodes t) = 8
    /\ List.length (PreviewWorld.links t) = 7.
Proof.
  destruct (@PreviewWorld.execute blender forest_shading view_session) as [o s'] eqn:E.
  assert (O : o = Ok FINISHED).
  { apply (f_equal fst) in E. vm_compute in E. symmetry. exact E. }
  subst o.
  destruct (C7_finished_builds_graph blender forest_shading view_session s' E)
    as (path & env & img & nm & t & _ & _ & _ & W & _ & N & K & _ & _).
  assert (Hn : nm = "Preview forest.exr").
  { apply (f_equal snd) in E. cbn [snd] in E. rewrite <- E in W.
    apply (f_equal (fun l => option_map PreviewWorld.world_name (nth_error l 1))) in W.
    vm_compute in W. injection W as W. symmetry. exact W. }
  exists t. cbn [snd]. rewrite W, Hn. split; [reflexivity|]. split; assumption.
Defined.

(** C8, as the specification states it, fails: when the studio light has
    no path the operator reports an error, not a warning. *)
Lemma C8_counterexample :
  @PreviewWorld.path_missing blender
    (PreviewWorld.get_studio_light_path
       (PreviewWorld.studio_lights (data view_session))
       (PreviewWorld.studio_light unknown_shading)) = true
  /\ @PreviewWorld.execute blender unknown_shading view_session
     = (Ok CANCELLED,
        mkSession blend [(ERROR, "Could not find path for studio light: sunset.exr")] [])
  /\ ~ In WARNING
         (map fst (reports (snd (@PreviewWorld.execute blender unknown_shading
                                                        view_session)))).
Proof.
  split; [vm_compute; reflexivity|]. split; [vm_compute; reflexivity|].
  intros H. vm_compute in H. destruct H as [H|[]]. discriminate H.
Qed.

(** C8, amended.  The focus operator, once a visible curve matched and no
    area of the screen is a Graph Editor, reports the warning "No Graph
    Editor area found" and returns [CANCELLED]; the preview-world operator,
    when the studio light has no path or the path does not exist, reports
    the error "Could not find path for studio light: ..." and returns
    [CANCELLED], with the host data untouched. *)
Theorem C8_missing_area_or_path
        (G : Focus.GraphEditor) (H : PreviewWorld.Host)
        (ctx : Focus.Context) (s : Session (nat -> Focus.FCurve))
        (shading : PreviewWorld.Shading) (t : Session PreviewWorld.Blend) :
  (Focus.selected_editable_fcurves ctx <> [] ->
   Focus.visible_fcurves ctx <> [] ->
   filter (is_target (targets_of (data s) (Focus.selected_editable_fcurves ctx)) (data s))
          (Focus.visible_fcurves ctx) <> [] ->
   find (fun a => String.eqb (Focus.area_type a) "GRAPH_EDITOR") (Focus.screen_areas ctx)
   = None ->
   fst (@Focus.execute G ctx s) = Ok CANCELLED
   /\ reports (snd (@Focus.execute G ctx s))
      = (reports (announced (Focus.selected_editable_fcurves ctx) s)
         ++ [(WARNING, "No Graph Editor area found")])%list)
  /\ (PreviewWorld.path_missing
        (PreviewWorld.get_studio_light_path (PreviewWorld.studio_lights (data t))
                                            (PreviewWorld.studio_light shading)) = true ->
      @PreviewWorld.execute H shading t
      = (Ok CANCELLED,
         mkSession (data t)
                   (reports t ++ [(ERROR, "Could not find path for studio light: "
                                          ++ PreviewWorld.studio_light shading)])
                   (stdout t))).
Proof.
  split.
  - intros Hs Hv Hm Ha.
    destruct (@execute_scan_reports G ctx s Hs Hv) as (s1 & Hr & E).
    rewrite E. destruct (filter _ _) as [|x l]; [contradiction|].
    rewrite (hide_and_view_no_area _ _ _ Ha). cbn [fst snd reports].
    rewrite Hr. split; reflexivity.
  - apply (@execute_path_missing H).
Qed.

Lemma C8_witness :
  fst (@Focus.execute lenient_graph no_area_ctx graph_session) = Ok CANCELLED
  /\ reports (snd (@Focus.execute lenient_graph no_area_ctx graph_session))
     = [(INFO, "Target F-Curve name formats: bone.location[0]");
        (WARNING, "No Graph Editor area found")]
  /\ fst (@PreviewWorld.execute blender unknown_shading view_session) = Ok CANCELLED.
Proof.
  destruct (C8_missing_area_or_path lenient_graph blender no_area_ctx graph_session
                                    unknown_shading view_session) as [A B].
  assert (Hs : Focus.selected_editable_fcurves no_area_ctx <> []) by discriminate.
  assert (Hv : Focus.visible_fcurves no_area_ctx <> []) by discriminate.
  assert (Hm : filter (is_target (targets_of (data graph_session)
                                             (Focus.selected_editable_fcurves no_area_ctx))
                                 (data graph_session))
                      (Focus.visible_fcurves no_area_ctx) <> []).
  { vm_compute. discriminate. }
  destruct (A Hs Hv Hm eq_refl) as [A1 A2].
  split; [exact A1|]. split.
  - rewrite A2. vm_compute. reflexivity.
  - rewrite B by (vm_compute; reflexivity). reflexivity.
Defined.

(** C9.  With a selection and visible curves, the scan sets the select
    flag of every visible curve: the flag is true exactly when the curve's
    name format is a target; other curves and the hide flags are left
    alone.  The flags are set in the session [s1] from which the operator
    then either stops (no curve matched; no Graph Editor area) or calls
    the Graph Editor operators: those stops keep the new flags, and the
    operators run on them. *)
Theorem C9_select_flags_set_before_operators
        (G : Focus.GraphEditor) (ctx : Focus.Context) (s : Session (nat -> Focus.FCurve)) :
  Focus.selected_editable_fcurves ctx <> [] ->
  Focus.visible_fcurves ctx <> [] ->
  let targets := targets_of (data s) (Focus.selected_editable_fcurves ctx) in
  let visible := Focus.visible_fcurves ctx in
  let show := filter (is_target targets (data s)) visible in
  let area := find (fun a => String.eqb (Focus.area_type a) "GRAPH_EDITOR")
                   (Focus.screen_areas ctx) in
  exists s1,
    (forall f, In f visible ->
               (Focus.select (data s1 f) = true
                <-> In (Focus.name_format (data s f)) targets)
               /\ Focus.data_path (data s1 f) = Focus.data_path (data s f)
               /\ Focus.array_index (data s1 f) = Focus.array_index (data s f)
               /\ Focus.hide (data s1 f) = Focus.hide (data s f))
    /\ (forall f, ~ In f visible -> data s1 f = data s f)
    /\ (show = [] ->
        @Focus.execute G ctx s =
        (Ok CANCELLED,
         mkSession (data s1)
                   (reports s1 ++ [(INFO, "No matching F-Curves found across all actions.")])
                   (stdout s1)))
    /\ (show <> [] -> area = None ->
        @Focus.execute G ctx s =
        (Ok CANCELLED,
         mkSession (data s1)
                   (reports s1 ++ [(WARNING, "No Graph Editor area found")])
                   (stdout s1)))
    /\ (show <> [] -> forall a r,
          area = Some a ->
          find (fun r => String.eqb (Focus.region_type r) "WINDOW") (Focus.regions a)
          = Some r ->
          @Focus.execute G ctx s =
          match @Focus.focus_ops G a r s1 with
          | (Ok _, s') =>
              (Ok FINISHED,
               mkSession (data s')
                         (reports s' ++ [(INFO, "Focused on "
                                                ++ str_int (Z.of_nat (List.length show))
                                                ++ " F-Curves and hid others.")])
                         (stdout s'))
          | (Raise e, s') =>
              (Ok CANCELLED,
               mkSession (data s')
                         (reports s' ++ [(ERROR, "Failed to call graph operators: "
                                                 ++ exn_str e)])
                         (stdout s'))
          end).
Proof.
  intros Hs Hv targets visible show area.
  destruct (@execute_after_scan G ctx s Hs Hv) as (s1 & _ & _ & _ & Hd & E).
  fold targets visible show in Hd, E.
  exists s1. split; [|split; [|split; [|split]]].
  - intros f Hf. rewrite Hd. unfold scanned.
    rewrite (proj2 (existsb_eqb_In f visible) Hf). simpl.
    split; [apply mem_In | auto].
  - intros f Hf. rewrite Hd. unfold scanned.
    destruct (existsb (Nat.eqb f) visible) eqn:X; [|reflexivity].
    apply existsb_eqb_In in X. contradiction.
  - intros Z. rewrite E, Z. reflexivity.
  - intros Z A. rewrite E. destruct show; [contradiction|].
    apply hide_and_view_no_area. exact A.
  - intros Z a r A R. rewrite E. destruct show as [|x l] eqn:Sh; [contradiction|].
    rewrite <- Sh. eapply hide_and_view_ops; eauto.
Qed.

Lemma C9_witness :
  Focus.selected_editable_fcurves no_area_ctx <> []
  /\ Focus.visible_fcurves no_area_ctx <> []
  /\ exists s1,
       map (fun f => Focus.select (data s1 f)) [0; 1; 2] = [true; true; false]
       /\ fst (@Focus.execute lenient_graph no_area_ctx graph_session) = Ok CANCELLED.
Proof.
  assert (Hs : Focus.selected_editable_fcurves no_area_ctx <> []) by discriminate.
  assert (Hv : Focus.visible_fcurves no_area_ctx <> []) by discriminate.
  split; [exact Hs|]. split; [exact Hv|].
  destruct (C9_select_flags_set_before_operators lenient_graph no_area_ctx graph_session
              Hs Hv) as (s1 & F & _ & _ & A & _).
  exists s1. split.
  - simpl map.
    destruct (F 0) as ((_ & F0) & _); [simpl; auto|].
    destruct (F 1) as ((_ & F1) & _); [simpl; auto|].
    destruct (F 2) as ((F2 & _) & _); [simpl; auto|].
    rewrite F0, F1 by (vm_compute; auto).
    destruct (Focus.select (data s1 2)); [|reflexivity].
    specialize (F2 eq_refl). vm_compute in F2. destruct F2 as [F2|[]]. discriminate F2.
  - rewrite A; [reflexivity | discriminate | reflexivity].
Defined.

(** C10.  The operator creates the new world and makes it the scene's
    world before it loads the image: whenever the image has to be loaded
    and loading raises, the operator reports the error and returns
    [CANCELLED], and the scene's world is already the new one, whose tree
    holds nothing but the environment node, without an image and without
    links. *)
Theorem C10_world_replaced_before_image_load
        (H : PreviewWorld.Host) (shading : PreviewWorld.Shading)
        (s : Session PreviewWorld.Blend) (path : string) (env : PreviewWorld.Node)
        (e : Exn) :
  PreviewWorld.get_studio_light_path (PreviewWorld.studio_lights (data s))
                                     (PreviewWorld.studio_light shading) = Some path ->
  PreviewWorld.path_missing (Some path) = false ->
  PreviewWorld.node_new "ShaderNodeTexEnvironment" = inr env ->
  needs_load path (PreviewWorld.images (data s)) = true ->
  PreviewWorld.images_load path (PreviewWorld.images (data s)) = inl e ->
  exists s' nm,
    @PreviewWorld.execute H shading s = (Ok CANCELLED, s')
    /\ PreviewWorld.scene_world (data s')
       = Some (List.length (PreviewWorld.worlds (data s)))
    /\ PreviewWorld.worlds (data s')
       = (PreviewWorld.worlds (data s)
          ++ [PreviewWorld.mkWorld nm true
                (Some (PreviewWorld.mkNodeTree [at_location env (-300, 0)%Z] []))])%list
    /\ PreviewWorld.image (at_location env (-300, 0)%Z) = PreviewWorld.image env
    /\ PreviewWorld.images (data s') = PreviewWorld.images (data s)
    /\ reports s'
       = (reports s ++ [(ERROR, ("Failed to load image: " ++ exn_str e)%string)])%list.
Proof.
  intros Hp Hm He Hn Hl.
  rewrite (execute_image_load_raises _ _ _ _ _ Hp Hm He Hn Hl).
  eexists. eexists. split; [reflexivity|].
  cbn [data reports PreviewWorld.scene_world PreviewWorld.worlds PreviewWorld.images
       with_new_world].
  repeat split.
Qed.

Lemma C10_witness :
  fst (@PreviewWorld.execute unreadable forest_shading view_session) = Ok CANCELLED
  /\ PreviewWorld.scene_world (data view_session) = Some 0
  /\ PreviewWorld.scene_world
       (data (snd (@PreviewWorld.execute unreadable forest_shading view_session)))
     = Some 1.
Proof.
  destruct (C10_world_replaced_before_image_load
              unreadable forest_shading view_session forest_path
              (fresh_node "ShaderNodeTexEnvironment"
                          [PreviewWorld.mkSocket "Vector" zero3] (out ["Color"]))
              (mkExn "RuntimeError"
                     ("Error: Cannot read '" ++ forest_path ++ "': unknown error"))
              eq_refl eq_refl eq_refl eq_refl eq_refl)
    as (s' & nm & E & Sw & _).
  rewrite E. cbn [fst snd]. split; [reflexivity|]. split; [reflexivity|]. exact Sw.
Defined.

End Claims.

(* ===================================================================== *)
(** * Further properties of the strip pattern and the name format *)
(* ===================================================================== *)

Section StripMore.
Import Py Props Cover.

Lemma strip_length_le (s : string) :
  String.length (re_sub_strip s) <= String.length s.
Proof.
  remember (String.length s) as k eqn:Hk.
  revert s Hk. induction k as [k IH] using lt_wf_ind. intros s Hk.
  destruct s as [|c r]; [simpl; lia|].
  rewrite re_sub_strip_step.
  destruct (strip_pattern (String c r)) as [n|] eqn:E.
  - pose proof (strip_pattern_bounds _ _ E) as B.
    pose proof (drop_length n (String c r)) as D.
    specialize (IH (String.length (drop n (String c r)))).
    rewrite D in IH. specialize (IH ltac:(subst k; lia) (drop n (String c r)) (eq_sym D)).
    subst k. lia.
  - specialize (IH (String.length r) ltac:(subst k; simpl; lia) r eq_refl).
    subst k. simpl. lia.
Qed.

Lemma no_match_false_shrinks (s : string) :
  no_match s = false -> String.length (re_sub_strip s) < String.length s.
Proof.
  induction s as [|c r IH]; [discriminate|].
  simpl no_match. rewrite re_sub_strip_step.
  destruct (strip_pattern (String c r)) as [n|] eqn:E.
  - intros _. pose proof (strip_pattern_bounds _ _ E) as B.
    pose proof (strip_length_le (drop n (String c r))) as L.
    rewrite drop_length in L. lia.
  - intros H. specialize (IH H). simpl. lia.
Qed.

Lemma count_drop_one_line (n : nat) (s : string) :
  one_line n s = true -> count_char LF (drop n s) = count_char LF s.
Proof.
  revert s; induction n as [|n IH]; intros [|c r]; simpl; auto; try discriminate.
  intros H. apply andb_true_iff in H as [Hc Hr]. apply negb_true_iff in Hc.
  rewrite Hc. simpl. auto.
Qed.

Lemma strip_keeps_line_feeds (s : string) :
  count_char LF (re_sub_strip s) = count_char LF s.
Proof.
  remember (String.length s) as k eqn:Hk.
  revert s Hk. induction k as [k IH] using lt_wf_ind. intros s Hk.
  destruct s as [|c r]; [reflexivity|].
  rewrite re_sub_strip_step.
  destruct (strip_pattern (String c r)) as [n|] eqn:E.
  - pose proof (strip_pattern_bounds _ _ E) as B.
    rewrite (IH (String.length (drop n (String c r)))); [| |reflexivity].
    + apply count_drop_one_line, strip_pattern_one_line; exact E.
    + rewrite drop_length. subst k. lia.
  - simpl. f_equal. eapply IH; [|reflexivity]. subst k. simpl. lia.
Qed.

Lemma append_assoc (a b c : string) : (a ++ b) ++ c = a ++ b ++ c.
Proof. induction a; simpl; f_equal; auto. Qed.

Lemma strip_pattern_plain_head (c : ascii) (r : string) :
  Ascii.eqb c "[" = false -> Ascii.eqb c "(" = false ->
  strip_pattern (String c r) = None.
Proof. unfold strip_pattern, match_delim. intros -> ->. reflexivity. Qed.

(** A prefix without brackets and parentheses is copied. *)
Lemma strip_plain_prefix (a x : string) :
  plain a = true -> re_sub_strip (a ++ x) = a ++ re_sub_strip x.
Proof.
  unfold plain. induction a as [|c a IH]; [reflexivity|].
  simpl has_char. intros H. apply andb_true_iff in H as [H1 H2].
  apply negb_true_iff, orb_false_iff in H1 as [C1 A1].
  apply negb_true_iff, orb_false_iff in H2 as [C2 A2].
  simpl append. rewrite re_sub_strip_step, strip_pattern_plain_head by assumption.
  rewrite IH; [reflexivity|]. rewrite A1, A2. reflexivity.
Qed.

Lemma lazy_until_inner (cl : ascii) (b c : string) :
  inner cl b = true ->
  lazy_until cl (b ++ String cl c) = Some (S (String.length b)).
Proof.
  unfold inner. induction b as [|d b IH]; simpl.
  - intros _. rewrite Ascii.eqb_refl. reflexivity.
  - intros H. apply andb_true_iff in H as [H1 H2].
    apply negb_true_iff, orb_false_iff in H1 as [D1 B1].
    apply negb_true_iff, orb_false_iff in H2 as [D2 B2].
    rewrite D1, D2, IH; [reflexivity|]. rewrite B1, B2. reflexivity.
Qed.

Lemma drop_past (a : string) (c : ascii) (b : string) :
  drop (S (String.length a)) (a ++ String c b) = b.
Proof. induction a; simpl; auto. Qed.

(** A bracketed group on one line is dropped as a whole. *)
Lemma strip_group (b c : string) :
  inner "]" b = true ->
  re_sub_strip (String "[" (b ++ String "]" c)) = re_sub_strip c.
Proof.
  intros H. rewrite re_sub_strip_step.
  unfold strip_pattern, match_delim. simpl Ascii.eqb. cbv iota.
  rewrite (lazy_until_inner _ _ _ H). simpl option_map. cbv iota.
  change (drop (S (S (String.length b))) (String "[" (b ++ String "]" c)))
    with (drop (S (String.length b)) (b ++ String "]" c)).
  rewrite drop_past. reflexivity.
Qed.

End StripMore.

Section NameFormatMore.
Import Py Props Cover Focus.

Lemma numeral_char_open (c : ascii) :
  has_char c "0123456789-" = true -> Ascii.eqb c "[" = false.
Proof.
  destruct c as [[] [] [] [] [] [] [] []]; intros H;
    solve [discriminate H | reflexivity].
Qed.

Lemma numeral_no_open (d : string) :
  numeral d = true -> has_char "[" (d ++ "]") = false.
Proof.
  induction d as [|c d IH]; [reflexivity|].
  simpl numeral. intros H. apply andb_true_iff in H as [H1 H2].
  simpl. rewrite (numeral_char_open _ H1), (IH H2). reflexivity.
Qed.

Lemma has_open_app (s x : string) : has_char "[" (s ++ String "[" x) = true.
Proof. induction s as [|c s IH]; simpl; [reflexivity|]. rewrite IH. apply orb_true_r. Qed.

(** The index suffix can be read back from the end of a name format. *)
Lemma index_suffix_split (s1 s2 d1 d2 : string) :
  numeral d1 = true -> numeral d2 = true ->
  s1 ++ String "[" (d1 ++ "]") = s2 ++ String "[" (d2 ++ "]") ->
  s1 = s2 /\ d1 = d2.
Proof.
  intros N1 N2. revert s2. induction s1 as [|c s1 IH]; intros [|c2 s2] H; simpl in H.
  - injection H as H. apply app_inj_r in H. auto.
  - injection H as _ H. apply (f_equal (has_char "[")) in H.
    rewrite numeral_no_open, has_open_app in H by assumption. discriminate H.
  - injection H as _ H. apply (f_equal (has_char "[")) in H.
    rewrite numeral_no_open, has_open_app in H by assumption. discriminate H.
  - injection H as -> H. apply IH in H as [-> ->]. auto.
Qed.

End NameFormatMore.

(* ===================================================================== *)
(** * Further properties of the focus operator *)
(* ===================================================================== *)

Section FocusMore.
Import Py Bpy Props Cover Focus.
Context {host : GraphEditor}.

Lemma bind_keeps_log {D A B} (m : M (Session D) A) (k : A -> M (Session D) B)
      (s : Session D) :
  (forall s0, (reports (snd (m s0)), stdout (snd (m s0))) = (reports s0, stdout s0)) ->
  (forall a s0, (reports (snd (k a s0)), stdout (snd (k a s0))) = (reports s0, stdout s0)) ->
  (reports (snd (bind m k s)), stdout (snd (bind m k s))) = (reports s, stdout s).
Proof.
  intros Hm Hk. unfold bind. specialize (Hm s).
  destruct (m s) as [[a|e] s1]; simpl in Hm.
  - rewrite Hk. exact Hm.
  - exact Hm.
Qed.

Lemma call_keeps_log (o : option (Area * Region)) (c : GraphCall) (s : Session Store) :
  (reports (snd (call o c s)), stdout (snd (call o c s))) = (reports s, stdout s).
Proof. unfold call. destruct (graph_op o c (data s)); reflexivity. Qed.

(** The operators called under the override write no report. *)
Lemma focus_ops_keeps_log (a : Area) (r : Region) (s : Session Store) :
  (reports (snd (focus_ops a r s)), stdout (snd (focus_ops a r s)))
  = (reports s, stdout s).
Proof.
  unfold focus_ops.
  apply bind_keeps_log.
  - intros s0. unfold enter_override. destruct (temp_override a r); reflexivity.
  - intros _ s0. apply bind_keeps_log; [intros; apply call_keeps_log|].
    intros _ s1. apply bind_keeps_log; intros; apply call_keeps_log.
Qed.

Lemma selected_is_target (st : Store) (sel : list FId) (f : FId) :
  In f sel -> is_target (targets_of st sel) st f = true.
Proof.
  intros H. unfold is_target. apply mem_In. unfold targets_of.
  apply in_map_iff. exists f. auto.
Qed.

Lemma hide_and_view_no_window (ctx : Context) (show : list FId) (s : Session Store)
      (a : Area) :
  find (fun a => String.eqb (area_type a) "GRAPH_EDITOR") (screen_areas ctx) = Some a ->
  find (fun r => String.eqb (region_type r) "WINDOW") (regions a) = None ->
  hide_and_view ctx show s = (Raise (mkExn "StopIteration" ""), s).
Proof. unfold hide_and_view, next_window_region. intros -> ->. reflexivity. Qed.

(** The ways through the operator. *)
Lemma execute_cases (ctx : Context) (s : Session Store) :
  let sel := selected_editable_fcurves ctx in
  let visible := visible_fcurves ctx in
  let targets := targets_of (data s) sel in
  let show := filter (is_target targets (data s)) visible in
  let s1 := snd (scan targets visible [] [] (announced sel s)) in
  let area := find (fun a => String.eqb (area_type a) "GRAPH_EDITOR") (screen_areas ctx) in
  (sel = [] /\ fst (execute ctx s) = Ok CANCELLED)
  \/ (sel <> [] /\ show = [] /\ fst (execute ctx s) = Ok CANCELLED)
  \/ (sel <> [] /\ show <> [] /\ area = None /\ fst (execute ctx s) = Ok CANCELLED)
  \/ (sel <> [] /\ show <> [] /\
      exists a, area = Some a
                /\ find (fun r => String.eqb (region_type r) "WINDOW") (regions a) = None
                /\ execute ctx s = (Raise (mkExn "StopIteration" ""), s1))
  \/ (sel <> [] /\ show <> [] /\
      exists a r, area = Some a
                  /\ find (fun r => String.eqb (region_type r) "WINDOW") (regions a) = Some r
                  /\ execute ctx s = hide_and_view ctx show s1
                  /\ reports s1 = reports (announced sel s)
                  /\ stdout s1 = stdout (announced sel s)).
Proof.
  cbv zeta.
  destruct (selected_editable_fcurves ctx) as [|f0 sel0] eqn:Es.
  { left. split; [reflexivity|]. apply execute_no_selection_cancelled. exact Es. }
  right.
  assert (Hs : selected_editable_fcurves ctx <> []) by (rewrite Es; discriminate).
  destruct (visible_fcurves ctx) as [|v0 vis0] eqn:Ev.
  { left. split; [discriminate|]. split; [reflexivity|].
    rewrite execute_no_visible; auto. }
  assert (Hv : visible_fcurves ctx <> []) by (rewrite Ev; discriminate).
  destruct (execute_after_scan ctx s Hs Hv) as (s1 & S1 & Hr & Ho & _ & E).
  cbv zeta in S1, E. rewrite Es in S1, Hr, Ho, E. rewrite Ev in S1, E. rewrite S1.
  set (show := filter (is_target (targets_of (data s) (f0 :: sel0)) (data s)) (v0 :: vis0))
    in *.
  destruct show as [|x l] eqn:Sh.
  { left. split; [discriminate|]. split; [reflexivity|]. rewrite E. reflexivity. }
  right.
  destruct (find (fun a => String.eqb (area_type a) "GRAPH_EDITOR") (screen_areas ctx))
    as [a|] eqn:Ea.
  2:{ left. split; [discriminate|]. split; [discriminate|]. split; [reflexivity|].
      rewrite E, (hide_and_view_no_area _ _ _ Ea). reflexivity. }
  right.
  destruct (find (fun r => String.eqb (region_type r) "WINDOW") (regions a)) as [r|] eqn:Er.
  - right. split; [discriminate|]. split; [discriminate|].
    exists a, r. repeat split; auto.
  - left. split; [discriminate|]. split; [discriminate|].
    exists a. split; [reflexivity|]. split; [exact Er|].
    rewrite E. apply hide_and_view_no_window with (a := a); assumption.
Qed.

End FocusMore.

(* ===================================================================== *)
(** * Further properties of the preview-world operator *)
(* ===================================================================== *)

Section PreviewMore.
Import Py Bpy Props Cover PreviewWorld.
Context {host : Host}.

Lemma get_studio_light_path_none (lights : list StudioLight) (name : string) :
  get_studio_light_path lights name = None
  <-> forall l, In l lights -> light_name l <> name.
Proof.
  induction lights as [|x lights IH]; simpl.
  - split; [intros _ l [] | reflexivity].
  - destruct (String.eqb (light_name x) name) eqn:E.
    + apply String.eqb_eq in E. split; [discriminate|].
      intros H. exfalso. apply (H x); auto.
    + apply String.eqb_neq in E. rewrite IH. split.
      * intros H l [<-|Hl]; auto.
      * intros H l Hl. apply H. auto.
Qed.

Lemma get_studio_light_path_some (lights : list StudioLight) (name p : string) :
  get_studio_light_path lights name = Some p
  <-> exists pre l post,
        lights = (pre ++ l :: post)%list
        /\ light_name l = name /\ light_path l = p
        /\ forall x, In x pre -> light_name x <> name.
Proof.
  induction lights as [|x lights IH]; simpl.
  - split; [discriminate|]. intros (pre & l & post & H & _). destruct pre; discriminate H.
  - destruct (String.eqb (light_name x) name) eqn:E.
    + apply String.eqb_eq in E. split.
      * intros H. injection H as <-. exists [], x, lights. simpl. tauto.
      * intros (pre & l & post & H & Hn & Hp & Hpre).
        destruct pre as [|y pre]; simpl in H; injection H as -> ->.
        -- rewrite Hp. reflexivity.
        -- exfalso. apply (Hpre y); simpl; auto.
    + apply String.eqb_neq in E. rewrite IH. split.
      * intros (pre & l & post & -> & Hn & Hp & Hpre).
        exists (x :: pre), l, post. simpl. repeat split; auto.
        intros y [<-|Hy]; auto.
      * intros (pre & l & post & H & Hn & Hp & Hpre).
        destruct pre as [|y pre]; simpl in H; injection H as -> ->.
        -- contradiction.
        -- exists pre, l, post. repeat split; auto. intros z Hz. apply Hpre. simpl; auto.
Qed.

Lemma on_world_kept {A} (m : M World A) (ws : list World) (s : Session Blend) :
  (exists w, worlds (data s) = (ws ++ [w])%list) ->
  kept ws s (snd (on_world (List.length ws) m s))
  /\ images (data (snd (on_world (List.length ws) m s))) = images (data s).
Proof.
  intros (w & E). rewrite (on_world_last _ _ _ _ E). unfold kept. cbn.
  repeat split; auto. eexists; reflexivity.
Qed.

Lemma data_images_load_kept (path : string) (ws : list World) (s : Session Blend) :
  (exists w, worlds (data s) = (ws ++ [w])%list) ->
  kept ws s (snd (data_images_load path s))
  /\ (exists w, worlds (data (snd (data_images_load path s))) = (ws ++ [w])%list)
  /\ exists extra,
       images (data (snd (data_images_load path s))) = (images (data s) ++ extra)%list
       /\ List.length extra <= 1.
Proof.
  intros (w & E).
  unfold data_images_load, bind, get, lift_sum, raise, ret, set_data, modify, kept.
  destruct (images_load path (images (data s))) as [e|img]; cbn.
  - repeat split; auto; try (exists w; exact E).
    exists []. rewrite app_nil_r. auto.
  - repeat split; auto; try (exists w; exact E).
    destruct (has_image (image_name img) (images (data s))).
    + exists []. rewrite app_nil_r. auto.
    + exists [img]. auto.
Qed.

(** The [try] body, however it ends. *)
Lemma load_image_kept (path : string) (env : nat) (ws : list World) (s : Session Blend) :
  (exists w, worlds (data s) = (ws ++ [w])%list) ->
  kept ws s (snd (load_image (List.length ws) env path s))
  /\ exists extra,
       images (data (snd (load_image (List.length ws) env path s)))
       = (images (data s) ++ extra)%list
       /\ List.length extra <= 1
       /\ (needs_load path (images (data s)) = false -> extra = []).
Proof.
  intros W. unfold load_image, needs_load, bind, get. cbv beta iota.
  assert (L : forall st : Session Blend,
             (exists w, worlds (data st) = (ws ++ [w])%list) ->
             kept ws s st ->
             forall extra, images (data st) = (images (data s) ++ extra)%list ->
             List.length extra <= 1 ->
             forall (r : Outcome string),
               let res := match r with
                          | Ok a => on_world (List.length ws) (set_image env a) st
                          | Raise e => (Raise e, st)
                          end in
               kept ws s (snd res)
               /\ images (data (snd res)) = (images (data s) ++ extra)%list).
  { intros st Wst K extra Hi Hl [a|e]; cbv zeta.
    - destruct (on_world_kept (set_image env a) ws st Wst) as [K2 I2].
      split; [|congruence].
      destruct K as (K1 & K3 & K4 & K5 & K6). destruct K2 as (J1 & J3 & J4 & J5 & J6).
      unfold kept. repeat split; auto; congruence.
    - simpl. auto. }
  assert (K0 : kept ws s s) by (unfold kept; auto).
  destruct (find _ (images (data s))) as [existing|].
  - destruct (negb (String.eqb (filepath existing) path)).
    + destruct (data_images_load_kept path ws s W) as (K1 & W1 & extra & Hi & Hl).
      destruct (data_images_load path s) as [r st]. cbn [snd] in *.
      destruct (L st W1 K1 extra Hi Hl r) as [A B].
      split; [exact A|]. exists extra. repeat split; auto. discriminate.
    + unfold ret at 1.
      destruct (L s W K0 [] (eq_sym (app_nil_r _)) (Nat.le_0_l 1)
                  (Ok (image_name existing))) as [A B].
      split; [exact A|]. exists []. auto.
  - destruct (data_images_load_kept path ws s W) as (K1 & W1 & extra & Hi & Hl).
    destruct (data_images_load path s) as [r st]. cbn [snd] in *.
    destruct (L st W1 K1 extra Hi Hl r) as [A B].
    split; [exact A|]. exists extra. repeat split; auto. discriminate.
Qed.

(** With a path that exists: what the session looks like when the
    operator is through, however it ends. *)
Lemma execute_resolved_frame (shading : Shading) (s : Session Blend) (path : string) :
  get_studio_light_path (studio_lights (data s)) (studio_light shading) = Some path ->
  path_missing (Some path) = false ->
  let r := execute shading s in
  (exists w', worlds (data (snd r)) = (worlds (data s) ++ [w'])%list)
  /\ scene_world (data (snd r)) = Some (List.length (worlds (data s)))
  /\ studio_lights (data (snd r)) = studio_lights (data s)
  /\ stdout (snd r) = stdout s
  /\ (exists extra,
        images (data (snd r)) = (images (data s) ++ extra)%list
        /\ List.length extra <= 1
        /\ (needs_load path (images (data s)) = false -> extra = []))
  /\ match fst r with
     | Ok FINISHED =>
         reports (snd r)
         = (reports s ++ [(INFO, ("Copied HDRI '" ++ studio_light shading
                                  ++ "' to World")%string)])%list
     | Ok CANCELLED =>
         exists e,
           reports (snd r)
           = (reports s ++ [(ERROR, ("Failed to load image: " ++ exn_str e)%string)])%list
     | Raise _ => reports (snd r) = reports s
     end.
Proof.
  intros Hp Hm. cbv zeta.
  rewrite (execute_resolved _ _ _ Hp Hm), create_world_run.
  destruct (node_new "ShaderNodeTexEnvironment") as [e|env].
  { unfold with_new_world. cbn. repeat split; auto.
    - eexists; reflexivity.
    - exists []. rewrite app_nil_r. auto. }
  cbn [fst snd].
  set (s1 := with_new_world (studio_light shading)
                            (mkNodeTree [at_location env (-300, 0)%Z] []) s).
  assert (W1 : exists w, worlds (data s1) = (worlds (data s) ++ [w])%list)
    by (eexists; reflexivity).
  destruct (load_image_kept path 0 (worlds (data s)) s1 W1)
    as ((W2 & K2 & K3 & K4 & K5) & extra & Hi & Hl & Hn).
  change (images (data s1)) with (images (data s)) in Hi, Hn.
  change (scene_world (data s1)) with (Some (List.length (worlds (data s)))) in K2.
  change (studio_lights (data s1)) with (studio_lights (data s)) in K3.
  change (reports s1) with (reports s) in K4.
  change (stdout s1) with (stdout s) in K5.
  destruct (load_image (List.length (worlds (data s))) 0 path s1) as [[u|e] s2];
    cbn [snd] in *.
  - destruct (on_world_kept (build_graph shading 0) (worlds (data s)) s2 W2)
      as ((W3 & J2 & J3 & J4 & J5) & I3).
    destruct (on_world (List.length (worlds (data s))) (build_graph shading 0) s2)
      as [[u'|e] s3]; cbn [fst snd data reports stdout] in *.
    + repeat split; try congruence.
      exists extra. repeat split; auto; congruence.
    + repeat split; try congruence.
      exists extra. repeat split; auto; congruence.
  - cbn [fst snd data reports stdout]. repeat split; try congruence.
    + exists extra. repeat split; auto.
    + exists e. congruence.
Qed.

(** ** Running the graph on a host that has the nodes *)

Lemma bind_intro {S A B} (m : M S A) (k : A -> M S B) (s s1 : S) (a : A)
      (r : Outcome B * S) :
  m s = (Ok a, s1) -> k a s1 = r -> bind m k s = r.
Proof. unfold bind. intros -> H. exact H. Qed.

Lemma nodes_new_run (ty nm : string) (un : bool) (t : NodeTree) (x : Node) :
  node_new ty = inr x ->
  nodes_new ty (mkWorld nm un (Some t))
  = (Ok (List.length (nodes t)),
     mkWorld nm un (Some (mkNodeTree (nodes t ++ [x]) (links t)))).
Proof.
  unfold nodes_new, the_tree, set_tree, bind, get, modify, ret, lift_sum, raise.
  intros ->. reflexivity.
Qed.

Lemma update_node_run (n : nat) (f : Node -> Node) (nm : string) (un : bool)
      (t : NodeTree) :
  update_node n f (mkWorld nm un (Some t))
  = (Ok tt, mkWorld nm un (Some (mkNodeTree (update_nth n f (nodes t)) (links t)))).
Proof. reflexivity. Qed.

Lemma link_run (a : nat) (ka : SocketKey) (b : nat) (kb : SocketKey)
      (nm : string) (un : bool) (t : NodeTree) (na nb : Node) (i j : nat) :
  nth_error (nodes t) a = Some na ->
  nth_error (nodes t) b = Some nb ->
  resolve ka (outputs na) = inr i ->
  resolve kb (inputs nb) = inr j ->
  link a ka b kb (mkWorld nm un (Some t))
  = (Ok tt, mkWorld nm un (Some (mkNodeTree (nodes t) (links t ++ [mkLink a i b j])))).
Proof.
  unfold link, links_new, output_socket, input_socket, node_at, the_tree, set_tree,
    bind, get, modify, ret, lift_sum, raise. cbn [node_tree].
  intros -> Hb -> Hj. cbn. rewrite Hb, Hj. reflexivity.
Qed.

Lemma set_default_run (n : nat) (k : SocketKey) (v : Value)
      (nm : string) (un : bool) (t : NodeTree) (x : Node) (i : nat) :
  nth_error (nodes t) n = Some x ->
  resolve k (inputs x) = inr i ->
  set_default n k v (mkWorld nm un (Some t))
  = (Ok tt,
     mkWorld nm un
       (Some (mkNodeTree
                (update_nth n
                   (fun x => with_inputs x
                      (update_nth i (fun so => mkSocket (socket_name so) v) (inputs x)))
                   (nodes t))
                (links t)))).
Proof.
  unfold set_default, input_socket, update_node, node_at, the_tree, set_tree,
    bind, get, modify, ret, lift_sum, raise. cbn [node_tree].
  intros -> ->. reflexivity.
Qed.

Lemma set_default_z_run (n : nat) (k : SocketKey) (z : float)
      (nm : string) (un : bool) (t : NodeTree) (x : Node) (i : nat) (so : Socket)
      (a b c : float) :
  nth_error (nodes t) n = Some x ->
  resolve k (inputs x) = inr i ->
  nth_error (inputs x) i = Some so ->
  default_value so = VVector a b c ->
  fst (set_default_z n k z (mkWorld nm un (Some t))) = Ok tt.
Proof.
  unfold set_default_z, input_socket, update_node, node_at, the_tree, set_tree,
    bind, get, modify, ret, lift_sum, raise. cbn [node_tree].
  intros Hn Hr Hs Hd. rewrite Hn. cbn. rewrite Hr. cbn. rewrite Hn. cbn.
  rewrite Hs. cbn. rewrite Hd. reflexivity.
Qed.

Lemma node_ok_elim (ty : string) (ins outs : list SocketKey) :
  node_ok ty ins outs = true ->
  exists x,
    node_new ty = inr x
    /\ (forall k, In k ins -> exists i, resolve k (inputs x) = inr i)
    /\ (forall k, In k outs -> exists i, resolve k (outputs x) = inr i).
Proof.
  unfold node_ok. destruct (node_new ty) as [e|x]; [discriminate|].
  intros H. apply andb_true_iff in H as [Hi Ho].
  rewrite forallb_forall in Hi, Ho.
  exists x. split; [reflexivity|]. split; intros k Hk.
  - specialize (Hi k Hk). destruct (resolve k (inputs x)); [discriminate|eauto].
  - specialize (Ho k Hk). destruct (resolve k (outputs x)); [discriminate|eauto].
Qed.

Lemma bind_intro_fst {S A B} (m : M S A) (k : A -> M S B) (s s1 : S) (a : A)
      (r : Outcome B) :
  m s = (Ok a, s1) -> fst (k a s1) = r -> fst (bind m k s) = r.
Proof. unfold bind. intros -> H. exact H. Qed.

Ltac socket_of H k :=
  let i := fresh "i" in
  let E := fresh "R" in
  destruct (H k ltac:(simpl; auto)) as [i E].

Ltac tidy :=
  cbn [nodes links Datatypes.app List.length update_nth nth_error
       inputs outputs with_inputs].

Ltac primitive :=
  first
    [ eapply nodes_new_run; eassumption
    | apply update_node_run
    | eapply link_run;
      [ tidy; reflexivity
      | tidy; reflexivity
      | tidy; eassumption
      | tidy; rewrite ?resolve_update; eassumption ]
    | eapply set_default_run; [ tidy; reflexivity | tidy; eassumption ] ].

Ltac forward := eapply bind_intro_fst; [ primitive | tidy ].

(** On a host that has the eight node types with their sockets, building
    the graph raises nothing. *)
Lemma build_graph_runs (shading : Shading) (nm : string) (un : bool) (env : Node) :
  graph_nodes_ok = true ->
  (exists i, resolve (Name "Color") (outputs env) = inr i) ->
  (exists j, resolve (Name "Vector") (inputs env) = inr j) ->
  fst (build_graph shading 0 (mkWorld nm un (Some (mkNodeTree [env] [])))) = Ok tt.
Proof.
  unfold graph_nodes_ok. intros G [ec Ec] [ev Ev].
  repeat (apply andb_true_iff in G; destruct G as [G ?]).
  repeat match goal with
         | H : node_ok _ _ _ = true |- _ =>
             apply node_ok_elim in H; destruct H as (? & ? & ? & ?)
         end.
  match goal with
  | H : rotation_is_vector = true, M : node_new "ShaderNodeMapping" = inr ?x |- _ =>
      unfold rotation_is_vector in H; rewrite M in H;
      destruct (resolve (Name "Rotation") (inputs x)) as [|ir] eqn:Rr; [discriminate H|];
      destruct (nth_error (inputs x) ir) as [so|] eqn:Rn; [|discriminate H];
      cbn [option_map] in H;
      destruct (default_value so) as [|va vb vc|] eqn:Rd; try discriminate H
  end.
  repeat match goal with
         | H : forall k, In k [] -> _ |- _ => clear H
         | H : forall k, In k [?a] -> _ |- _ => socket_of H a; clear H
         | H : forall k, In k [?a; ?b] -> _ |- _ => socket_of H a; socket_of H b; clear H
         | H : forall k, In k [?a; ?b; ?c] -> _ |- _ =>
             socket_of H a; socket_of H b; socket_of H c; clear H
         end.
  unfold build_graph, set_location, set_label, set_data_type, set_operation.
  do 27 forward.
  eapply set_default_z_run; tidy; try reflexivity; eassumption.
Qed.

Lemma load_image_runs (path nm : string) (un : bool) (x : Node) (ws : list World)
      (s : Session Blend) :
  worlds (data s) = (ws ++ [mkWorld nm un (Some (mkNodeTree [x] []))])%list ->
  image_available path (images (data s)) = true ->
  fst (load_image (List.length ws) 0 path s) = Ok tt.
Proof.
  intros E A.
  assert (L : needs_load path (images (data s)) = true ->
              fst (bind (data_images_load path)
                        (fun img => on_world (List.length ws) (set_image 0 img)) s)
              = Ok tt).
  { intros N. unfold image_available in A. rewrite N in A. simpl in A.
    unfold data_images_load, bind, get, lift_sum, ret, raise, set_data, modify.
    destruct (images_load path (images (data s))) as [e|img]; [discriminate A|].
    cbv beta iota. erewrite on_world_last by (cbn [data worlds]; exact E).
    reflexivity. }
  unfold load_image, bind at 1, get at 1. cbv beta iota.
  unfold needs_load in L. unfold bind at 1.
  destruct (find _ (images (data s))) as [existing|].
  - destruct (negb (String.eqb (filepath existing) path)).
    + apply L. reflexivity.
    + unfold ret at 1. rewrite (on_world_last _ _ _ _ E). reflexivity.
  - apply L. reflexivity.
Qed.

End PreviewMore.

(* ===================================================================== *)
(** * Further properties, stated *)
(* ===================================================================== *)

Section FurtherProperties.
Import Py Bpy Props Scenario Cover.

(** X1.  What [re.sub] with the strip pattern returns holds no match of
    the pattern, so stripping twice is stripping once; and the strings
    the substitution leaves as they are are exactly those in which the
    pattern matches nowhere. *)
Theorem X1_strip_fixed_points (s : string) :
  no_match (re_sub_strip s) = true
  /\ re_sub_strip (re_sub_strip s) = re_sub_strip s
  /\ (re_sub_strip s = s <-> no_match s = true).
Proof.
  split; [apply re_sub_strip_no_match|].
  split; [apply re_sub_strip_idempotent|].
  split.
  - intros E. rewrite <- E. apply re_sub_strip_no_match.
  - apply no_match_fixed.
Qed.

(** X2.  The substitution only deletes, and never across a line: the
    result is no longer than the path, it is as long exactly when the
    pattern matches nowhere, and it has as many line feeds as the path. *)
Theorem X2_strip_only_deletes_within_lines (s : string) :
  String.length (re_sub_strip s) <= String.length s
  /\ (String.length (re_sub_strip s) = String.length s <-> no_match s = true)
  /\ count_char LF (re_sub_strip s) = count_char LF s.
Proof.
  split; [apply strip_length_le|].
  split; [|apply strip_keeps_line_feeds].
  split.
  - intros E. destruct (no_match s) eqn:N; [reflexivity|].
    apply no_match_false_shrinks in N. lia.
  - intros N. rewrite no_match_fixed; auto.
Qed.

(** X3.  What stands between the brackets does not count: for a path made
    of a prefix without brackets and parentheses, a bracketed group on one
    line and a rest, the name format is the prefix, the stripped rest and
    the index, whatever the group holds. *)
Theorem X3_bracket_content_is_ignored (a b c : string) (i : Z) :
  plain a = true ->
  inner "]" b = true ->
  Focus.name_format_of (a ++ "[" ++ b ++ "]" ++ c) i
  = a ++ re_sub_strip c ++ "[" ++ str_int i ++ "]".
Proof.
  intros Ha Hb. unfold Focus.name_format_of.
  rewrite strip_plain_prefix by assumption.
  change ("[" ++ b ++ "]" ++ c) with (String "[" (b ++ String "]" c)).
  rewrite strip_group by assumption.
  rewrite append_assoc. reflexivity.
Qed.

Lemma X3_witness :
  plain "pose.bones" = true
  /\ inner "]" (quoted "Arm") = true
  /\ Focus.name_format_of arm_location 0 = "pose.bones.location[0]".
Proof.
  split; [reflexivity|]. split; [reflexivity|].
  exact (X3_bracket_content_is_ignored "pose.bones" (quoted "Arm") ".location" 0
                                       eq_refl eq_refl).
Defined.

(** X4.  Two curves have the same name format exactly when their stripped
    data paths are equal and their array indices are equal. *)
Theorem X4_name_format_equality (c1 c2 : Focus.FCurve) :
  Focus.name_format c1 = Focus.name_format c2
  <-> re_sub_strip (Focus.data_path c1) = re_sub_strip (Focus.data_path c2)
      /\ Focus.array_index c1 = Focus.array_index c2.
Proof.
  unfold Focus.name_format, Focus.name_format_of.
  change (fun x => "[" ++ x) with (fun x => String "[" x).
  split.
  - intros H.
    change ("[" ++ str_int (Focus.array_index c1) ++ "]")
      with (String "[" (str_int (Focus.array_index c1) ++ "]")) in H.
    change ("[" ++ str_int (Focus.array_index c2) ++ "]")
      with (String "[" (str_int (Focus.array_index c2) ++ "]")) in H.
    apply index_suffix_split in H; try apply str_int_numeral.
    destruct H as [H1 H2]. split; [exact H1|]. apply str_int_inj; exact H2.
  - intros [-> ->]. reflexivity.
Qed.

(** X5.  Selecting more shows more: when every selected curve of one
    invocation is selected in another (same curves, same visible list),
    every curve shown by the first is shown by the second, and every
    curve hidden by the second is hidden by the first. *)
Theorem X5_larger_selection_shows_more
        (sel1 sel2 visible : list nat) (s : Session (nat -> Focus.FCurve))
        (show1 hide1 show2 hide2 : list nat) :
  incl sel1 sel2 ->
  fst (Focus.scan (targets_of (data s) sel1) visible [] [] s) = Ok (show1, hide1) ->
  fst (Focus.scan (targets_of (data s) sel2) visible [] [] s) = Ok (show2, hide2) ->
  incl show1 show2 /\ incl hide2 hide1.
Proof.
  intros I H1 H2.
  destruct (scan_spec (targets_of (data s) sel1) visible [] [] s) as (s1 & E1 & _).
  destruct (scan_spec (targets_of (data s) sel2) visible [] [] s) as (s2 & E2 & _).
  rewrite E1 in H1. rewrite E2 in H2. simpl in H1, H2.
  injection H1 as <- <-. injection H2 as <- <-.
  assert (T : forall f, is_target (targets_of (data s) sel1) (data s) f = true ->
                        is_target (targets_of (data s) sel2) (data s) f = true).
  { intros f. unfold is_target. rewrite !mem_In. unfold targets_of.
    rewrite !in_map_iff. intros (g & Hg & Hi). exists g. auto. }
  split; intros f; rewrite !filter_In; intros [Hv Hf]; split; auto.
  destruct (is_target (targets_of (data s) sel1) (data s) f) eqn:X; [|reflexivity].
  apply T in X. rewrite X in Hf. discriminate Hf.
Qed.

Lemma X5_witness :
  incl [0] [0; 2]
  /\ incl [0; 1] [0; 1; 2] /\ incl (@nil nat) [2].
Proof.
  assert (I : incl [0] [0; 2]) by (intros x [<-|[]]; simpl; auto).
  split; [exact I|].
  apply (X5_larger_selection_shows_more [0] [0; 2] [0; 1; 2] graph_session
           [0; 1] [2] [0; 1; 2] [] I); vm_compute; reflexivity.
Defined.

(** X6.  A selected curve that is visible is always shown: its name format
    is one of the targets.  So when some selected curve is visible the
    operator does not stop for want of a match and goes on to the Graph
    Editor with a show list that holds the curve. *)
Theorem X6_selected_visible_curve_is_shown
        (G : Focus.GraphEditor) (ctx : Focus.Context) (s : Session (nat -> Focus.FCurve))
        (f : nat) :
  In f (Focus.selected_editable_fcurves ctx) ->
  In f (Focus.visible_fcurves ctx) ->
  let sel := Focus.selected_editable_fcurves ctx in
  let visible := Focus.visible_fcurves ctx in
  let targets := targets_of (data s) sel in
  let show := filter (is_target targets (data s)) visible in
  In f show
  /\ fst (Focus.scan targets visible [] [] s)
     = Ok (show, filter (fun g => negb (is_target targets (data s) g)) visible)
  /\ @Focus.execute G ctx s
     = @Focus.hide_and_view G ctx show
         (snd (Focus.scan targets visible [] [] (announced sel s))).
Proof.
  intros Hs Hv sel visible targets show.
  assert (Hf : In f show).
  { unfold show. apply filter_In. split; [exact Hv|].
    apply selected_is_target. exact Hs. }
  split; [exact Hf|]. split.
  - destruct (scan_spec targets visible [] [] s) as (s' & E & _). rewrite E. reflexivity.
  - assert (Hs' : Focus.selected_editable_fcurves ctx <> []).
    { intros Z. rewrite Z in Hs. destruct Hs. }
    assert (Hv' : Focus.visible_fcurves ctx <> []).
    { intros Z. rewrite Z in Hv. destruct Hv. }
    destruct (@execute_after_scan G ctx s Hs' Hv') as (s1 & S1 & _ & _ & _ & E).
    fold sel visible targets show in S1, E. rewrite S1, E.
    destruct show; [destruct Hf | reflexivity].
Qed.

Lemma X6_witness :
  In 0 (Focus.selected_editable_fcurves graph_ctx)
  /\ In 0 (Focus.visible_fcurves graph_ctx)
  /\ In 0 (filter (is_target (targets_of curves [0]) curves) [0; 1; 2]).
Proof.
  assert (A : In 0 (Focus.selected_editable_fcurves graph_ctx)) by (simpl; auto).
  assert (B : In 0 (Focus.visible_fcurves graph_ctx)) by (simpl; auto).
  split; [exact A|]. split; [exact B|].
  exact (proj1 (X6_selected_visible_curve_is_shown lenient_graph graph_ctx graph_session
                                                   0 A B)).
Defined.

(** X7.  No exception of a Graph Editor operator leaves the focus
    operator.  The only exception it lets through is the [StopIteration]
    of [next] when the Graph Editor area it found has no window region;
    by then the select flags are written. *)
Theorem X7_only_stop_iteration_escapes
        (G : Focus.GraphEditor) (ctx : Focus.Context) (s : Session (nat -> Focus.FCurve))
        (e : Exn) :
  fst (@Focus.execute G ctx s) = Raise e ->
  e = mkExn "StopIteration" ""
  /\ Focus.selected_editable_fcurves ctx <> []
  /\ (exists a,
        find (fun a => String.eqb (Focus.area_type a) "GRAPH_EDITOR")
             (Focus.screen_areas ctx) = Some a
        /\ find (fun r => String.eqb (Focus.region_type r) "WINDOW") (Focus.regions a)
           = None)
  /\ snd (@Focus.execute G ctx s)
     = snd (Focus.scan (targets_of (data s) (Focus.selected_editable_fcurves ctx))
                       (Focus.visible_fcurves ctx) [] []
                       (announced (Focus.selected_editable_fcurves ctx) s)).
Proof.
  intros R.
  destruct (@execute_cases G ctx s)
    as [[_ C]|[(_ & _ & C)|[(_ & _ & _ & C)|[(Hs & _ & a & Ha & Hr & E)
       |(_ & _ & a & r & Ha & Hr & E & _)]]]];
    try (rewrite C in R; discriminate R).
  - rewrite E in R. simpl in R. injection R as <-.
    split; [reflexivity|]. split; [exact Hs|]. split; [exists a; auto|].
    rewrite E. reflexivity.
  - rewrite E, (hide_and_view_ops _ _ _ _ _ Ha Hr) in R.
    destruct (Focus.focus_ops a r _) as [[u|e'] s']; discriminate R.
Qed.

Lemma X7_witness :
  fst (@Focus.execute lenient_graph headless_ctx graph_session)
  = Raise (mkExn "StopIteration" "")
  /\ Focus.selected_editable_fcurves headless_ctx <> [].
Proof.
  assert (R : fst (@Focus.execute lenient_graph headless_ctx graph_session)
              = Raise (mkExn "StopIteration" "")) by (vm_compute; reflexivity).
  split; [exact R|].
  exact (proj1 (proj2 (X7_only_stop_iteration_escapes lenient_graph headless_ctx
                                                       graph_session _ R))).
Defined.

(** X8.  The focus operator finishes exactly when there is a selection, a
    visible curve matches, the screen has a Graph Editor area with a
    window region, and entering the override and the three operators
    under it raise nothing.  It then has written two reports: the target
    name formats, and "Focused on N F-Curves and hid others." with N the
    number of visible curves that match, which is at least 1. *)
Theorem X8_finished_exactly_when
        (G : Focus.GraphEditor) (ctx : Focus.Context) (s : Session (nat -> Focus.FCurve)) :
  let sel := Focus.selected_editable_fcurves ctx in
  let visible := Focus.visible_fcurves ctx in
  let targets := targets_of (data s) sel in
  let show := filter (is_target targets (data s)) visible in
  let s1 := snd (Focus.scan targets visible [] [] (announced sel s)) in
  (fst (@Focus.execute G ctx s) = Ok FINISHED
   <-> sel <> [] /\ show <> []
       /\ exists a r,
           find (fun a => String.eqb (Focus.area_type a) "GRAPH_EDITOR")
                (Focus.screen_areas ctx) = Some a
           /\ find (fun r => String.eqb (Focus.region_type r) "WINDOW") (Focus.regions a)
              = Some r
           /\ fst (@Focus.focus_ops G a r s1) = Ok tt)
  /\ (fst (@Focus.execute G ctx s) = Ok FINISHED ->
      1 <= List.length show
      /\ reports (snd (@Focus.execute G ctx s))
         = (reports s
            ++ [(INFO, ("Target F-Curve name formats: " ++ join ", " targets)%string);
                (INFO, ("Focused on " ++ str_int (Z.of_nat (List.length show))
                        ++ " F-Curves and hid others.")%string)])%list).
Proof.
  intros sel visible targets show s1.
  assert (K : fst (@Focus.execute G ctx s) = Ok FINISHED ->
              sel <> [] /\ show <> []
              /\ exists a r,
                  find (fun a => String.eqb (Focus.area_type a) "GRAPH_EDITOR")
                       (Focus.screen_areas ctx) = Some a
                  /\ find (fun r => String.eqb (Focus.region_type r) "WINDOW")
                          (Focus.regions a) = Some r
                  /\ fst (@Focus.focus_ops G a r s1) = Ok tt
                  /\ reports (snd (@Focus.execute G ctx s))
                     = (reports (announced sel s)
                        ++ [(INFO, ("Focused on " ++ str_int (Z.of_nat (List.length show))
                                    ++ " F-Curves and hid others.")%string)])%list).
  { intros F.
    destruct (@execute_cases G ctx s)
      as [[_ C]|[(_ & _ & C)|[(_ & _ & _ & C)|[(Hs & _ & a & Ha & Hr & E)
         |(Hs & Hm & a & r & Ha & Hr & E & Lr & Lo)]]]];
      try (rewrite C in F; discriminate F).
    - rewrite E in F. discriminate F.
    - fold sel visible targets show s1 in E, Lr, Hs, Hm.
      split; [exact Hs|]. split; [exact Hm|]. exists a, r.
      split; [exact Ha|]. split; [exact Hr|].
      rewrite E, (hide_and_view_ops _ _ _ _ _ Ha Hr) in F |- *.
      pose proof (@focus_ops_keeps_log G a r s1) as L.
      destruct (Focus.focus_ops a r s1) as [[u|e'] s']; [|discriminate F].
      destruct u. split; [reflexivity|]. cbn [snd reports] in L |- *.
      injection L as L _. rewrite L, Lr. reflexivity. }
  split; [split|].
  - intros F. destruct (K F) as (A & B & a & r & C & D & E & _).
    split; [exact A|]. split; [exact B|]. exists a, r. auto.
  - intros (Hs & Hm & a & r & Ha & Hr & O).
    assert (Hv : Focus.visible_fcurves ctx <> []).
    { intros Z. apply Hm. unfold show, visible. rewrite Z. reflexivity. }
    destruct (@execute_after_scan G ctx s Hs Hv) as (s1' & S1 & _ & _ & _ & E).
    fold sel visible targets show in S1, E. fold s1 in S1. subst s1'.
    rewrite E. destruct show as [|x l] eqn:Sh; [contradiction|].
    rewrite (hide_and_view_ops _ _ _ _ _ Ha Hr).
    destruct (Focus.focus_ops a r s1) as [[u|e'] s']; [reflexivity | discriminate O].
  - intros F. destruct (K F) as (_ & B & _ & _ & _ & _ & _ & R).
    split.
    + destruct show; [contradiction | simpl; lia].
    + rewrite R. unfold announced. cbn [reports]. rewrite <- app_assoc. reflexivity.
Qed.

Lemma X8_witness :
  fst (@Focus.execute lenient_graph graph_ctx graph_session) = Ok FINISHED
  /\ reports (snd (@Focus.execute lenient_graph graph_ctx graph_session))
     = [(INFO, "Target F-Curve name formats: bone.location[0]");
        (INFO, "Focused on 2 F-Curves and hid others.")].
Proof.
  assert (F : fst (@Focus.execute lenient_graph graph_ctx graph_session) = Ok FINISHED)
    by (vm_compute; reflexivity).
  split; [exact F|].
  destruct (proj2 (X8_finished_exactly_when lenient_graph graph_ctx graph_session) F)
    as [_ R].
  rewrite R. vm_compute. reflexivity.
Defined.

(** X9.  [get_studio_light_path] returns nothing exactly when no studio
    light of the preferences has the name, and otherwise the path of the
    first light that has it. *)
Theorem X9_studio_light_lookup (lights : list PreviewWorld.StudioLight) (name : string) :
  (PreviewWorld.get_studio_light_path lights name = None
   <-> forall l, In l lights -> PreviewWorld.light_name l <> name)
  /\ (forall p,
        PreviewWorld.get_studio_light_path lights name = Some p
        <-> exists pre l post,
              lights = (pre ++ l :: post)%list
              /\ PreviewWorld.light_name l = name
              /\ PreviewWorld.light_path l = p
              /\ forall x, In x pre -> PreviewWorld.light_name x <> name).
Proof.
  split; [apply get_studio_light_path_none|].
  intros p. apply get_studio_light_path_some.
Qed.

(** X10.  However the preview-world operator ends (finished, cancelled or
    with an exception), it never touches the studio lights, and: without a
    usable studio-light path it leaves the host data as it was; with one,
    the worlds afterwards are the worlds that existed, each as it was,
    and exactly one new world (as a collection: nothing is said about
    their order), and the scene's world is that new world, held by a
    reference that named no world before. *)
Theorem X10_scene_world_replaced_exactly_with_path
        (H : PreviewWorld.Host) (shading : PreviewWorld.Shading)
        (s : Session PreviewWorld.Blend) :
  let r := @PreviewWorld.execute H shading s in
  let before := PreviewWorld.worlds (data s) in
  let after := PreviewWorld.worlds (data (snd r)) in
  PreviewWorld.studio_lights (data (snd r)) = PreviewWorld.studio_lights (data s)
  /\ if PreviewWorld.path_missing
          (PreviewWorld.get_studio_light_path (PreviewWorld.studio_lights (data s))
                                              (PreviewWorld.studio_light shading))
     then data (snd r) = data s
     else exists wid w,
            Permutation after (w :: before)
            /\ PreviewWorld.scene_world (data (snd r)) = Some wid
            /\ nth_error after wid = Some w
            /\ nth_error before wid = None.
Proof.
  cbv zeta.
  destruct (PreviewWorld.path_missing _) eqn:Hm.
  - rewrite (execute_path_missing _ _ Hm). cbn. auto.
  - destruct (PreviewWorld.get_studio_light_path _ _) as [path|] eqn:Hp;
      [|discriminate Hm].
    destruct (@execute_resolved_frame H shading s path Hp Hm)
      as ((w & W) & S & L & _). cbv zeta in W, S, L.
    split; [exact L|].
    exists (List.length (PreviewWorld.worlds (data s))), w.
    rewrite W. split; [apply Permutation_sym, Permutation_cons_append|].
    split; [exact S|]. split.
    + rewrite nth_error_app2 by apply Nat.le_refl. rewrite Nat.sub_diag. reflexivity.
    + apply nth_error_None. apply Nat.le_refl.
Qed.

(** X11.  However the operator ends, every image that was loaded is still
    there, as it was, and at most one image has been added (as a
    collection: nothing is said about their order); the images are exactly
    as before when an image named like the file is loaded from that very
    path. *)
Theorem X11_images_grow_by_one_at_most
        (H : PreviewWorld.Host) (shading : PreviewWorld.Shading)
        (s : Session PreviewWorld.Blend) :
  let r := @PreviewWorld.execute H shading s in
  let before := PreviewWorld.images (data s) in
  let after := PreviewWorld.images (data (snd r)) in
  (after = before \/ exists img, Permutation after (img :: before))
  /\ (forall path,
        PreviewWorld.get_studio_light_path (PreviewWorld.studio_lights (data s))
                                           (PreviewWorld.studio_light shading)
        = Some path ->
        needs_load path before = false ->
        after = before).
Proof.
  cbv zeta.
  destruct (PreviewWorld.path_missing
              (PreviewWorld.get_studio_light_path (PreviewWorld.studio_lights (data s))
                                                  (PreviewWorld.studio_light shading)))
    eqn:Hm.
  - rewrite (execute_path_missing _ _ Hm). cbn. auto.
  - destruct (PreviewWorld.get_studio_light_path _ _) as [path|] eqn:Hp;
      [|discriminate Hm].
    destruct (@execute_resolved_frame H shading s path Hp Hm)
      as (_ & _ & _ & _ & (extra & Hi & Hl & Hn) & _). cbv zeta in Hi.
    rewrite Hi. split.
    + destruct extra as [|img [|img' extra]].
      * left. apply app_nil_r.
      * right. exists img. apply Permutation_sym, Permutation_cons_append.
      * simpl in Hl. lia.
    + intros p Ep. injection Ep as <-. intros N. rewrite (Hn N). apply app_nil_r.
Qed.

(** X12.  The operator prints nothing, and reports once when it returns:
    the information "Copied HDRI '...' to World" when it finishes, one
    error when it is cancelled; when an exception leaves it, it has
    reported nothing.  It never reports a warning. *)
Theorem X12_one_report_per_return
        (H : PreviewWorld.Host) (shading : PreviewWorld.Shading)
        (s : Session PreviewWorld.Blend) :
  let r := @PreviewWorld.execute H shading s in
  stdout (snd r) = stdout s
  /\ match fst r with
     | Ok FINISHED =>
         reports (snd r)
         = (reports s ++ [(INFO, ("Copied HDRI '" ++ PreviewWorld.studio_light shading
                                  ++ "' to World")%string)])%list
     | Ok CANCELLED => exists msg, reports (snd r) = (reports s ++ [(ERROR, msg)])%list
     | Raise _ => reports (snd r) = reports s
     end.
Proof.
  cbv zeta.
  destruct (PreviewWorld.path_missing
              (PreviewWorld.get_studio_light_path (PreviewWorld.studio_lights (data s))
                                                  (PreviewWorld.studio_light shading)))
    eqn:Hm.
  - rewrite (execute_path_missing _ _ Hm). cbn. split; [reflexivity|].
    eexists. reflexivity.
  - destruct (PreviewWorld.get_studio_light_path _ _) as [path|] eqn:Hp;
      [|discriminate Hm].
    destruct (@execute_resolved_frame H shading s path Hp Hm)
      as (_ & _ & _ & O & _ & R). cbv zeta in O, R.
    split; [exact O|].
    destruct (fst (PreviewWorld.execute shading s)) as [[|]|e]; auto.
    destruct R as [e R]. eexists. exact R.
Qed.

(** X13.  On a host that has the eight node types with the sockets the
    operator uses, and with a studio-light path that exists, no exception
    leaves the operator: it finishes when the image is at hand (loaded
    already from that path, or loadable), and is cancelled when the image
    has to be loaded and loading raises. *)
Theorem X13_outcome_on_a_host_with_the_nodes
        (H : PreviewWorld.Host) (shading : PreviewWorld.Shading)
        (s : Session PreviewWorld.Blend) (path : string) :
  graph_nodes_ok = true ->
  PreviewWorld.get_studio_light_path (PreviewWorld.studio_lights (data s))
                                     (PreviewWorld.studio_light shading) = Some path ->
  PreviewWorld.path_missing (Some path) = false ->
  fst (@PreviewWorld.execute H shading s)
  = if image_available path (PreviewWorld.images (data s))
    then Ok FINISHED else Ok CANCELLED.
Proof.
  intros G Hp Hm.
  pose proof G as G'. unfold graph_nodes_ok in G'.
  repeat (apply andb_true_iff in G'; destruct G' as [G' _]).
  apply node_ok_elim in G'. destruct G' as (env & He & Hi & Ho).
  destruct (Hi (PreviewWorld.Name "Vector") ltac:(simpl; auto)) as [j Ej].
  destruct (Ho (PreviewWorld.Name "Color") ltac:(simpl; auto)) as [i Ei].
  rewrite (execute_resolved _ _ _ Hp Hm), create_world_run, He. cbn [fst snd].
  destruct (image_available path (PreviewWorld.images (data s))) eqn:A.
  - pose proof (load_image_runs path _ _ _ _
                  (with_new_world (PreviewWorld.studio_light shading)
                     (PreviewWorld.mkNodeTree [at_location env (-300, 0)%Z] []) s)
                  eq_refl A) as L.
    destruct (PreviewWorld.load_image _ 0 path _) as [[u|e] s2] eqn:E;
      [|discriminate L].
    eapply load_image_ok in E; [|reflexivity].
    destruct E as (img & Lw & _).
    rewrite (on_world_last _ _ _ _ Lw).
    pose proof (build_graph_runs shading
                  (PreviewWorld.world_name
                     (PreviewWorld.worlds_new
                        ("Preview " ++ PreviewWorld.studio_light shading)
                        (PreviewWorld.worlds (data s))))
                  true (with_image (at_location env (-300, 0)%Z) img) G
                  (ex_intro _ i Ei) (ex_intro _ j Ej)) as B.
    destruct (PreviewWorld.build_graph shading 0 _) as [[u'|e] w'];
      [reflexivity | discriminate B].
  - unfold image_available in A. apply orb_false_iff in A as [N O].
    apply negb_false_iff in N.
    destruct (PreviewWorld.images_load path (PreviewWorld.images (data s))) as [e|img] eqn:I;
      [|discriminate O].
    rewrite (load_image_fails _ _ _ _ e) by assumption. reflexivity.
Qed.

Lemma X13_witness :
  @graph_nodes_ok blender = true
  /\ fst (@PreviewWorld.execute blender forest_shading view_session) = Ok FINISHED
  /\ fst (@PreviewWorld.execute unreadable forest_shading view_session) = Ok CANCELLED.
Proof.
  split; [vm_compute; reflexivity|]. split.
  - rewrite (X13_outcome_on_a_host_with_the_nodes blender forest_shading view_session
               forest_path); vm_compute; reflexivity.
  - rewrite (X13_outcome_on_a_host_with_the_nodes unreadable forest_shading view_session
               forest_path); vm_compute; reflexivity.
Defined.

(** X14.  Without a selection the operator writes no select flag of its
    own: the curves are left as [reveal(select=False)] and then [view_all],
    called in the current context, leave them; [view_all] is not called
    when [reveal] raises; the visible curves and the screen areas play no
    part.  The reports are "No FCurve selected in the Graph Editor." and,
    when one of the two operators raised, the error that names its
    exception. *)
Theorem X14_nothing_selected_reveals_all
        (G : Focus.GraphEditor) (ctx : Focus.Context) (s : Session (nat -> Focus.FCurve)) :
  Focus.selected_editable_fcurves ctx = [] ->
  let revealed := Focus.graph_op None (Focus.Reveal false) (data s) in
  let viewed := Focus.graph_op None Focus.ViewAll (snd revealed) in
  let failure := match fst revealed with
                 | Raise e => Some e
                 | Ok _ => match fst viewed with
                           | Raise e => Some e
                           | Ok _ => None
                           end
                 end in
  fst (@Focus.execute G ctx s) = Ok CANCELLED
  /\ data (snd (@Focus.execute G ctx s))
     = match fst revealed with
       | Ok _ => snd viewed
       | Raise _ => snd revealed
       end
  /\ stdout (snd (@Focus.execute G ctx s)) = stdout s
  /\ reports (snd (@Focus.execute G ctx s))
     = (reports s
        ++ (INFO, "No FCurve selected in the Graph Editor.")
        :: match failure with
           | Some e => [(ERROR, ("Failed to call graph operators: " ++ exn_str e)%string)]
           | None => []
           end)%list.
Proof.
  intros Hs. cbv zeta. rewrite (execute_no_selection _ _ Hs).
  unfold bind, report, modify, try_except, Focus.call, ret. cbn [data reports stdout].
  destruct (Focus.graph_op None (Focus.Reveal false) (data s)) as [[u|e] st1];
    cbn [fst snd data reports stdout].
  - destruct (Focus.graph_op None Focus.ViewAll st1) as [[u'|e] st2];
      cbn [fst snd data reports stdout]; rewrite <- ?app_assoc; auto.
  - rewrite <- app_assoc. auto.
Qed.

Lemma X14_witness :
  Focus.selected_editable_fcurves no_selection_ctx = []
  /\ fst (@Focus.execute strict_graph no_selection_ctx graph_session) = Ok CANCELLED
  /\ reports (snd (@Focus.execute strict_graph no_selection_ctx graph_session))
     = [(INFO, "No FCurve selected in the Graph Editor.");
        (ERROR, "Failed to call graph operators: "
                ++ "Operator bpy.ops.graph.poll() failed, context is incorrect")].
Proof.
  split; [reflexivity|].
  destruct (X14_nothing_selected_reveals_all strict_graph no_selection_ctx graph_session
                                             eq_refl) as (A & _ & _ & R).
  split; [exact A|]. rewrite R. vm_compute. reflexivity.
Defined.

End FurtherProperties.
